(** * The fact-checker pipeline: a shallow embedding and its properties

    Part I embeds the Python sources of the backend, one module per file or
    library:

    - [Py], [Re], [Json]: the built-ins, the regular expressions and the
      JSON decoder that the services call;
    - [Pathway]: [services/pathway_service.py], the claim classifier;
    - [Host]: what a request learns from outside the program;
    - [Llama]: [services/llama_service.py], prompts, backend call and reply
      parsing, in the legacy and in the universal pipeline;
    - [MemoryStore]: [models/memory_store.py], the result log;
    - [FactChecker]: [services/fact_checker.py], the orchestrator;
    - [Api]: [models/schemas.py] and the history endpoint of [main.py].

    Part II states and proves the properties.

    Modelling conventions.

    - A Python [str] is a [string].  The model is exact on ASCII text; a
      non-ASCII code point appears as its UTF-8 bytes, which the character
      classes treat as caseless characters that are neither spaces, digits
      nor word characters.
    - A Python [int] is a [Z].  A Python [float] is the exact rational it
      denotes ([Q]): a decimal literal such as [0.8] stands for 8/10 and
      arithmetic is exact, so rounding is abstracted.
    - A dict with text keys is an association list in insertion order.
    - An exception is a value of [exn]; a call that may raise returns a
      [result], and [try ... except] is a [match] on it.
    - The clock, the Pathway library, the backend and the renderings of
      [json.dumps], [str] and [repr] are inputs ([Host.t]). *)

From Stdlib Require Import ZArith QArith Qminmax String Ascii List Bool Lia Lqa.
From Stdlib Require Import Permutation Sorted DecimalString.
Import ListNotations.

Set Implicit Arguments.
Set Warnings "-register-all".

(* ================================================================== *)
(** * Part I: the embedding *)
(* ================================================================== *)

(** ** Exceptions and fallible results *)

Inductive exn : Type :=
| AttributeError (msg : string)
| KeyError (msg : string)
| TypeError (msg : string)
| JSONDecodeError (msg : string)
| ValidationError (msg : string)
| PathwayError (msg : string)
| RecursionError (msg : string)
| ValueError (msg : string)
| HTTPException (status : Z) (detail : string).

Inductive result (A : Type) : Type :=
| Ok (a : A)
| Raise (e : exn).
Arguments Ok {A} a.
Arguments Raise {A} e.

Definition bind {A B : Type} (r : result A) (k : A -> result B) : result B :=
  match r with
  | Ok a => k a
  | Raise e => Raise e
  end.

Notation "x <- r ;; k" := (bind r (fun x => k))
  (at level 61, r at next level, right associativity).

(** [str(e)] for the exceptions above. *)
Definition str_of_exn (e : exn) : string :=
  match e with
  | AttributeError m | KeyError m | TypeError m | JSONDecodeError m
  | ValidationError m | PathwayError m | RecursionError m | ValueError m => m
  | HTTPException _ d => d
  end.

(** ** Python built-ins used by the services *)

Module Py.

(** *** Slices and truth values *)

(** [l[start:]]: a negative [start] counts from the end. *)
Definition slice_from {A : Type} (start : Z) (l : list A) : list A :=
  let n := Z.of_nat (List.length l) in
  let i := if (start <? 0)%Z then Z.max (n + start) 0 else start in
  skipn (Z.to_nat i) l.

(** [l[:stop]]: a negative [stop] counts from the end. *)
Definition slice_to {A : Type} (stop : Z) (l : list A) : list A :=
  let n := Z.of_nat (List.length l) in
  let j := if (stop <? 0)%Z then Z.max (n + stop) 0 else stop in
  firstn (Z.to_nat j) l.

(** Truth value of an [Optional[int]]: [None] and [0] are falsy. *)
Definition truthy (o : option Z) : bool :=
  match o with
  | None => false
  | Some z => negb (z =? 0)%Z
  end.

(** *** Numbers *)

(** [a < b], [a > b] and the two-argument [min(a, b)], which answers [a]
    unless [b < a]. *)
Definition lt (a b : Q) : bool := negb (Qle_bool b a).
Definition gt (a b : Q) : bool := lt b a.
Definition min (a b : Q) : Q := if lt b a then b else a.
(** [max(a, b)] answers [a] unless [b > a]. *)
Definition max (a b : Q) : Q := if gt b a then b else a.

(** *** Characters *)

Definition code (c : ascii) : N := N_of_ascii c.

Definition between (lo hi : N) (c : ascii) : bool :=
  (lo <=? code c)%N && (code c <=? hi)%N.

(** [str.isspace] on ASCII: tab, line feed, vertical tab, form feed, carriage
    return, the four separators 0x1c..0x1f, and the space. *)
Definition is_space (c : ascii) : bool := between 9 13 c || between 28 32 c.
Definition is_digit (c : ascii) : bool := between 48 57 c.
Definition is_upper (c : ascii) : bool := between 65 90 c.
Definition is_lower (c : ascii) : bool := between 97 122 c.
Definition is_alpha (c : ascii) : bool := is_upper c || is_lower c.
(** The regular-expression class [\w]. *)
Definition is_word (c : ascii) : bool :=
  is_alpha c || is_digit c || Ascii.eqb c "_".

Definition lower_char (c : ascii) : ascii :=
  if is_upper c then ascii_of_N (code c + 32) else c.

(** *** Text *)

Local Open Scope string_scope.

(** The double quote and the line feed, which a literal cannot hold. *)
Definition dq : string := String (ascii_of_N 34) "".
Definition nl : string := String (ascii_of_N 10) "".
(** [quoted s] is [s] between double quotes. *)
Definition quoted (s : string) : string := dq ++ s ++ dq.

Definition upper_char (c : ascii) : ascii :=
  if is_lower c then ascii_of_N (code c - 32) else c.

(** [s.upper()] *)
Fixpoint upper (s : string) : string :=
  match s with
  | "" => ""
  | String c s' => String (upper_char c) (upper s')
  end.

(** [s.lower()] *)
Fixpoint lower (s : string) : string :=
  match s with
  | "" => ""
  | String c s' => String (lower_char c) (lower s')
  end.

Fixpoint rev_onto (s acc : string) : string :=
  match s with
  | "" => acc
  | String c s' => rev_onto s' (String c acc)
  end.

Definition rev (s : string) : string := rev_onto s "".

(** [s.lstrip()], [s.rstrip()], [s.strip()] *)
Fixpoint lstrip (s : string) : string :=
  match s with
  | "" => ""
  | String c s' => if is_space c then lstrip s' else s
  end.

Definition rstrip (s : string) : string := rev (lstrip (rev s)).
Definition strip (s : string) : string := rstrip (lstrip s).

(** [s.strip(chars)] for a one-character [chars]. *)
Fixpoint lstrip_char (ch : ascii) (s : string) : string :=
  match s with
  | "" => ""
  | String c s' => if Ascii.eqb c ch then lstrip_char ch s' else s
  end.

Definition strip_char (ch : ascii) (s : string) : string :=
  rev (lstrip_char ch (rev (lstrip_char ch s))).

(** [s.startswith(p)] *)
Fixpoint startswith (p s : string) : bool :=
  match p, s with
  | "", _ => true
  | String _ _, "" => false
  | String a p', String b s' => Ascii.eqb a b && startswith p' s'
  end.

(** [s.endswith(p)] *)
Definition endswith (p s : string) : bool := startswith (rev p) (rev s).

(** [sub in s] *)
Fixpoint isin (sub s : string) : bool :=
  startswith sub s ||
  match s with
  | "" => false
  | String _ s' => isin sub s'
  end.

(** [any(word in s for word in words)] *)
Definition any_in (words : list string) (s : string) : bool :=
  existsb (fun word => isin word s) words.

(** [sum(1 for word in words if word in s)] *)
Definition count_in (words : list string) (s : string) : nat :=
  List.length (filter (fun word => isin word s) words).

(** The offset of the first occurrence of [sub] in [s], if any. *)
Fixpoint index_of (sub s : string) : option nat :=
  if startswith sub s then Some 0%nat
  else match s with
       | "" => None
       | String _ s' => option_map S (index_of sub s')
       end.

Fixpoint drop (n : nat) (s : string) : string :=
  match n, s with
  | O, _ => s
  | S _, "" => ""
  | S n', String _ s' => drop n' s'
  end.

Fixpoint take (n : nat) (s : string) : string :=
  match n, s with
  | O, _ => ""
  | S _, "" => ""
  | S n', String c s' => String c (take n' s')
  end.

(** [s.find(sub, start)] for [start >= 0]: [-1] when [sub] does not occur at
    or after [start] (in particular when [start > len(s)]). *)
Definition find (sub s : string) (start : nat) : Z :=
  if (String.length s <? start)%nat then (-1)%Z
  else match index_of sub (drop start s) with
       | Some i => Z.of_nat (start + i)
       | None => (-1)%Z
       end.

(** [s[a:b]] for [a >= 0]; a negative [b] counts from the end. *)
Definition slice (s : string) (a : nat) (b : Z) : string :=
  let n := Z.of_nat (String.length s) in
  let stop := if (b <? 0)%Z then Z.max (n + b) 0 else b in
  take (Z.to_nat stop - a) (drop a s).

(** [s.split()]: the maximal runs of non-space characters. *)
Fixpoint split_onto (s : string) (cur : string) : list string :=
  match s with
  | "" => if String.eqb cur "" then [] else [rev cur]
  | String c s' =>
      if is_space c
      then (if String.eqb cur "" then split_onto s' ""
            else rev cur :: split_onto s' "")
      else split_onto s' (String c cur)
  end.

Definition split (s : string) : list string := split_onto s "".

(** [sep.join(parts)] *)
Fixpoint join (sep : string) (parts : list string) : string :=
  match parts with
  | [] => ""
  | [p] => p
  | p :: ps => p ++ sep ++ join sep ps
  end.

(** [list(set(xs))]: the distinct elements.  Python leaves the iteration
    order of a set unspecified; the model lists them by first occurrence, and
    no statement below depends on the order. *)
Fixpoint distinct_onto (xs seen : list string) : list string :=
  match xs with
  | [] => []
  | x :: xs' =>
      if existsb (String.eqb x) seen then distinct_onto xs' seen
      else x :: distinct_onto xs' (x :: seen)
  end.

Definition list_set (xs : list string) : list string := distinct_onto xs [].

(** Decimal digits. *)
Definition digit_value (c : ascii) : Z := Z.of_N (code c - 48).

Fixpoint digits_onto (s : string) (acc : Z) : Z :=
  match s with
  | "" => acc
  | String c s' => digits_onto s' (10 * acc + digit_value c)
  end.

(** [int(s)] for a run of digits. *)
Definition int_of_digits (s : string) : Z := digits_onto s 0.

(** [float(s)] for text of the shape [\d+(\.\d+)?]. *)
Definition float_of_decimal (s : string) : Q :=
  match index_of "." s with
  | None => inject_Z (int_of_digits s)
  | Some i =>
      let whole := take i s in
      let frac := drop (S i) s in
      Qmake (int_of_digits (whole ++ frac))
            (Z.to_pos (10 ^ Z.of_nat (String.length frac)))
  end.

(** [str(n)] for a natural number and for an integer. *)
Definition str_of_nat (n : nat) : string := NilZero.string_of_uint (Nat.to_uint n).

Definition str_of_Z (z : Z) : string := NilZero.string_of_int (Z.to_int z).

(** [[str(i) for i in range(lo, lo + n)]] *)
Definition range_strs (lo n : nat) : list string := map str_of_nat (seq lo n).

(** Rounding to the nearest integer, ties to even. *)
Definition round_half_even (q : Q) : Z :=
  let n := Qnum q in
  let d := Z.pos (Qden q) in
  let t := (n / d)%Z in
  let r := (n mod d)%Z in
  match (2 * r ?= d)%Z with
  | Lt => t
  | Gt => (t + 1)%Z
  | Eq => if Z.even t then t else (t + 1)%Z
  end.

(** [f"{x:.1%}"] for [x >= 0]. *)
Definition format_percent1 (x : Q) : string :=
  let t := round_half_even (x * 1000) in
  str_of_Z (t / 10) ++ "." ++ str_of_Z (t mod 10) ++ "%".

(** The digits of [n] padded with zeros on the left to [width] places. *)
Definition zero_padded (width : nat) (n : Z) : string :=
  let s := str_of_Z n in
  String.concat "" (repeat "0" (width - String.length s)) ++ s.

(** The smallest [k] in [1..k0 + fuel] with [q * 10^k] an integer. *)
Fixpoint decimals_needed (q : Q) (k : nat) (fuel : nat) : nat :=
  match fuel with
  | O => k
  | S fuel' =>
      if (Qnum q * 10 ^ Z.of_nat k mod Z.pos (Qden q) =? 0)%Z then k
      else decimals_needed q (S k) fuel'
  end.

(** [str(x)] for a float [x >= 0] that is a decimal fraction of at most 17
    places, such as the literals [85.0] and [99.9]: the integer part, a dot
    and the fraction digits (at least one). *)
Definition str_of_float (x : Q) : string :=
  let k := decimals_needed x 1 16 in
  let scaled := (Qnum x * 10 ^ Z.of_nat k / Z.pos (Qden x))%Z in
  let unit := (10 ^ Z.of_nat k)%Z in
  str_of_Z (scaled / unit) ++ "." ++ zero_padded k (scaled mod unit).

(** The offset of the last occurrence of the character [c] in [s]. *)
Definition rindex_char (c : ascii) (s : string) : option nat :=
  match index_of (String c "") (rev s) with
  | Some i => Some (String.length s - 1 - i)%nat
  | None => None
  end.

(** [s.rfind(c)] for a one-character [c]. *)
Definition rfind_char (c : ascii) (s : string) : Z :=
  match rindex_char c s with
  | Some i => Z.of_nat i
  | None => (-1)%Z
  end.

(** The lines of a text, joined by line feeds. *)
Definition lines (ls : list string) : string := join nl ls.

(** [all(P(c) for c in s)] *)
Definition all_chars (P : ascii -> bool) (s : string) : bool :=
  forallb P (list_ascii_of_string s).

(** [s.partition(ch)[0]]: the text before the first [ch], all of [s] when
    it holds none. *)
Fixpoint before (ch : ascii) (s : string) : string :=
  match s with
  | "" => ""
  | String c s' => if Ascii.eqb c ch then "" else String c (before ch s')
  end.

End Py.
(** ** Regular expressions, as Python's [re] matches them

    A backtracking matcher: alternatives are tried left to right and
    repetition is greedy, so the first match it finds is the one [re]
    reports.  A pattern of the sources is written as a term of [re]; a flag
    such as [re.IGNORECASE] or [re.DOTALL] is folded into the character
    classes of the term. *)

Module Re.

Local Open Scope string_scope.

Inductive re : Type :=
| Eps                          (* the empty pattern *)
| Chr (p : ascii -> bool)      (* one character of a class *)
| Cat (a b : re)               (* a then b *)
| Alt (a b : re)               (* a|b *)
| Star (a : re)                (* a*, greedy *)
| WordB                        (* \b *)
| Group (a : re).              (* the capturing group (a) *)

Definition Plus (a : re) : re := Cat a (Star a).
Definition Opt (a : re) : re := Alt a Eps.

(** [a{n}] and [a{lo,hi}], greedy. *)
Fixpoint Rep (n : nat) (a : re) : re :=
  match n with
  | O => Eps
  | S n' => Cat a (Rep n' a)
  end.

Fixpoint UpTo (n : nat) (a : re) : re :=
  match n with
  | O => Eps
  | S n' => Opt (Cat a (UpTo n' a))
  end.

Definition RepRange (lo hi : nat) (a : re) : re := Cat (Rep lo a) (UpTo (hi - lo) a).

(** Character classes. *)
Definition char (c : ascii) : re := Chr (Ascii.eqb c).
Definition char_i (c : ascii) : re :=
  Chr (fun x => Ascii.eqb (Py.lower_char x) (Py.lower_char c)).
Definition one_of (cs : string) : re :=
  Chr (fun x => existsb (Ascii.eqb x) (list_ascii_of_string cs)).
Definition none_of (cs : string) : re :=
  Chr (fun x => negb (existsb (Ascii.eqb x) (list_ascii_of_string cs))).
Definition any : re := Chr (fun _ => true).          (* . under DOTALL *)
Definition digit : re := Chr Py.is_digit.            (* \d *)
Definition space : re := Chr Py.is_space.            (* \s *)
Definition letter : re := Chr Py.is_alpha.           (* [a-zA-Z] *)

(** A literal word, and the same under [re.IGNORECASE]. *)
Fixpoint lit (s : string) : re :=
  match s with
  | "" => Eps
  | String c s' => Cat (char c) (lit s')
  end.

Fixpoint lit_i (s : string) : re :=
  match s with
  | "" => Eps
  | String c s' => Cat (char_i c) (lit_i s')
  end.

(** [a|b|c|...] *)
Fixpoint alts (rs : list re) : re :=
  match rs with
  | [] => Chr (fun _ => false)
  | [r] => r
  | r :: rs' => Alt r (alts rs')
  end.

Definition is_word_opt (c : option ascii) : bool :=
  match c with
  | Some x => Py.is_word x
  | None => false
  end.

Definition head (s : string) : option ascii :=
  match s with
  | "" => None
  | String c _ => Some c
  end.

(** The text consumed between [s] and its suffix [rest]. *)
Definition consumed (s rest : string) : string :=
  Py.take (String.length s - String.length rest) s.

(** [run r prev s cap k]: match [r] at the front of [s], where [prev] is
    the character before [s] and [cap] the text captured so far, and hand what
    is left to [k]; [None] when no way of matching [r] lets [k] succeed.  One
    round of [Star a] must consume a character, so at most [length s] rounds
    are tried. *)
Fixpoint run {T : Type} (r : re) (prev : option ascii) (s : string)
    (cap : option string)
    (k : option ascii -> string -> option string -> option T) : option T :=
  match r with
  | Eps => k prev s cap
  | Chr p =>
      match s with
      | String c s' => if p c then k (Some c) s' cap else None
      | "" => None
      end
  | Cat a b => run a prev s cap (fun prev' s' cap' => run b prev' s' cap' k)
  | Alt a b =>
      match run a prev s cap k with
      | Some x => Some x
      | None => run b prev s cap k
      end
  | Star a =>
      (fix rounds (n : nat) (prev : option ascii) (s : string)
           (cap : option string) {struct n} : option T :=
         match n with
         | O => k prev s cap
         | S n' =>
             match run a prev s cap
                     (fun prev' s' cap' =>
                        if (String.length s' <? String.length s)%nat
                        then rounds n' prev' s' cap'
                        else None) with
             | Some x => Some x
             | None => k prev s cap
             end
         end) (String.length s) prev s cap
  | WordB =>
      if xorb (is_word_opt prev) (is_word_opt (head s)) then k prev s cap else None
  | Group a =>
      run a prev s cap (fun prev' s' _ => k prev' s' (Some (consumed s s')))
  end.

(** A match: where it starts, its text ([group(0)]) and [group(1)]. *)
Record hit : Type := mk_hit {
  start : nat;
  text : string;
  group : option string
}.

(** [re.match] at the front of [s], with [prev] before it. *)
Definition match_here (r : re) (prev : option ascii) (s : string)
  : option (string * option string) :=
  run r prev s None (fun _ rest cap => Some (consumed s rest, cap)).

(** [re.search] *)
Fixpoint search_at (r : re) (prev : option ascii) (s : string) (pos : nat)
  : option hit :=
  match match_here r prev s with
  | Some (t, g) => Some {| start := pos; text := t; group := g |}
  | None =>
      match s with
      | "" => None
      | String c s' => search_at r (Some c) s' (S pos)
      end
  end.

Definition search (r : re) (s : string) : option hit := search_at r None s 0.

(** [re.findall] for a pattern without capturing group: the texts of the
    successive non-overlapping matches.  [skip] counts the characters of the
    last match still to step over. *)
Fixpoint findall_at (r : re) (prev : option ascii) (s : string) (skip : nat)
  : list string :=
  match skip with
  | S n =>
      match s with
      | "" => []
      | String c s' => findall_at r (Some c) s' n
      end
  | O =>
      match match_here r prev s with
      | Some (t, _) =>
          t :: match s with
               | "" => []
               | String c s' => findall_at r (Some c) s' (String.length t - 1)
               end
      | None =>
          match s with
          | "" => []
          | String c s' => findall_at r (Some c) s' 0
          end
      end
  end.

Definition findall (r : re) (s : string) : list string := findall_at r None s 0.

(** [re.sub(r, repl, s)] for a pattern that matches at least one character. *)
Fixpoint sub_at (r : re) (repl : string) (prev : option ascii) (s : string)
    (skip : nat) : string :=
  match s with
  | "" => ""
  | String c s' =>
      match skip with
      | S n => sub_at r repl (Some c) s' n
      | O =>
          match match_here r prev s with
          | Some (String _ t', _) =>
              repl ++ sub_at r repl (Some c) s' (String.length t')
          | _ => String c (sub_at r repl (Some c) s' 0)
          end
      end
  end.

Definition sub (r : re) (repl s : string) : string := sub_at r repl None s 0.

(** [re.split(r, s)] for a pattern that matches at least one character;
    [cur] holds the current piece, reversed. *)
Fixpoint split_at (r : re) (prev : option ascii) (s : string) (skip : nat)
    (cur : string) : list string :=
  match s with
  | "" => [Py.rev cur]
  | String c s' =>
      match skip with
      | S n => split_at r (Some c) s' n cur
      | O =>
          match match_here r prev s with
          | Some (String _ t', _) =>
              Py.rev cur :: split_at r (Some c) s' (String.length t') ""
          | _ => split_at r (Some c) s' 0 (String c cur)
          end
      end
  end.

Definition split (r : re) (s : string) : list string := split_at r None s 0 "".

(** The characters a pattern can consume: every character class of [r]
    lies within [P]. *)
Fixpoint consumes_only (P : ascii -> bool) (r : re) : Prop :=
  match r with
  | Eps | WordB => True
  | Chr p => forall c, p c = true -> P c = true
  | Cat a b | Alt a b => consumes_only P a /\ consumes_only P b
  | Star a | Group a => consumes_only P a
  end.

End Re.
(** ** JSON values and [json.loads]

    The decoder follows [json.decoder] and [json.scanner]: the same grammar,
    the same order of tests and the same error for each failure (the position
    that Python appends to a message is left out).  Integers decode to [Int],
    numbers with a fraction or an exponent to [Float], and the three
    constants [NaN], [Infinity], [-Infinity] to [Special]. *)

Module Json.

Local Open Scope string_scope.

Inductive special : Type := NaN | PosInf | NegInf.

Inductive value : Type :=
| Null
| Bool (b : bool)
| Int (z : Z)
| Float (q : Q)
| Special (x : special)
| Str (s : string)
| Arr (items : list value)
| Obj (pairs : list (string * value)).

(** *** Dicts with text keys, in insertion order *)

Definition dict : Type := list (string * value).

(** [d.get(key)] *)
Fixpoint get (key : string) (d : dict) : option value :=
  match d with
  | [] => None
  | (k, v) :: d' => if String.eqb k key then Some v else get key d'
  end.

(** [d.get(key, default)] *)
Definition get_default (key : string) (default : value) (d : dict) : value :=
  match get key d with
  | Some v => v
  | None => default
  end.

(** [key in d] *)
Definition has (key : string) (d : dict) : bool :=
  match get key d with
  | Some _ => true
  | None => false
  end.

(** [d[key] = v]: an existing key keeps its place. *)
Fixpoint set (key : string) (v : value) (d : dict) : dict :=
  match d with
  | [] => [(key, v)]
  | (k, w) :: d' =>
      if String.eqb k key then (k, v) :: d' else (k, w) :: set key v d'
  end.

(** [dict(pairs)] *)
Definition dict_of (pairs : list (string * value)) : dict :=
  fold_left (fun d kv => set (fst kv) (snd kv) d) pairs [].

(** *** The scanner *)

Inductive outcome (A : Type) : Type :=
| Parsed (a : A) (rest : string)
| Bad (msg : string)
| OutOfFuel.
Arguments Parsed {A} a rest.
Arguments Bad {A} msg.
Arguments OutOfFuel {A}.

(** The four characters of [WHITESPACE]: space, tab, line feed, carriage
    return. *)
Definition is_ws (c : ascii) : bool :=
  let n := N_of_ascii c in
  ((n =? 32) || (n =? 9) || (n =? 10) || (n =? 13))%N.

(** What an outcome leaves: a parsed value leaves at most [n] characters,
    and the nested calls were enough. *)
Definition within {A : Type} (o : outcome A) (n : nat) : Prop :=
  match o with
  | Parsed _ rest => (String.length rest <= n)%nat
  | Bad _ => True
  | OutOfFuel => False
  end.

(** [WHITESPACE.match(s, end).end()] *)
Fixpoint skip_ws (s : string) : string :=
  match s with
  | String c s' => if is_ws c then skip_ws s' else s
  | "" => ""
  end.

Definition hex_value (c : ascii) : option N :=
  if Py.is_digit c then Some (Py.code c - 48)%N
  else if Py.between 97 102 c then Some (Py.code c - 87)%N
  else if Py.between 65 70 c then Some (Py.code c - 55)%N
  else None.

Definition hex4 (a b c d : ascii) : option N :=
  match hex_value a, hex_value b, hex_value c, hex_value d with
  | Some x, Some y, Some z, Some w => Some (((x * 16 + y) * 16 + z) * 16 + w)%N
  | _, _, _, _ => None
  end.

(** The UTF-8 bytes of a code point, pushed on [acc] in reverse. *)
Definition push_utf8 (n : N) (acc : string) : string :=
  let byte x := ascii_of_N x in
  (if n <? 128 then String (byte n) acc
   else if n <? 2048 then
     String (byte (128 + n mod 64)) (String (byte (192 + n / 64)) acc)
   else if n <? 65536 then
     String (byte (128 + n mod 64))
       (String (byte (128 + (n / 64) mod 64)) (String (byte (224 + n / 4096)) acc))
   else
     String (byte (128 + n mod 64))
       (String (byte (128 + (n / 64) mod 64))
          (String (byte (128 + (n / 4096) mod 64))
             (String (byte (240 + n / 262144)) acc))))%N.

(** [BACKSLASH[esc]] *)
Definition unescape (esc : ascii) : option ascii :=
  match N_of_ascii esc with
  | 34%N => Some (ascii_of_N 34)     (* the double quote *)
  | 92%N => Some (ascii_of_N 92)     (* the backslash *)
  | 47%N => Some "/"%char
  | 98%N => Some (ascii_of_N 8)      (* b *)
  | 102%N => Some (ascii_of_N 12)    (* f *)
  | 110%N => Some (ascii_of_N 10)    (* n *)
  | 114%N => Some (ascii_of_N 13)    (* r *)
  | 116%N => Some (ascii_of_N 9)     (* t *)
  | _ => None
  end.

Definition is_dq (c : ascii) : bool := (N_of_ascii c =? 34)%N.
Definition is_backslash (c : ascii) : bool := (N_of_ascii c =? 92)%N.

Definition is_high_surrogate (n : N) : bool := ((55296 <=? n) && (n <=? 56319))%N.
Definition is_low_surrogate (n : N) : bool := ((56320 <=? n) && (n <=? 57343))%N.

(** [scanstring(s, end, strict=True)], from just after the opening quote;
    [acc] is the decoded text so far, reversed. *)
Fixpoint scanstring (s : string) (acc : string) : outcome string :=
  match s with
  | "" => Bad "Unterminated string starting at"
  | String c s' =>
      if is_dq c then Parsed (Py.rev acc) s'
      else if is_backslash c then
        match s' with
        | "" => Bad "Unterminated string starting at"
        | String esc s'' =>
            if Ascii.eqb esc "u" then
              match s'' with
              | String h1 (String h2 (String h3 (String h4 s4))) =>
                  match hex4 h1 h2 h3 h4 with
                  | None => Bad "Invalid \uXXXX escape"
                  | Some hi =>
                      let single := scanstring s4 (push_utf8 hi acc) in
                      match s4 with
                      | String b (String u (String l1 (String l2 (String l3
                          (String l4 s10))))) =>
                          if is_high_surrogate hi && is_backslash b && Ascii.eqb u "u"
                          then
                            match hex4 l1 l2 l3 l4 with
                            | None => Bad "Invalid \uXXXX escape"
                            | Some lo =>
                                if is_low_surrogate lo then
                                  scanstring s10
                                    (push_utf8
                                       (65536 + (hi - 55296) * 1024 + (lo - 56320))%N
                                       acc)
                                else single
                            end
                          else single
                      | _ => single
                      end
                  end
              | _ => Bad "Invalid \uXXXX escape"
              end
            else
              match unescape esc with
              | Some ch => scanstring s'' (String ch acc)
              | None => Bad "Invalid \escape"
              end
        end
      else if (N_of_ascii c <? 32)%N then Bad "Invalid control character at"
      else scanstring s' (String c acc)
  end.

(** [NUMBER_RE], in its three groups: an optional minus sign and [0] or a
    run of digits that does not start with [0]; a dot and digits; [e] or [E],
    an optional sign and digits. *)
Definition integer_re : Re.re :=
  Re.Cat (Re.Opt (Re.char "-"))
    (Re.Alt (Re.char "0") (Re.Cat (Re.Chr (Py.between 49 57)) (Re.Star Re.digit))).
Definition frac_re : Re.re := Re.Cat (Re.char ".") (Re.Plus Re.digit).
Definition exp_re : Re.re :=
  Re.Cat (Re.one_of "eE") (Re.Cat (Re.Opt (Re.one_of "-+")) (Re.Plus Re.digit)).

(** A signed run of digits. *)
Definition signed (s : string) : Z :=
  match s with
  | String "-" s' => (- Py.int_of_digits s')%Z
  | String "+" s' => Py.int_of_digits s'
  | _ => Py.int_of_digits s
  end.

Definition negative (s : string) : bool :=
  match s with
  | String "-" _ => true
  | _ => false
  end.

(** [float(integer + frac + exp)], exactly. *)
Definition float_of (integer frac exp : string) : Q :=
  let digits := Py.drop 1 frac in
  let mantissa := (Z.abs (signed integer) * 10 ^ Z.of_nat (String.length digits)
                   + Py.int_of_digits digits)%Z in
  let mantissa := if negative integer then (- mantissa)%Z else mantissa in
  let e := (signed (Py.drop 1 exp) - Z.of_nat (String.length digits))%Z in
  if (0 <=? e)%Z then inject_Z (mantissa * 10 ^ e)%Z
  else Qmake mantissa (Z.to_pos (10 ^ (- e))%Z).

(** [match_number]: the number at the front of [s], and what follows. *)
Definition match_number (s : string) : option (value * string) :=
  match Re.match_here integer_re None s with
  | None => None
  | Some (integer, _) =>
      let s1 := Py.drop (String.length integer) s in
      let frac :=
        match Re.match_here frac_re None s1 with
        | Some (t, _) => t
        | None => ""
        end in
      let s2 := Py.drop (String.length frac) s1 in
      let exp :=
        match Re.match_here exp_re None s2 with
        | Some (t, _) => t
        | None => ""
        end in
      let s3 := Py.drop (String.length exp) s2 in
      if String.eqb frac "" && String.eqb exp ""
      then Some (Int (signed integer), s3)
      else Some (Float (float_of integer frac exp), s3)
  end.

Definition literal (word : string) (v : value) (s : string)
  : option (value * string) :=
  if Py.startswith word s then Some (v, Py.drop (String.length word) s) else None.

Definition first_of {A : Type} (xs : list (option A)) : option A :=
  fold_right (fun x rest => match x with Some _ => x | None => rest end) None xs.

(** What a successful attempt leaves: at most [n] characters. *)
Definition leaves (x : option (value * string)) (n : nat) : Prop :=
  match x with
  | Some (_, rest) => (String.length rest <= n)%nat
  | None => True
  end.

(** A value that is neither a text, an object nor an array. *)
Definition scalar (s : string) : outcome value :=
  match first_of [literal "null" Null s; literal "true" (Bool true) s;
                  literal "false" (Bool false) s; match_number s;
                  literal "NaN" (Special NaN) s;
                  literal "Infinity" (Special PosInf) s;
                  literal "-Infinity" (Special NegInf) s] with
  | Some (v, rest) => Parsed v rest
  | None => Bad "Expecting value"
  end.

Definition expecting_name : string :=
  "Expecting property name enclosed in double quotes".

(** [scan_once], [JSONObject] and [JSONArray].  [members] starts just after
    the opening quote of a key, [elements] at a value. *)
Fixpoint scan_once (fuel : nat) (s : string) : outcome value :=
  match fuel with
  | O => OutOfFuel
  | S fuel' =>
      match s with
      | "" => Bad "Expecting value"
      | String c s' =>
          if is_dq c then
            match scanstring s' "" with
            | Parsed t rest => Parsed (Str t) rest
            | Bad m => Bad m
            | OutOfFuel => OutOfFuel
            end
          else if Ascii.eqb c "{" then
            match skip_ws s' with
            | "" => Bad expecting_name
            | String q rest =>
                if Ascii.eqb q "}" then Parsed (Obj []) rest
                else if is_dq q then members fuel' rest []
                else Bad expecting_name
            end
          else if Ascii.eqb c "[" then
            match skip_ws s' with
            | "" => elements fuel' "" []
            | String q rest =>
                if Ascii.eqb q "]" then Parsed (Arr []) rest
                else elements fuel' (String q rest) []
            end
          else scalar s
      end
  end

with members (fuel : nat) (s : string) (pairs : list (string * value))
  : outcome value :=
  match fuel with
  | O => OutOfFuel
  | S fuel' =>
      match scanstring s "" with
      | Bad m => Bad m
      | OutOfFuel => OutOfFuel
      | Parsed key s1 =>
          match skip_ws s1 with
          | "" => Bad "Expecting ':' delimiter"
          | String colon s2 =>
              if Ascii.eqb colon ":" then
                match scan_once fuel' (skip_ws s2) with
                | Bad m => Bad m
                | OutOfFuel => OutOfFuel
                | Parsed v s3 =>
                    let pairs := (pairs ++ [(key, v)])%list in
                    match skip_ws s3 with
                    | "" => Bad "Expecting ',' delimiter"
                    | String d rest =>
                        if Ascii.eqb d "}" then Parsed (Obj (dict_of pairs)) rest
                        else if Ascii.eqb d "," then
                          match skip_ws rest with
                          | "" => Bad expecting_name
                          | String q rest' =>
                              if is_dq q then members fuel' rest' pairs
                              else Bad expecting_name
                          end
                        else Bad "Expecting ',' delimiter"
                    end
                end
              else Bad "Expecting ':' delimiter"
          end
      end
  end

with elements (fuel : nat) (s : string) (items : list value) : outcome value :=
  match fuel with
  | O => OutOfFuel
  | S fuel' =>
      match scan_once fuel' s with
      | Bad m => Bad m
      | OutOfFuel => OutOfFuel
      | Parsed v s1 =>
          let items := (items ++ [v])%list in
          match skip_ws s1 with
          | "" => Bad "Expecting ',' delimiter"
          | String d rest =>
              if Ascii.eqb d "]" then Parsed (Arr items) rest
              else if Ascii.eqb d "," then elements fuel' (skip_ws rest) items
              else Bad "Expecting ',' delimiter"
          end
      end
  end.

(** [json.loads(s)].  A value of [n] characters needs at most [2 * n + 1]
    nested calls, so the scanner never runs out of them here (lemma
    [loads_within_fuel] below); Python's own limit on the nesting depth is
    not modelled. *)
Definition loads (s : string) : result value :=
  match scan_once (2 * String.length s + 2) (skip_ws s) with
  | Parsed v rest =>
      if String.eqb (skip_ws rest) "" then Ok v
      else Raise (JSONDecodeError "Extra data")
  | Bad m => Raise (JSONDecodeError m)
  | OutOfFuel => Raise (RecursionError "maximum recursion depth exceeded")
  end.

(** Views of a value. *)
Definition as_number (v : value) : option Q :=
  match v with
  | Int z => Some (inject_Z z)
  | Float q => Some q
  | Bool b => Some (if b then 1 else 0)
  | _ => None
  end.

Definition as_str (v : value) : option string :=
  match v with
  | Str s => Some s
  | _ => None
  end.

Definition strs (l : list string) : value := Arr (map Str l).

(** A character that a JSON string holds as it is: neither the double
    quote, nor the backslash, nor a control character. *)
Definition plain (c : ascii) : bool :=
  negb (is_dq c) && negb (is_backslash c) && negb (N_of_ascii c <? 32)%N.

End Json.
(** ** [services/pathway_service.py]: [PathwayProcessor] *)

Module Pathway.

Local Open Scope string_scope.

(** The four values of [self.entity_patterns]; every use passes
    [re.IGNORECASE], so [[A-Z]] and [[a-z]] both stand for any letter. *)

(** [\d+(?:\.\d+)?] *)
Definition decimal : Re.re :=
  Re.Cat (Re.Plus Re.digit) (Re.Opt (Re.Cat (Re.char ".") (Re.Plus Re.digit))).

(** [\b\d+(?:\.\d+)?\b] *)
Definition numbers_pattern : Re.re := Re.Cat Re.WordB (Re.Cat decimal Re.WordB).

(** [\b\d{4}[-/]\d{1,2}[-/]\d{1,2}\b|\b\d{1,2}[-/]\d{1,2}[-/]\d{4}\b] *)
Definition dates_pattern : Re.re :=
  let sep := Re.one_of "-/" in
  let d4 := Re.Rep 4 Re.digit in
  let d12 := Re.RepRange 1 2 Re.digit in
  Re.Alt
    (Re.Cat Re.WordB (Re.Cat d4 (Re.Cat sep (Re.Cat d12 (Re.Cat sep (Re.Cat d12 Re.WordB))))))
    (Re.Cat Re.WordB (Re.Cat d12 (Re.Cat sep (Re.Cat d12 (Re.Cat sep (Re.Cat d4 Re.WordB)))))).

(** [\b[A-Z][a-z]+(?:\s+[A-Z][a-z]+)*\b] *)
Definition places_pattern : Re.re :=
  let name := Re.Cat Re.letter (Re.Plus Re.letter) in
  Re.Cat Re.WordB
    (Re.Cat name (Re.Cat (Re.Star (Re.Cat (Re.Plus Re.space) name)) Re.WordB)).

(** [\b\d+(?:\.\d+)?\s*(?:meters?|feet|km|miles?|kg|pounds?|celsius|fahrenheit)\b] *)
Definition measurements_pattern : Re.re :=
  let plural w := Re.Cat (Re.lit_i w) (Re.Opt (Re.char_i "s")) in
  Re.Cat Re.WordB
    (Re.Cat decimal
       (Re.Cat (Re.Star Re.space)
          (Re.Cat
             (Re.alts [plural "meter"; Re.lit_i "feet"; Re.lit_i "km";
                       plural "mile"; Re.lit_i "kg"; plural "pound";
                       Re.lit_i "celsius"; Re.lit_i "fahrenheit"])
             Re.WordB))).

(** The en dash and the em dash, as UTF-8. *)
Definition en_dash : string :=
  String (ascii_of_N 226) (String (ascii_of_N 128) (String (ascii_of_N 147) "")).
Definition em_dash : string :=
  String (ascii_of_N 226) (String (ascii_of_N 128) (String (ascii_of_N 148) "")).

(** [_normalize_text].  The pattern of the second substitution is written
    as two adjacent literals, a raw one that holds an opening bracket and
    three double quotes and a plain one that holds a backquote and the
    closing bracket: the class holds the double quote and the backquote, and
    an apostrophe stays as it is. *)
Definition _normalize_text (text : string) : string :=
  let text := Re.sub (Re.Plus Re.space) " " (Py.strip text) in
  let text := Re.sub (Re.one_of (Py.dq ++ "`")) Py.dq text in
  let text := Re.sub (Re.Alt (Re.lit en_dash) (Re.lit em_dash)) "-" text in
  text.

(** The dict returned by [_extract_entities], one key per pattern. *)
Record entities_t : Type := mk_entities {
  numbers : list string;
  dates : list string;
  places : list string;
  measurements : list string
}.

(** [_extract_entities] *)
Definition _extract_entities (claim : string) : entities_t :=
  {| numbers := Py.list_set (Re.findall numbers_pattern claim);
     dates := Py.list_set (Re.findall dates_pattern claim);
     places := Py.list_set (Re.findall places_pattern claim);
     measurements := Py.list_set (Re.findall measurements_pattern claim) |}.

(** The keyword lists of [_classify_claim_type]. *)
Definition measurement_words : list string :=
  ["taller"; "shorter"; "bigger"; "smaller"; "meters"; "feet"; "height"].
Definition temporal_words : list string :=
  ["when"; "year"; "date"; "happened"; "occurred"].
Definition geographical_words : list string :=
  ["where"; "located"; "city"; "country"; "place"].
Definition biographical_words : list string :=
  ["who"; "person"; "people"; "president"; "ceo"].
Definition definitional_words : list string :=
  ["what"; "is"; "definition"; "means"].
Definition comparative_words : list string :=
  ["more"; "less"; "than"; "compared"; "versus"].

(** [_classify_claim_type] *)
Definition _classify_claim_type (claim : string) : string :=
  let claim_lower := Py.lower claim in
  if Py.any_in measurement_words claim_lower then "measurement"
  else if Py.any_in temporal_words claim_lower then "temporal"
  else if Py.any_in geographical_words claim_lower then "geographical"
  else if Py.any_in biographical_words claim_lower then "biographical"
  else if Py.any_in definitional_words claim_lower then "definitional"
  else if Py.any_in comparative_words claim_lower then "comparative"
  else "general".

(** The classification as the specification words it: an ordered table of
    keyword sets, where the first set with a keyword in the text wins and
    [general] is the answer when none has one. *)
Definition classification_rules : list (string * list string) :=
  [("measurement", measurement_words);
   ("temporal", temporal_words);
   ("geographical", geographical_words);
   ("biographical", biographical_words);
   ("definitional", definitional_words);
   ("comparative", comparative_words)].

Fixpoint first_match (rules : list (string * list string)) (text : string)
  : string :=
  match rules with
  | [] => "general"
  | (tag, words) :: rest =>
      if Py.any_in words text then tag else first_match rest text
  end.

Definition stop_words : list string :=
  ["the"; "is"; "are"; "was"; "were"; "a"; "an"; "and"; "or"; "but";
   "in"; "on"; "at"; "to"; "for"; "of"; "with"; "by"; "that"; "this";
   "than"; "more"; "less"; "taller"; "shorter"].

(** [\b[a-zA-Z]+\b] *)
Definition word_pattern : Re.re :=
  Re.Cat Re.WordB (Re.Cat (Re.Plus Re.letter) Re.WordB).

(** [_extract_key_terms] *)
Definition _extract_key_terms (claim : string) : list string :=
  let words := Re.findall word_pattern (Py.lower claim) in
  let key_terms :=
    filter (fun word => negb (existsb (String.eqb word) stop_words)
                        && (2 <? String.length word)%nat) words in
  Py.list_set key_terms.

(** [\b\d+] *)
Definition digit_run_pattern : Re.re := Re.Cat Re.WordB (Re.Plus Re.digit).

Definition subordinate_words : list string :=
  ["that"; "which"; "who"; "where"; "when"; "because"; "since"; "although"].

(** The three measures [_calculate_complexity] reads off a claim. *)
Definition word_count (claim : string) : nat := List.length (Py.split claim).
Definition subordinate_hits (claim : string) : nat :=
  Py.count_in subordinate_words (Py.lower claim).
Definition digit_runs (claim : string) : nat :=
  List.length (Re.findall digit_run_pattern claim).

(** [sum(x for _ in range(n))], starting from [0]. *)
Fixpoint sum_of (x : Q) (n : nat) : Q :=
  match n with
  | O => 0
  | S n' => sum_of x n' + x
  end.

(** The score as a function of the three measures. *)
Definition complexity_of (words hits runs : nat) : Q :=
  let score := 0 in
  let score := score + Py.min (inject_Z (Z.of_nat words) / 10) 1.0 in
  let score := score + sum_of 0.2 hits in
  let score := score + inject_Z (Z.of_nat runs) * 0.3 in
  Py.min score 5.0.

(** [_calculate_complexity] *)
Definition _calculate_complexity (claim : string) : Q :=
  complexity_of (word_count claim) (subordinate_hits claim) (digit_runs claim).

(** The dict returned by [_analyze_claim_structure]. *)
Record structure_t : Type := mk_structure {
  is_question : bool;
  is_comparative : bool;
  has_negation : bool;
  has_quantifier : bool;
  sentence_length : nat;
  complexity_score : Q
}.

(** [_analyze_claim_structure] *)
Definition _analyze_claim_structure (claim : string) : structure_t :=
  {| is_question := Py.endswith "?" (Py.strip claim);
     is_comparative :=
       Py.any_in ["than"; "compared"; "versus"; "more"; "less"] (Py.lower claim);
     has_negation :=
       Py.any_in ["not"; "never"; "no"; "n't"; "false"] (Py.lower claim);
     has_quantifier :=
       match Re.search digit_run_pattern claim with
       | Some _ => true
       | None => false
       end;
     sentence_length := List.length (Py.split claim);
     complexity_score := _calculate_complexity claim |}.

(** [_generate_search_queries] *)
Definition _generate_search_queries (claim : string) : list string :=
  let key_terms := _extract_key_terms claim in
  let entities := _extract_entities claim in
  let queries := [claim] in
  let queries :=
    (queries ++ map (fun place => (place ++ " facts information")%string)
                    (firstn 2 (places entities)))%list in
  let queries :=
    (queries ++ map (fun number =>
                           (number ++ " " ++ Py.join " " (firstn 3 key_terms))%string)
                    (firstn 2 (numbers entities)))%list in
  let queries :=
    if (3 <=? List.length key_terms)%nat
    then (queries ++ [Py.join " " (firstn 5 key_terms)])%list
    else queries in
  firstn 5 queries.

(** The dict returned by [preprocess_claim]; [preprocessing_method] is
    present only in the fallback. *)
Record processed_claim : Type := mk_processed {
  original_claim : string;
  normalized_claim : string;
  entities : entities_t;
  claim_type : string;
  key_terms : list string;
  structure : structure_t;
  search_queries : list string;
  timestamp : string;
  preprocessing_method : option string
}.

(** The dict literal shared by [preprocess_claim] and
    [_basic_preprocessing]. *)
Definition processed_data (claim now : string) (method : option string)
  : processed_claim :=
  {| original_claim := Py.strip claim;
     normalized_claim := _normalize_text claim;
     entities := _extract_entities claim;
     claim_type := _classify_claim_type claim;
     key_terms := _extract_key_terms claim;
     structure := _analyze_claim_structure claim;
     search_queries := _generate_search_queries claim;
     timestamp := now;
     preprocessing_method := method |}.

(** [_basic_preprocessing] *)
Definition _basic_preprocessing (claim now : string) : processed_claim :=
  processed_data claim now (Some "basic").

(** [preprocess_claim].  [table_empty] is the outcome of the
    [pw.Table.empty(...)] call that opens the [try] block and [now] the clock
    reading; any exception is answered by [_basic_preprocessing]. *)
Definition preprocess_claim (table_empty : result unit) (now claim : string)
  : result processed_claim :=
  match (_ <- table_empty ;; Ok (processed_data claim now None)) with
  | Ok processed => Ok processed
  | Raise _ => Ok (_basic_preprocessing claim now)
  end.

(** The dict returned by [create_verification_context]. *)
Record verification_context : Type := mk_context {
  claim_analysis : processed_claim;
  verification_strategy : string;
  external_evidence : list string;
  confidence_factors : list string;
  potential_issues : list string
}.

(** [_determine_verification_strategy] *)
Definition _determine_verification_strategy (p : processed_claim) : string :=
  let t := claim_type p in
  if String.eqb t "measurement" then "Compare against authoritative measurement databases"
  else if String.eqb t "temporal" then "Verify dates against historical records"
  else if String.eqb t "geographical" then "Cross-reference with geographical databases"
  else if String.eqb t "biographical" then "Verify against biographical sources"
  else if String.eqb t "definitional" then "Check against authoritative definitions"
  else if String.eqb t "comparative" then "Gather data for both subjects and compare"
  else "Multi-source verification with credible sources".

Definition nonempty {A : Type} (l : list A) : bool :=
  match l with
  | [] => false
  | _ :: _ => true
  end.

Definition when (b : bool) (s : string) : list string := if b then [s] else [].

(** [_identify_confidence_factors] *)
Definition _identify_confidence_factors (p : processed_claim) : list string :=
  let st := structure p in
  (when (has_quantifier st) "Contains specific numbers - verifiable"
   ++ when (is_comparative st) "Comparative claim - requires multiple data points"
   ++ when (Py.gt (complexity_score st) 3) "High complexity - may be difficult to verify"
   ++ when (nonempty (places (entities p))) "Contains geographical references - verifiable"
   ++ when (nonempty (dates (entities p))) "Contains dates - historically verifiable")%list.

(** [_identify_potential_issues] *)
Definition _identify_potential_issues (p : processed_claim) : list string :=
  let st := structure p in
  (when (is_question st) "Claim is phrased as a question"
   ++ when (has_negation st) "Contains negation - verify the positive statement"
   ++ when (List.length (key_terms p) <? 2)%nat "Very few key terms - may be too vague"
   ++ when (Py.gt (complexity_score st) 4) "High complexity - break down into sub-claims")%list.

(** [create_verification_context] *)
Definition create_verification_context (p : processed_claim)
    (external_data : option (list string)) : verification_context :=
  {| claim_analysis := p;
     verification_strategy := _determine_verification_strategy p;
     external_evidence := match external_data with Some d => d | None => [] end;
     confidence_factors := _identify_confidence_factors p;
     potential_issues := _identify_potential_issues p |}.

End Pathway.
(** ** What a request learns from outside the program

    The clock, the Pathway library, the two ways of reaching the backend and
    the library renderings of values that the model does not compute
    ([json.dumps], [str] and [repr] of lists and dicts). *)

Module Host.

(** The outcome of [client.post(...)]: a reply with its status code and the
    text its JSON body holds under [response] (the empty text when the key
    is absent), a timeout, or any other exception, among them the one of a
    reply whose body is not JSON. *)
Inductive http_outcome : Type :=
| HttpResponse (status_code : Z) (response : string)
| HttpTimeout
| HttpFailure (e : exn).

Record t : Type := mk {
  (** [pw.Table.empty(...)] *)
  table_empty : result unit;
  (** [datetime.utcnow().isoformat()] *)
  utcnow : string;
  (** the processing times that the clock readings give, in ms: for the
      whole request and for the backend call alone *)
  elapsed_ms : Z;
  analysis_ms : Z;
  (** [ollama.generate(...)]: [None] when the client library is not
      installed, else the text under [response] or the exception raised *)
  ollama_generate : option (result string);
  http_post : http_outcome;
  (** [json.dumps(entities, indent=2)] and [json.dumps(structure, indent=2)] *)
  json_dumps_entities : Pathway.entities_t -> string;
  json_dumps_structure : Pathway.structure_t -> string;
  (** [json.dumps(value)], [str(value)] and [repr(dict)] *)
  json_dumps : Json.value -> string;
  str_of_value : Json.value -> string;
  repr_dict : Json.dict -> string
}.

(** [response.raise_for_status()] raises unless the status is a success. *)
Definition raises_for_status (status_code : Z) : bool :=
  negb ((200 <=? status_code)%Z && (status_code <? 300)%Z).

End Host.
(** ** [services/llama_service.py]: [UniversalLLaMAService] *)

Module Llama.

Local Open Scope string_scope.

(** [ClaimCategory] and its [.value] *)
Inductive ClaimCategory : Type :=
| SCIENTIFIC | MATHEMATICAL | HISTORICAL | GEOGRAPHICAL | BIOGRAPHICAL
| STATISTICAL | TECHNOLOGICAL | MEDICAL | LEGAL | ECONOMIC | POLITICAL
| CULTURAL | LINGUISTIC | DEFINITIONAL | COMPARATIVE | TEMPORAL | CAUSAL
| PREDICTIVE | OPINION_BASED | GENERAL.

Definition category_value (c : ClaimCategory) : string :=
  match c with
  | SCIENTIFIC => "scientific" | MATHEMATICAL => "mathematical"
  | HISTORICAL => "historical" | GEOGRAPHICAL => "geographical"
  | BIOGRAPHICAL => "biographical" | STATISTICAL => "statistical"
  | TECHNOLOGICAL => "technological" | MEDICAL => "medical"
  | LEGAL => "legal" | ECONOMIC => "economic" | POLITICAL => "political"
  | CULTURAL => "cultural" | LINGUISTIC => "linguistic"
  | DEFINITIONAL => "definitional" | COMPARATIVE => "comparative"
  | TEMPORAL => "temporal" | CAUSAL => "causal" | PREDICTIVE => "predictive"
  | OPINION_BASED => "opinion_based" | GENERAL => "general"
  end.

Definition category_eqb (a b : ClaimCategory) : bool :=
  String.eqb (category_value a) (category_value b).

(** [VerdictType] and its [.value]; the enum has no member [DISPUTED]. *)
Inductive VerdictType : Type :=
| TRUE | FALSE | PARTIALLY_TRUE | MISLEADING | UNVERIFIED | REQUIRES_CONTEXT
| REQUIRES_INVESTIGATION | OPINION_NOT_FACT | OUTDATED | COMPLEX.

Definition verdict_value (v : VerdictType) : string :=
  match v with
  | TRUE => "TRUE" | FALSE => "FALSE" | PARTIALLY_TRUE => "PARTIALLY_TRUE"
  | MISLEADING => "MISLEADING" | UNVERIFIED => "UNVERIFIED"
  | REQUIRES_CONTEXT => "REQUIRES_CONTEXT"
  | REQUIRES_INVESTIGATION => "REQUIRES_INVESTIGATION"
  | OPINION_NOT_FACT => "OPINION_NOT_FACT" | OUTDATED => "OUTDATED"
  | COMPLEX => "COMPLEX"
  end.

(** [VerdictType.<name>]: attribute lookup on the enum class. *)
Definition verdict_member (name : string) : result VerdictType :=
  match find (fun v => String.eqb (verdict_value v) name)
             [TRUE; FALSE; PARTIALLY_TRUE; MISLEADING; UNVERIFIED;
              REQUIRES_CONTEXT; REQUIRES_INVESTIGATION; OPINION_NOT_FACT;
              OUTDATED; COMPLEX] with
  | Some v => Ok v
  | None => Raise (AttributeError name)
  end.

(** The part of the service object the methods read. *)
Record service : Type := mk_service {
  model_name : string;
  demo_mode : bool;
  category_configs : list (ClaimCategory * Json.dict)
}.

(** [_init_category_configs]: six categories have a configuration. *)
Definition _init_category_configs : list (ClaimCategory * Json.dict) :=
  [(SCIENTIFIC,
    [("confidence_threshold", Json.Float 0.8); ("evidence_weight", Json.Float 0.9);
     ("methodology_focus", Json.Bool true); ("peer_review_importance", Json.Bool true)]);
   (MATHEMATICAL,
    [("confidence_threshold", Json.Float 0.95); ("evidence_weight", Json.Float 0.99);
     ("logical_proof_required", Json.Bool true);
     ("computational_verification", Json.Bool true)]);
   (HISTORICAL,
    [("confidence_threshold", Json.Float 0.7); ("evidence_weight", Json.Float 0.8);
     ("source_reliability", Json.Bool true); ("temporal_context", Json.Bool true)]);
   (MEDICAL,
    [("confidence_threshold", Json.Float 0.85); ("evidence_weight", Json.Float 0.9);
     ("clinical_evidence", Json.Bool true); ("safety_priority", Json.Bool true)]);
   (STATISTICAL,
    [("confidence_threshold", Json.Float 0.8); ("evidence_weight", Json.Float 0.85);
     ("data_quality", Json.Bool true); ("methodology_critical", Json.Bool true)]);
   (OPINION_BASED,
    [("confidence_threshold", Json.Float 0.3); ("evidence_weight", Json.Float 0.4);
     ("subjective_nature", Json.Bool true); ("context_dependent", Json.Bool true)])].

(** [__init__] with the environment's defaults ([DEMO_MODE] is ["true"]). *)
Definition default_service : service :=
  {| model_name := "llama2";
     demo_mode := true;
     category_configs := _init_category_configs |}.

(** [configs.get(category)] and [configs[category]] *)
Fixpoint config_get (c : ClaimCategory) (configs : list (ClaimCategory * Json.dict))
  : option Json.dict :=
  match configs with
  | [] => None
  | (k, v) :: rest => if category_eqb k c then Some v else config_get c rest
  end.

Definition config_item (c : ClaimCategory) (configs : list (ClaimCategory * Json.dict))
  : result Json.dict :=
  match config_get c configs with
  | Some v => Ok v
  | None =>
      Raise (KeyError ("<ClaimCategory." ++ Py.upper (category_value c) ++ ": '"
                       ++ category_value c ++ "'>"))
  end.

(** [_get_category_sources] *)
Definition _get_category_sources (category : ClaimCategory) : list string :=
  match category with
  | SCIENTIFIC => ["Peer-reviewed journals"; "Scientific databases"; "Research institutions"]
  | MATHEMATICAL => ["Mathematical proofs"; "Computational verification"; "Mathematical journals"]
  | HISTORICAL => ["Primary historical sources"; "Archaeological evidence"; "Historical archives"]
  | MEDICAL => ["Clinical studies"; "Medical journals"; "Health authorities"]
  | STATISTICAL => ["Government statistics"; "Survey data"; "Statistical databases"]
  | GEOGRAPHICAL => ["Geographic databases"; "Mapping services"; "Geographic surveys"]
  | LEGAL => ["Legal databases"; "Court records"; "Legislative documents"]
  | BIOGRAPHICAL => ["Official biographies"; "Historical records"; "Verified databases"]
  | COMPARATIVE => ["Comparative studies"; "Statistical analysis"; "Research data"]
  | _ => ["Reliable news sources"; "Fact-checking organizations"; "Academic sources"]
  end.

(** [_generate_intelligent_fallback_response] *)
Definition _generate_intelligent_fallback_response (claim : string)
    (category : ClaimCategory) (error_type : string) : Json.dict :=
  let cv := category_value category in
  [("verdict", Json.Str (verdict_value UNVERIFIED));
   ("confidence_score", Json.Float 30.0);
   ("explanation",
    Json.Str ("Unable to complete " ++ cv ++ " analysis for '" ++ claim
              ++ "' due to " ++ error_type ++ ". Requires manual verification."));
   ("claim_category", Json.Str cv);
   ("error_type", Json.Str error_type);
   ("key_evidence",
    Json.strs ["Claim categorized as " ++ cv;
               "Analysis interrupted by " ++ error_type;
               "Fallback response generated";
               "Manual verification recommended"]);
   ("sources_needed", Json.strs (_get_category_sources category));
   ("reasoning_steps",
    Json.strs ["Categorized as " ++ cv;
               "Attempted analysis but encountered " ++ error_type;
               "Generated fallback response";
               "Recommended manual verification"]);
   ("caveats",
    Json.strs ["Analysis incomplete due to " ++ error_type;
               "Requires retry or manual verification"])].

(** [_adjust_confidence_by_category], on a number. *)
Definition _adjust_confidence_by_category (confidence : Q)
    (category : ClaimCategory) (config : Json.dict) : Q :=
  let threshold := Json.get_default "confidence_threshold" (Json.Float 0.5) config in
  match category with
  | MATHEMATICAL =>
      if Py.gt confidence 90 then Py.min confidence 99.5
      else confidence * 0.8
  | MEDICAL => Py.min (confidence * 0.9) 85.0
  | OPINION_BASED => Py.min confidence 60.0
  | SCIENTIFIC =>
      if Py.lt confidence 70 then confidence * 0.85
      else confidence
  | _ => confidence
  end.

(** The same method on whatever value the parsed reply holds under
    [confidence_score].  A number goes through the arithmetic above (and a
    value the method returns untouched keeps its type); a text, a list, a
    dict or [None] makes the first comparison or product raise [TypeError];
    the three non-finite floats follow IEEE comparison and multiplication. *)
Definition adjust_value (confidence : Json.value) (category : ClaimCategory)
    (config : Json.dict) : result Json.value :=
  let adjusted (q : Q) : Json.value :=
    let r := _adjust_confidence_by_category q category config in
    match category with
    | MATHEMATICAL =>
        if Py.gt q 90 then (if Py.lt 99.5 q then Json.Float r else confidence)
        else Json.Float r
    | MEDICAL => Json.Float r
    | OPINION_BASED => if Py.lt 60.0 q then Json.Float r else confidence
    | SCIENTIFIC => if Py.lt q 70 then Json.Float r else confidence
    | _ => confidence
    end in
  let unsupported := Raise (TypeError "unsupported operand type(s)") in
  match category with
  | MATHEMATICAL | MEDICAL | OPINION_BASED | SCIENTIFIC =>
      match confidence with
      | Json.Special x =>
          Ok match category, x with
             | MATHEMATICAL, Json.PosInf => Json.Float 99.5
             | MEDICAL, Json.PosInf => Json.Float 85.0
             | OPINION_BASED, Json.PosInf => Json.Float 60.0
             | _, _ => confidence
             end
      | _ =>
          match Json.as_number confidence with
          | Some q => Ok (adjusted q)
          | None => unsupported
          end
      end
  | _ => Ok confidence
  end.

(** [_standardize_verdict] *)
Definition _standardize_verdict (verdict_text : string) : result string :=
  let verdict_lower := Py.lower verdict_text in
  if Py.any_in ["true"; "correct"; "accurate"; "valid"] verdict_lower
  then Ok (verdict_value TRUE)
  else if Py.any_in ["false"; "incorrect"; "wrong"; "invalid"] verdict_lower
  then Ok (verdict_value FALSE)
  else if Py.any_in ["partial"; "mostly"; "somewhat"] verdict_lower
  then Ok (verdict_value PARTIALLY_TRUE)
  else if Py.any_in ["misleading"; "deceptive"] verdict_lower
  then Ok (verdict_value MISLEADING)
  else if Py.any_in ["context"; "depends"; "conditional"] verdict_lower
  then Ok (verdict_value REQUIRES_CONTEXT)
  else if Py.any_in ["disputed"; "controversial"; "debated"] verdict_lower
  then (v <- verdict_member "DISPUTED" ;; Ok (verdict_value v))
  else Ok (verdict_value UNVERIFIED).

(** The patterns of [_extract_structured_info], all under
    [re.IGNORECASE]: a keyword, a run of colons and spaces, and a group. *)
Definition colon_or_space : Re.re :=
  Re.Chr (fun c => Ascii.eqb c ":" || Py.is_space c).

Definition labelled (keyword : string) (grp : Re.re) : Re.re :=
  Re.Cat (Re.lit_i keyword) (Re.Cat (Re.Plus colon_or_space) (Re.Group grp)).

(** The group of the verdict patterns: one or more characters other than a
    comma and a line feed. *)
Definition verdict_group : Re.re :=
  Re.Plus (Re.none_of ("," ++ Py.nl)).

Definition verdict_patterns : list Re.re :=
  [labelled "verdict" verdict_group;
   labelled "conclusion" verdict_group;
   labelled "result" verdict_group].

Definition confidence_pattern : Re.re := labelled "confidence" Pathway.decimal.

(** The group of the explanation pattern: characters other than a full
    stop, then a full stop. *)
Definition explanation_pattern : Re.re :=
  labelled "explanation" (Re.Cat (Re.Plus (Re.none_of ".")) (Re.char ".")).

(** [[.!?]+] *)
Definition sentence_end : Re.re := Re.Plus (Re.one_of ".!?").

Definition group1 (h : Re.hit) : string :=
  match Re.group h with
  | Some g => g
  | None => ""
  end.

(** The first pattern that matches decides the verdict. *)
Fixpoint first_verdict (patterns : list Re.re) (response : string)
  : option string :=
  match patterns with
  | [] => None
  | p :: rest =>
      match Re.search p response with
      | Some h => Some (Py.strip_char (ascii_of_N 34) (Py.strip (group1 h)))
      | None => first_verdict rest response
      end
  end.

(** [_extract_structured_info] *)
Definition _extract_structured_info (response : string) : result Json.dict :=
  let response_dict : Json.dict := [] in
  response_dict <-
    match first_verdict verdict_patterns response with
    | Some verdict_text =>
        v <- _standardize_verdict verdict_text ;;
        Ok (Json.set "verdict" (Json.Str v) response_dict)
    | None => Ok response_dict
    end ;;
  let response_dict :=
    match Re.search confidence_pattern response with
    | Some h =>
        Json.set "confidence_score" (Json.Float (Py.float_of_decimal (group1 h)))
                 response_dict
    | None => response_dict
    end in
  let response_dict :=
    match Re.search explanation_pattern response with
    | Some h => Json.set "explanation" (Json.Str (Py.strip (group1 h))) response_dict
    | None =>
        let sentences := Re.split sentence_end response in
        match find (fun sentence => (20 <? String.length (Py.strip sentence))%nat)
                   sentences with
        | Some sentence => Json.set "explanation" (Json.Str (Py.strip sentence)) response_dict
        | None => response_dict
        end
    end in
  Ok response_dict.

(** [\{.*\}] under [re.DOTALL]: from the first opening brace to the last
    closing one. *)
Definition json_span : Re.re :=
  Re.Cat (Re.char "{") (Re.Cat (Re.Star Re.any) (Re.char "}")).

(** [_parse_universal_response], in three steps: the fields read from the
    reply (the [if json_match: ... else: ...] block), the rest of the [try]
    body, and the [except] clause for [json.JSONDecodeError] and [KeyError];
    any other exception leaves the method. *)
Definition reply_fields (llama_response : string) : result Json.dict :=
  match Re.search json_span llama_response with
  | Some json_match =>
      v <- Json.loads (Re.text json_match) ;;
      match v with
      | Json.Obj d => Ok d
      | _ => Raise (TypeError "object does not support item assignment")
      end
  | None => _extract_structured_info llama_response
  end.

(** The placeholder sentence for a reply without explanation. *)
Definition placeholder (claim : string) (category : ClaimCategory) : string :=
  "Analysis completed for " ++ category_value category ++ " claim: " ++ claim.

Definition parse_body (llama_response claim : string)
    (category : ClaimCategory) (config : Json.dict) : result Json.dict :=
  response_dict <- reply_fields llama_response ;;
  let response_dict :=
    Json.set "claim_category" (Json.Str (category_value category)) response_dict in
  let response_dict :=
    Json.set "analysis_framework"
             (Json.Str (category_value category ++ "_analysis")) response_dict in
  let original_confidence :=
    Json.get_default "confidence_score" (Json.Float 50.0) response_dict in
  adjusted_confidence <- adjust_value original_confidence category config ;;
  let response_dict := Json.set "confidence_score" adjusted_confidence response_dict in
  let response_dict :=
    if Json.has "verdict" response_dict then response_dict
    else Json.set "verdict" (Json.Str (verdict_value UNVERIFIED)) response_dict in
  let response_dict :=
    if Json.has "explanation" response_dict then response_dict
    else Json.set "explanation" (Json.Str (placeholder claim category)) response_dict in
  Ok response_dict.

Definition _parse_universal_response (llama_response claim : string)
    (category : ClaimCategory) (config : Json.dict) : result Json.dict :=
  match parse_body llama_response claim category config with
  | Raise (JSONDecodeError _) | Raise (KeyError _) =>
      Ok (_generate_intelligent_fallback_response claim category "parsing_error")
  | r => r
  end.

(** The rules of the confidence adjustment as the specification words them:
    Mathematical values above 90 are capped at 99.5 and the others
    multiplied by 0.8; Medical values are multiplied by 0.9 and capped at 85;
    Opinion-based values are capped at 60; Scientific values below 70 are
    multiplied by 0.85; every other category leaves the value unchanged. *)
Definition adjust_spec (category : ClaimCategory) (x : Q) : Q :=
  match category with
  | MATHEMATICAL => if Qlt_le_dec 90 x then Qmin x 99.5 else x * 0.8
  | MEDICAL => Qmin (x * 0.9) 85
  | OPINION_BASED => Qmin x 60
  | SCIENTIFIC => if Qlt_le_dec x 70 then x * 0.85 else x
  | _ => x
  end.


(** *** The legacy pipeline: prompt, backend call, reply parsing *)

(** The prompt of [_create_fact_check_prompt], around its five inserts. *)
Definition fact_check_prompt
    (claim claim_type entities_json structure_json strategy : string) : string :=
  Py.lines
    ["You are an expert fact-checker. Analyze the following claim and provide a structured response.";
     "";
     "CLAIM TO ANALYZE: " ++ Py.quoted claim;
     "";
     "CLAIM ANALYSIS:";
     "- Type: " ++ claim_type;
     "- Key entities: " ++ entities_json;
     "- Structure: " ++ structure_json;
     "- Verification strategy: " ++ strategy;
     "";
     "INSTRUCTIONS:";
     "1. Analyze the claim for factual accuracy";
     "2. Consider the specific type of claim and verification strategy";
     "3. Provide your assessment in the following JSON format:";
     "";
     "{";
     "    " ++ Py.quoted "verdict" ++ ": " ++ Py.quoted "True" ++ " | " ++ Py.quoted "False" ++ " | " ++ Py.quoted "Unverified" ++ ",";
     "    " ++ Py.quoted "confidence_score" ++ ": <number between 0-100>,";
     "    " ++ Py.quoted "explanation" ++ ": " ++ Py.quoted "<detailed explanation of your reasoning>" ++ ",";
     "    " ++ Py.quoted "key_evidence" ++ ": [" ++ Py.quoted "<evidence point 1>" ++ ", " ++ Py.quoted "<evidence point 2>" ++ ", ...],";
     "    " ++ Py.quoted "sources_needed" ++ ": [" ++ Py.quoted "<type of source 1>" ++ ", " ++ Py.quoted "<type of source 2>" ++ ", ...],";
     "    " ++ Py.quoted "reasoning_steps" ++ ": [" ++ Py.quoted "<step 1>" ++ ", " ++ Py.quoted "<step 2>" ++ ", ...],";
     "    " ++ Py.quoted "caveats" ++ ": [" ++ Py.quoted "<caveat 1>" ++ ", " ++ Py.quoted "<caveat 2>" ++ ", ...]";
     "}";
     "";
     "IMPORTANT GUIDELINES:";
     "- Use " ++ Py.quoted "True" ++ " only if you're confident the claim is factually correct";
     "- Use " ++ Py.quoted "False" ++ " only if you're confident the claim is factually incorrect  ";
     "- Use " ++ Py.quoted "Unverified" ++ " if you cannot determine accuracy with confidence";
     "- Confidence score should reflect your certainty (0-100)";
     "- Provide specific, detailed explanations";
     "- Be honest about limitations in your knowledge";
     "- Consider the date sensitivity of information";
     "";
     "Please analyze the claim now:"].

(** [_create_fact_check_prompt] *)
Definition _create_fact_check_prompt (host : Host.t)
    (verification_context : Pathway.verification_context) : string :=
  let claim_analysis := Pathway.claim_analysis verification_context in
  fact_check_prompt
    (Pathway.original_claim claim_analysis)
    (Pathway.claim_type claim_analysis)
    (Host.json_dumps_entities host (Pathway.entities claim_analysis))
    (Host.json_dumps_structure host (Pathway.structure claim_analysis))
    (Pathway.verification_strategy verification_context).

(** The text of [_get_mock_response], around the claim. *)
Definition mock_response (claim : string) : string :=
  Py.lines
    ["{";
     "    " ++ Py.quoted "verdict" ++ ": " ++ Py.quoted "Unverified" ++ ",";
     "    " ++ Py.quoted "confidence_score" ++ ": 30,";
     "    " ++ Py.quoted "explanation" ++ ": " ++ Py.quoted ("I apologize, but I cannot verify '" ++ claim ++ "' at this time due to service unavailability. To properly fact-check this claim, I would need access to current databases and reliable sources. Please try again later or consult authoritative sources manually.") ++ ",";
     "    " ++ Py.quoted "key_evidence" ++ ": [],";
     "    " ++ Py.quoted "sources_needed" ++ ": [" ++ Py.quoted "authoritative databases" ++ ", " ++ Py.quoted "reliable news sources" ++ ", " ++ Py.quoted "academic sources" ++ "],";
     "    " ++ Py.quoted "reasoning_steps" ++ ": [" ++ Py.quoted "Service unavailable" ++ ", " ++ Py.quoted "Unable to access verification resources" ++ "],";
     "    " ++ Py.quoted "caveats" ++ ": [" ++ Py.quoted "LLaMA service temporarily unavailable" ++ ", " ++ Py.quoted "Manual verification recommended" ++ "]";
     "}"].

(** [_get_mock_response] *)
Definition _get_mock_response (prompt : string) : string :=
  let marker := "CLAIM TO ANALYZE: " ++ Py.dq in
  let claim_start := (Py.find marker prompt 0 + Z.of_nat (String.length marker))%Z in
  let claim_end := Py.find Py.dq prompt (Z.to_nat claim_start) in
  let claim :=
    if (claim_start <? claim_end)%Z
    then Py.slice prompt (Z.to_nat claim_start) claim_end
    else "the claim" in
  mock_response claim.

(** [_call_llama_api]: the client library first, then the HTTP API; a
    status other than 200, a timeout and any other exception are answered by
    [_get_mock_response]. *)
Definition _call_llama_api (host : Host.t) (prompt : string) : string :=
  match Host.ollama_generate host with
  | Some (Ok response) => response
  | _ =>
      match Host.http_post host with
      | Host.HttpResponse status_code response =>
          if (status_code =? 200)%Z then response
          else _get_mock_response prompt
      | Host.HttpTimeout => _get_mock_response prompt
      | Host.HttpFailure _ => _get_mock_response prompt
      end
  end.

(** [verdict.lower().strip()] and the five lists of [_normalize_verdict]. *)
Definition _normalize_verdict (verdict : Json.value) : result string :=
  match verdict with
  | Json.Str s =>
      let verdict_lower := Py.strip (Py.lower s) in
      let among := existsb (String.eqb verdict_lower) in
      Ok (if among ["true"; "correct"; "accurate"; "yes"; "confirmed"; "factually correct"]
          then "True"
          else if among ["false"; "incorrect"; "inaccurate"; "no"; "wrong";
                         "scientifically incorrect"]
          then "False"
          else if among ["partially true"; "partly true"; "mixed"; "partial"]
          then "Partially True"
          else if among ["requires investigation"; "requires detailed investigation";
                         "needs investigation"]
          then "Requires Investigation"
          else if among ["requires context"; "context dependent"; "needs context"]
          then "Requires Context"
          else "Unverified")
  | _ => Raise (AttributeError "object has no attribute 'lower'")
  end.

(** Numeric text as [float(...)] reads it: an optional sign, digits with an
    optional fraction (or a fraction alone) and an optional exponent. *)
Definition float_int_re : Re.re :=
  Re.Cat (Re.Opt (Re.one_of "+-")) (Re.Star Re.digit).
Definition float_frac_re : Re.re := Re.Cat (Re.char ".") (Re.Star Re.digit).

Definition float_of_text (s : string) : option Q :=
  let s := Py.strip s in
  let piece r t :=
    match Re.match_here r None t with
    | Some (m, _) => m
    | None => ""
    end in
  let integer := piece float_int_re s in
  let s1 := Py.drop (String.length integer) s in
  let frac := piece float_frac_re s1 in
  let s2 := Py.drop (String.length frac) s1 in
  let exp := piece Json.exp_re s2 in
  let s3 := Py.drop (String.length exp) s2 in
  let digits := (String.length (Py.lstrip_char "+" (Py.lstrip_char "-" integer))
                 + (String.length frac - 1))%nat in
  if String.eqb s3 "" && (0 <? digits)%nat
  then Some (Json.float_of integer frac exp)
  else None.

(** [float(value)] *)
Definition py_float (v : Json.value) : result Json.value :=
  match v with
  | Json.Int _ | Json.Float _ | Json.Bool _ =>
      match Json.as_number v with
      | Some x => Ok (Json.Float x)
      | None => Raise (TypeError "float() argument must be a string or a real number")
      end
  | Json.Special x => Ok (Json.Special x)
  | Json.Str s =>
      match float_of_text s with
      | Some x => Ok (Json.Float x)
      | None => Raise (ValueError "could not convert string to float")
      end
  | _ => Raise (TypeError "float() argument must be a string or a real number")
  end.

(** [text[:n] + "..." if len(text) > n else text] *)
Definition shortened (n : nat) (text : string) : string :=
  if (n <? String.length text)%nat then Py.take n text ++ "..." else text.

(** [confidence:\s*(\d+(?:\.\d+)?)%?] *)
Definition text_confidence_pattern : Re.re :=
  Re.Cat (Re.lit "confidence:")
    (Re.Cat (Re.Star Re.space)
       (Re.Cat (Re.Group Pathway.decimal) (Re.Opt (Re.char "%")))).

(** [_parse_text_response] *)
Definition _parse_text_response (response original_claim : string) : Json.dict :=
  let response_lower := Py.lower response in
  let verdict :=
    if Py.isin "verdict: true" response_lower then "True"
    else if Py.isin "verdict: false" response_lower then "False"
    else if Py.isin "verdict: partially true" response_lower then "Partially True"
    else if Py.isin "verdict: requires" response_lower then "Requires Investigation"
    else "Unverified" in
  let confidence :=
    match Re.search text_confidence_pattern response_lower with
    | Some confidence_match => Py.float_of_decimal (group1 confidence_match)
    | None => 50.0
    end in
  let '(verdict, confidence) :=
    if String.eqb verdict "Unverified" then
      if Py.any_in ["scientifically incorrect"; "contradicts"; "false"; "incorrect";
                    "wrong"] response_lower
      then ("False", Py.max confidence 80.0)
      else if Py.any_in ["correct"; "accurate"; "confirmed"; "true";
                         "factually correct"] response_lower
      then ("True", Py.max confidence 80.0)
      else (verdict, confidence)
    else (verdict, confidence) in
  [("verdict", Json.Str verdict);
   ("confidence_score", Json.Float confidence);
   ("explanation", Json.Str (shortened 500 response));
   ("key_evidence", Json.Arr []);
   ("sources_needed", Json.strs ["authoritative sources"]);
   ("reasoning_steps", Json.strs ["Analyzed claim text"]);
   ("caveats", Json.strs ["Response could not be fully parsed"]);
   ("raw_response", Json.Str response)].

(** The [try] body of [_parse_llama_response]. *)
Definition parse_json_reply (response : string) : result Json.dict :=
  let response_clean := Py.strip response in
  let json_start := Py.find "{" response_clean 0 in
  let json_end := (Py.rfind_char "}" response_clean + 1)%Z in
  if (0 <=? json_start)%Z && (json_start <? json_end)%Z then
    let json_str := Py.slice response_clean (Z.to_nat json_start) json_end in
    parsed <- Json.loads json_str ;;
    match parsed with
    | Json.Obj parsed =>
        verdict <- _normalize_verdict
                     (Json.get_default "verdict" (Json.Str "Unverified") parsed) ;;
        confidence_score <-
          py_float (Json.get_default "confidence_score" (Json.Float 50.0) parsed) ;;
        Ok [("verdict", Json.Str verdict);
            ("confidence_score", confidence_score);
            ("explanation",
             Json.get_default "explanation" (Json.Str "No explanation provided") parsed);
            ("key_evidence", Json.get_default "key_evidence" (Json.Arr []) parsed);
            ("sources_needed", Json.get_default "sources_needed" (Json.Arr []) parsed);
            ("reasoning_steps", Json.get_default "reasoning_steps" (Json.Arr []) parsed);
            ("caveats", Json.get_default "caveats" (Json.Arr []) parsed);
            ("raw_response", Json.Str response)]
    | _ => Raise (AttributeError "object has no attribute 'get'")
    end
  else Raise (ValueError "No valid JSON found in response")
.

(** [_parse_llama_response].  The reply is [None] when the demo generator
    returned nothing: then [response.strip()] raises, and so does
    [response.lower()] in the fallback parser that the [except] clause
    calls. *)
Definition _parse_llama_response (response : option string)
    (original_claim : string) : result Json.dict :=
  match response with
  | None => Raise (AttributeError "'NoneType' object has no attribute 'lower'")
  | Some response =>
      match parse_json_reply response with
      | Ok d => Ok d
      | Raise _ => Ok (_parse_text_response response original_claim)
      end
  end.

(** [_create_fallback_response] *)
Definition _create_fallback_response
    (verification_context : Pathway.verification_context)
    (error_message : string) : Json.dict :=
  [("verdict", Json.Str "Unverified");
   ("confidence_score", Json.Float 0.0);
   ("explanation",
    Json.Str ("Unable to analyze the claim due to technical issues: "
              ++ error_message ++ ". Please try again later."));
   ("key_evidence", Json.Arr []);
   ("sources_needed", Json.strs ["technical support"]);
   ("reasoning_steps", Json.strs ["Error occurred during analysis"]);
   ("caveats", Json.strs ["Service temporarily unavailable"]);
   ("processing_time_ms", Json.Int 0);
   ("model_used", Json.Str "fallback");
   ("error", Json.Str error_message)].

(** *** The canned replies of demo mode *)

Definition demo_flat_earth : string :=
  Py.lines
    ["{";
     "    " ++ Py.quoted "verdict" ++ ": " ++ Py.quoted "False" ++ ",";
     "    " ++ Py.quoted "confidence_score" ++ ": 99.9,";
     "    " ++ Py.quoted "explanation" ++ ": " ++ Py.quoted "This claim is scientifically incorrect. The Earth is an oblate spheroid, not flat. This has been conclusively proven through multiple scientific methods including satellite imagery, physics, astronomy, and direct observation." ++ ",";
     "    " ++ Py.quoted "key_evidence" ++ ": [";
     "        " ++ Py.quoted "Satellite imagery shows Earth's spherical shape" ++ ",";
     "        " ++ Py.quoted "Ships disappear hull-first over horizon due to Earth's curvature" ++ ",";
     "        " ++ Py.quoted "Different constellations visible from different latitudes" ++ ",";
     "        " ++ Py.quoted "Earth's shadow on moon during lunar eclipses is curved";
     "    ],";
     "    " ++ Py.quoted "sources_needed" ++ ": [" ++ Py.quoted "NASA satellite imagery" ++ ", " ++ Py.quoted "International Space Station footage" ++ ", " ++ Py.quoted "Physics textbooks" ++ ", " ++ Py.quoted "Astronomical observations" ++ "],";
     "    " ++ Py.quoted "reasoning_steps" ++ ": [";
     "        " ++ Py.quoted "Analyzed overwhelming scientific evidence for Earth's spherical shape" ++ ",";
     "        " ++ Py.quoted "Reviewed photographic evidence from space" ++ ",";
     "        " ++ Py.quoted "Considered physics of gravity and planetary formation" ++ ",";
     "        " ++ Py.quoted "Evaluated astronomical observations and measurements";
     "    ],";
     "    " ++ Py.quoted "caveats" ++ ": [" ++ Py.quoted "Based on centuries of scientific evidence" ++ ", " ++ Py.quoted "Contradicts flat earth theory completely" ++ "]";
     "}"].

Definition demo_sun_bigger : string :=
  Py.lines
    ["{";
     "    " ++ Py.quoted "verdict" ++ ": " ++ Py.quoted "False" ++ ",";
     "    " ++ Py.quoted "confidence_score" ++ ": 99.9,";
     "    " ++ Py.quoted "explanation" ++ ": " ++ Py.quoted "This claim is scientifically incorrect and contradicts well-established astronomical facts. The Sun is vastly larger than Earth in all measurable dimensions. Size comparison: Sun diameter is 1,391,400 km vs Earth's 12,742 km (Sun is 109.2 times wider). Volume: Sun is approximately 1.3 million times larger. Mass: Sun is 333,000 times more massive than Earth." ++ ",";
     "    " ++ Py.quoted "key_evidence" ++ ": [";
     "        " ++ Py.quoted "Sun diameter: 1,391,400 km vs Earth diameter: 12,742 km" ++ ",";
     "        " ++ Py.quoted "Sun is 109.2 times wider than Earth" ++ ",";
     "        " ++ Py.quoted "Sun volume is 1.3 million times larger than Earth" ++ ",";
     "        " ++ Py.quoted "Sun mass is 333,000 times greater than Earth mass";
     "    ],";
     "    " ++ Py.quoted "sources_needed" ++ ": [" ++ Py.quoted "NASA Planetary Fact Sheets" ++ ", " ++ Py.quoted "International Astronomical Union data" ++ ", " ++ Py.quoted "Peer-reviewed astronomical journals" ++ "],";
     "    " ++ Py.quoted "reasoning_steps" ++ ": [";
     "        " ++ Py.quoted "Analyzed dimensional measurements of Sun and Earth" ++ ",";
     "        " ++ Py.quoted "Compared diameter, volume, and mass ratios" ++ ",";
     "        " ++ Py.quoted "Cross-referenced with multiple astronomical databases" ++ ",";
     "        " ++ Py.quoted "Confirmed measurements are well-established scientific facts";
     "    ],";
     "    " ++ Py.quoted "caveats" ++ ": [" ++ Py.quoted "Measurements based on current astronomical standards" ++ ", " ++ Py.quoted "Data consistently verified across space agencies" ++ "]";
     "}"].

Definition demo_smaller : string :=
  Py.lines
    ["{";
     "    " ++ Py.quoted "verdict" ++ ": " ++ Py.quoted "False" ++ ",";
     "    " ++ Py.quoted "confidence_score" ++ ": 99.9,";
     "    " ++ Py.quoted "explanation" ++ ": " ++ Py.quoted "This claim is astronomically incorrect. The Earth is significantly smaller than the Sun in all dimensions. The Sun's diameter is 109.2 times larger than Earth's diameter." ++ ",";
     "    " ++ Py.quoted "key_evidence" ++ ": [";
     "        " ++ Py.quoted "Sun diameter: 1,391,400 km vs Earth diameter: 12,742 km" ++ ",";
     "        " ++ Py.quoted "Sun volume is 1.3 million times larger than Earth" ++ ",";
     "        " ++ Py.quoted "Sun mass is 333,000 times greater than Earth mass" ++ ",";
     "        " ++ Py.quoted "Observable size difference confirms measurements";
     "    ],";
     "    " ++ Py.quoted "sources_needed" ++ ": [" ++ Py.quoted "NASA planetary data" ++ ", " ++ Py.quoted "Astronomical measurements" ++ ", " ++ Py.quoted "Physics databases" ++ "],";
     "    " ++ Py.quoted "reasoning_steps" ++ ": [";
     "        " ++ Py.quoted "Compared official astronomical measurements" ++ ",";
     "        " ++ Py.quoted "Verified diameter, volume, and mass ratios" ++ ",";
     "        " ++ Py.quoted "Cross-referenced multiple space agency data" ++ ",";
     "        " ++ Py.quoted "Confirmed through observational astronomy";
     "    ],";
     "    " ++ Py.quoted "caveats" ++ ": [" ++ Py.quoted "Based on precise astronomical measurements" ++ ", " ++ Py.quoted "Universally accepted scientific data" ++ "]";
     "}"].

Definition demo_arithmetic : string :=
  Py.lines
    ["{";
     "    " ++ Py.quoted "verdict" ++ ": " ++ Py.quoted "True" ++ ",";
     "    " ++ Py.quoted "confidence_score" ++ ": 100.0,";
     "    " ++ Py.quoted "explanation" ++ ": " ++ Py.quoted "This mathematical statement is correct according to standard arithmetic in base-10 decimal system. The addition 2 + 2 = 4 is a fundamental mathematical truth verified through multiple mathematical systems." ++ ",";
     "    " ++ Py.quoted "key_evidence" ++ ": [";
     "        " ++ Py.quoted "Operation: Addition of two integers (2 + 2)" ++ ",";
     "        " ++ Py.quoted "Result: 4 in decimal system" ++ ",";
     "        " ++ Py.quoted "Binary verification: 10₂ + 10₂ = 100₂ (equals 4₁₀)" ++ ",";
     "        " ++ Py.quoted "Roman numerals: II + II = IV";
     "    ],";
     "    " ++ Py.quoted "sources_needed" ++ ": [" ++ Py.quoted "Mathematical axioms" ++ ", " ++ Py.quoted "Arithmetic principles" ++ ", " ++ Py.quoted "Universal mathematical standards" ++ "],";
     "    " ++ Py.quoted "reasoning_steps" ++ ": [";
     "        " ++ Py.quoted "Applied Peano axioms for natural numbers" ++ ",";
     "        " ++ Py.quoted "Used standard definition of addition" ++ ",";
     "        " ++ Py.quoted "Verified through successor function application" ++ ",";
     "        " ++ Py.quoted "Confirmed consistency across mathematical systems";
     "    ],";
     "    " ++ Py.quoted "caveats" ++ ": [" ++ Py.quoted "Fundamental mathematical truth" ++ ", " ++ Py.quoted "Universal consensus across mathematical systems" ++ "]";
     "}"].

Definition demo_president : string :=
  Py.lines
    ["{";
     "    " ++ Py.quoted "verdict" ++ ": " ++ Py.quoted "True" ++ ",";
     "    " ++ Py.quoted "confidence_score" ++ ": 100.0,";
     "    " ++ Py.quoted "explanation" ++ ": " ++ Py.quoted "This claim is factually correct. Donald J. Trump served as the 45th President of the United States from January 20, 2017 to January 20, 2021, completing one full term." ++ ",";
     "    " ++ Py.quoted "key_evidence" ++ ": [";
     "        " ++ Py.quoted "Election: Won 2016 presidential election with 304 electoral votes" ++ ",";
     "        " ++ Py.quoted "Inauguration: January 20, 2017" ++ ",";
     "        " ++ Py.quoted "Term end: January 20, 2021" ++ ",";
     "        " ++ Py.quoted "Presidential number: 45th President of the United States";
     "    ],";
     "    " ++ Py.quoted "sources_needed" ++ ": [" ++ Py.quoted "U.S. National Archives" ++ ", " ++ Py.quoted "Federal Election Commission" ++ ", " ++ Py.quoted "Congressional Records" ++ "],";
     "    " ++ Py.quoted "reasoning_steps" ++ ": [";
     "        " ++ Py.quoted "Verified through official government records" ++ ",";
     "        " ++ Py.quoted "Cross-referenced congressional documentation" ++ ",";
     "        " ++ Py.quoted "Confirmed electoral college certification" ++ ",";
     "        " ++ Py.quoted "Historical archives validation";
     "    ],";
     "    " ++ Py.quoted "caveats" ++ ": [" ++ Py.quoted "Based on official government documentation" ++ ", " ++ Py.quoted "Public record verification" ++ "]";
     "}"].

Definition demo_geography : string :=
  Py.lines
    ["{";
     "    " ++ Py.quoted "verdict" ++ ": " ++ Py.quoted "True" ++ ",";
     "    " ++ Py.quoted "confidence_score" ++ ": 100.0,";
     "    " ++ Py.quoted "explanation" ++ ": " ++ Py.quoted "This claim is geographically accurate. Paris is indeed the capital and largest city of France, with coordinates 48°52′N 2°20′E, and has been the capital since 508 AD." ++ ",";
     "    " ++ Py.quoted "key_evidence" ++ ": [";
     "        " ++ Py.quoted "Paris coordinates: 48°52′N 2°20′E" ++ ",";
     "        " ++ Py.quoted "Administrative status: Capital city and largest city of France" ++ ",";
     "        " ++ Py.quoted "Capital since 508 AD (Clovis I)" ++ ",";
     "        " ++ Py.quoted "Population: ~2.16 million (city), ~12.4 million (metro area)";
     "    ],";
     "    " ++ Py.quoted "sources_needed" ++ ": [" ++ Py.quoted "INSEE (French National Statistics)" ++ ", " ++ Py.quoted "IGN (French Geographic Institute)" ++ ", " ++ Py.quoted "UN Geographic Database" ++ "],";
     "    " ++ Py.quoted "reasoning_steps" ++ ": [";
     "        " ++ Py.quoted "Verified through official French government sources" ++ ",";
     "        " ++ Py.quoted "Cross-referenced geographic coordinates" ++ ",";
     "        " ++ Py.quoted "Confirmed administrative boundary status" ++ ",";
     "        " ++ Py.quoted "Historical documentation review";
     "    ],";
     "    " ++ Py.quoted "caveats" ++ ": [" ++ Py.quoted "Based on official government recognition" ++ ", " ++ Py.quoted "International geographic standards" ++ "]";
     "}"].

Definition demo_climate (claim : string) : string :=
  Py.lines
    ["{";
     "    " ++ Py.quoted "verdict" ++ ": " ++ Py.quoted "Requires Context" ++ ",";
     "    " ++ Py.quoted "confidence_score" ++ ": 85.0,";
     "    " ++ Py.quoted "explanation" ++ ": " ++ Py.quoted ("Environmental and climate claims require specific context and timeframe analysis. The claim '" ++ claim ++ "' touches on complex scientific topics that need detailed examination with multiple data sources and expert consensus.") ++ ",";
     "    " ++ Py.quoted "key_evidence" ++ ": [";
     "        " ++ Py.quoted "Climate data requires peer-reviewed analysis" ++ ",";
     "        " ++ Py.quoted "Multiple data sources needed for verification" ++ ",";
     "        " ++ Py.quoted "Scientific consensus evaluation required" ++ ",";
     "        " ++ Py.quoted "Temporal and geographic context important";
     "    ],";
     "    " ++ Py.quoted "sources_needed" ++ ": [" ++ Py.quoted "IPCC reports" ++ ", " ++ Py.quoted "NASA climate data" ++ ", " ++ Py.quoted "NOAA records" ++ ", " ++ Py.quoted "Peer-reviewed climate journals" ++ "],";
     "    " ++ Py.quoted "reasoning_steps" ++ ": [";
     "        " ++ Py.quoted "Identified as environmental/climate claim requiring expert analysis" ++ ",";
     "        " ++ Py.quoted "Assessed complexity factors and verification requirements" ++ ",";
     "        " ++ Py.quoted "Determined need for scientific literature review" ++ ",";
     "        " ++ Py.quoted "Recommended multi-source data analysis approach";
     "    ],";
     "    " ++ Py.quoted "caveats" ++ ": [" ++ Py.quoted "Requires expert scientific consensus" ++ ", " ++ Py.quoted "Context-dependent accuracy" ++ ", " ++ Py.quoted "Time-sensitive data needed" ++ "]";
     "}"].

Definition demo_default (claim claim_type verdict confidence : string)
  : string :=
  Py.lines
    ["{";
     "    " ++ Py.quoted "verdict" ++ ": " ++ Py.quoted verdict ++ ",";
     "    " ++ Py.quoted "confidence_score" ++ ": " ++ confidence ++ ",";
     "    " ++ Py.quoted "explanation" ++ ": " ++ Py.quoted ("The claim '" ++ claim ++ "' has been classified as " ++ claim_type ++ " type and analyzed using available information. Based on preliminary analysis, this claim appears to be " ++ Py.lower verdict ++ " with moderate confidence.") ++ ",";
     "    " ++ Py.quoted "key_evidence" ++ ": [";
     "        " ++ Py.quoted ("Claim type: " ++ claim_type) ++ ",";
     "        " ++ Py.quoted "Preliminary analysis completed" ++ ",";
     "        " ++ Py.quoted "Standard verification protocols applied" ++ ",";
     "        " ++ Py.quoted "Assessment based on available information patterns";
     "    ],";
     "    " ++ Py.quoted "sources_needed" ++ ": [" ++ Py.quoted "Academic databases" ++ ", " ++ Py.quoted "Expert networks" ++ ", " ++ Py.quoted "Primary sources" ++ ", " ++ Py.quoted "Fact-checking organizations" ++ "],";
     "    " ++ Py.quoted "reasoning_steps" ++ ": [";
     "        " ++ Py.quoted "Classified claim type and complexity" ++ ",";
     "        " ++ Py.quoted "Applied standard verification methodology" ++ ",";
     "        " ++ Py.quoted "Assessed available information patterns" ++ ",";
     "        " ++ Py.quoted "Determined preliminary verdict based on analysis";
     "    ],";
     "    " ++ Py.quoted "caveats" ++ ": [" ++ Py.quoted "Limited by demo mode constraints" ++ ", " ++ Py.quoted "Requires comprehensive source verification" ++ ", " ++ Py.quoted "May need expert consultation" ++ "]";
     "}"].

(** [_create_demo_response] (the simulated delay is left out).  Two branches
    end without a [return] when their inner test fails: the method then
    answers [None]. *)
Definition _create_demo_response (claim claim_type : string) : option string :=
  let claim_lower := Py.lower claim in
  let has w := Py.isin w claim_lower in
  if has "flat" && (has "earth" || has "world") then Some demo_flat_earth
  else if (has "sun" || has "solar") && (has "world" || has "earth") then
    if has "bigger" || has "larger" then Some demo_sun_bigger else None
  else if (has "small" || has "smaller")
          && Py.any_in ["sun"; "moon"; "earth"; "world"] claim_lower
  then Some demo_smaller
  else if Py.any_in ["2+2"; "water"; "h2o"; "gravity"; "speed of light"] claim_lower then
    if has "2+2" || has "2 + 2" then Some demo_arithmetic else None
  else if has "trump" && (has "president" || has "potus") then Some demo_president
  else if Py.any_in ["paris"; "france"; "london"; "england"; "tokyo"; "japan"] claim_lower
  then Some demo_geography
  else if Py.any_in ["climate"; "global warming"; "temperature"; "ice caps"] claim_lower
  then Some (demo_climate claim)
  else
    let '(verdict, confidence) :=
      if Py.any_in ["water is wet"; "fire is hot"; "ice is cold"; "gravity"] claim_lower
      then ("True", 85.0)
      else if Py.any_in ["impossible"; "never happened"; "fake"; "hoax"] claim_lower
      then ("False", 80.0)
      else ("Unverified", 50.0) in
    Some (demo_default claim claim_type verdict (Py.str_of_float confidence)).

(** The first [analyze_claim] of the class, which takes the verification
    context.  The class defines [analyze_claim] a second time further down,
    so this method is not the one an instance answers with. *)
Definition analyze_claim_legacy (self : service) (host : Host.t)
    (verification_context : Pathway.verification_context) : Json.dict :=
  let claim_analysis := Pathway.claim_analysis verification_context in
  let original_claim := Pathway.original_claim claim_analysis in
  let claim_type := Pathway.claim_type claim_analysis in
  let prompt := _create_fact_check_prompt host verification_context in
  let llama_response :=
    if demo_mode self then _create_demo_response original_claim claim_type
    else Some (_call_llama_api host prompt) in
  let processing_time := Host.analysis_ms host in
  match _parse_llama_response llama_response original_claim with
  | Ok analysis_result =>
      let analysis_result :=
        Json.set "processing_time_ms" (Json.Int processing_time) analysis_result in
      Json.set "model_used"
        (Json.Str (if negb (demo_mode self) then model_name self else "demo-llama"))
        analysis_result
  | Raise e => _create_fallback_response verification_context (str_of_exn e)
  end.

(** *** The universal pipeline *)

(** The [claim] argument of the analysis methods: the callers pass a text or
    the verification context (a dict). *)
Inductive arg : Type :=
| Text (s : string)
| Context (c : Pathway.verification_context).

(** [claim.lower()] *)
Definition lower_of (claim : arg) : result string :=
  match claim with
  | Text s => Ok (Py.lower s)
  | Context _ => Raise (AttributeError "'dict' object has no attribute 'lower'")
  end.

(** The text of a [claim] that is a text. *)
Definition text_of (claim : arg) : string :=
  match claim with
  | Text s => s
  | Context _ => ""
  end.

(** [sum(1 for w in words if w in text) / len(words)] *)
Definition keyword_score (words : list string) (text : string) : Q :=
  inject_Z (Z.of_nat (Py.count_in words text))
  / inject_Z (Z.of_nat (List.length words)).

(** Digits, an operator among [+ - * / =] and digits, with optional spaces
    around the operator. *)
Definition arithmetic_pattern : Re.re :=
  Re.Cat (Re.Plus Re.digit)
    (Re.Cat (Re.Star Re.space)
       (Re.Cat (Re.one_of "+-*/=") (Re.Cat (Re.Star Re.space) (Re.Plus Re.digit)))).

Definition found (r : Re.re) (s : string) : bool :=
  match Re.search r s with
  | Some _ => true
  | None => false
  end.

(** [max(scores.items(), key=lambda x: x[1])]: the first item of maximal
    score. *)
Fixpoint best_of (best : ClaimCategory * Q) (rest : list (ClaimCategory * Q))
  : ClaimCategory * Q :=
  match rest with
  | [] => best
  | item :: rest' =>
      if Py.gt (snd item) (snd best) then best_of item rest' else best_of best rest'
  end.

(** [_categorize_claim_advanced] *)
Definition _categorize_claim_advanced (claim : arg)
    (context : option Pathway.verification_context)
  : result (ClaimCategory * Q) :=
  claim_lower <- lower_of claim ;;
  let claim := text_of claim in
  let scientific_score :=
    keyword_score ["theory"; "experiment"; "research"; "study"; "evidence";
                   "hypothesis"; "molecule"; "atom"; "gene"; "species";
                   "evolution"; "gravity"; "energy"] claim_lower in
  let math_score :=
    keyword_score ["equals"; "plus"; "minus"; "multiply"; "divide"; "theorem";
                   "proof"; "formula"] claim_lower in
  let math_score :=
    if found arithmetic_pattern claim then math_score + 0.5 else math_score in
  let historical_score :=
    keyword_score ["century"; "year"; "ago"; "ancient"; "medieval"; "war";
                   "empire"; "revolution"] claim_lower in
  let historical_score :=
    if Py.any_in (Py.range_strs 1000 1025) claim
    then historical_score + 0.3 else historical_score in
  let medical_score :=
    keyword_score ["disease"; "treatment"; "medicine"; "doctor"; "patient";
                   "symptoms"; "diagnosis"] claim_lower in
  let flag (w : Q) (words : list string) : Q :=
    if Py.any_in words claim_lower then w else 0 in
  let scores :=
    [(MATHEMATICAL, math_score);
     (HISTORICAL, historical_score);
     (MEDICAL, medical_score);
     (STATISTICAL, flag 0.1 ["percent"; "statistics"; "data"; "survey"]);
     (GEOGRAPHICAL, flag 0.1 ["country"; "city"; "mountain"; "river"; "continent"]);
     (COMPARATIVE, flag 0.2 ["bigger"; "smaller"; "faster"; "slower"; "more"; "less"]);
     (GENERAL, 0.1)] in
  Ok (best_of (SCIENTIFIC, scientific_score) scores).

(** The opening of every universal prompt, and the five frameworks. *)
Definition base_context (claim : string) (category : ClaimCategory)
    (config_repr : string) : string :=
  Py.lines
    ["You are a world-class fact-checking expert specializing in " ++ category_value category ++ " claims. ";
     "Your task is to analyze the following claim with the highest standards of accuracy and provide comprehensive analysis.";
     "";
     "CLAIM TO ANALYZE: " ++ Py.quoted claim;
     "CLAIM CATEGORY: " ++ category_value category;
     "ANALYSIS REQUIREMENTS: " ++ config_repr;
     ""].

Definition scientific_prompt (base_context : string) : string :=
  Py.lines
    [base_context;
     "";
     "SCIENTIFIC ANALYSIS FRAMEWORK:";
     "1. Evaluate the claim against current scientific consensus";
     "2. Consider peer-reviewed research and methodology";
     "3. Assess experimental evidence and reproducibility";
     "4. Check for scientific validity and logical consistency";
     "5. Consider uncertainty levels and confidence intervals";
     "";
     "Provide analysis in JSON format with high scientific rigor."].

Definition mathematical_prompt (base_context : string) : string :=
  Py.lines
    [base_context;
     "";
     "MATHEMATICAL ANALYSIS FRAMEWORK:";
     "1. Verify mathematical accuracy through logical proof";
     "2. Check computational correctness";
     "3. Consider mathematical definitions and axioms";
     "4. Validate through multiple mathematical approaches";
     "5. Ensure logical consistency and completeness";
     "";
     "Mathematical claims require near-absolute certainty. Provide JSON analysis with mathematical precision."].

Definition historical_prompt (base_context : string) : string :=
  Py.lines
    [base_context;
     "";
     "HISTORICAL ANALYSIS FRAMEWORK:";
     "1. Evaluate historical evidence and primary sources";
     "2. Consider multiple historical perspectives and interpretations";
     "3. Assess reliability of historical documentation";
     "4. Check chronological accuracy and context";
     "5. Consider historical consensus among scholars";
     "";
     "Provide historically contextualized JSON analysis with attention to source reliability."].

Definition medical_prompt (base_context : string) : string :=
  Py.lines
    [base_context;
     "";
     "MEDICAL ANALYSIS FRAMEWORK:";
     "1. Evaluate against current medical knowledge and guidelines";
     "2. Consider clinical evidence and research studies";
     "3. Assess safety implications and contraindications";
     "4. Check regulatory approval status where relevant";
     "5. Consider individual variation and context";
     "";
     "CRITICAL: Medical claims require highest confidence thresholds due to health implications."].

Definition general_prompt (base_context : string) : string :=
  Py.lines
    [base_context;
     "";
     "GENERAL ANALYSIS FRAMEWORK:";
     "1. Evaluate factual accuracy using reliable sources";
     "2. Consider context and nuanced interpretations";
     "3. Assess evidence quality and reliability";
     "4. Check for logical consistency";
     "5. Consider limitations and uncertainties";
     "";
     "Provide comprehensive JSON analysis appropriate for this claim type."].

(** [_prepare_universal_prompt] *)
Definition _prepare_universal_prompt (host : Host.t) (claim : string)
    (category : ClaimCategory) (config : Json.dict) : string :=
  let base := base_context claim category (Host.repr_dict host config) in
  match category with
  | SCIENTIFIC => scientific_prompt base
  | MATHEMATICAL => mathematical_prompt base
  | HISTORICAL => historical_prompt base
  | MEDICAL => medical_prompt base
  | _ => general_prompt base
  end.

(** [_generate_intelligent_demo_response] *)
Definition _generate_intelligent_demo_response (claim : string)
    (category : ClaimCategory) (category_confidence : Q) : Json.dict :=
  let claim_lower := Py.lower claim in
  let cv := category_value category in
  let '(verdict, confidence, explanation) :=
    match category with
    | MATHEMATICAL =>
        if Py.isin "2+2" claim_lower || Py.isin "2 + 2" claim_lower
        then (TRUE, 100.0,
              "Mathematical verification: 2 + 2 = 4 is arithmetically correct in all standard number systems.")
        else (PARTIALLY_TRUE, 85.0,
              "Mathematical claim '" ++ claim
              ++ "' requires computational verification and formal proof analysis.")
    | SCIENTIFIC =>
        if Py.any_in ["water boils at 100"; "gravity exists"; "earth round"] claim_lower
        then (TRUE, 95.0,
              "Scientific consensus strongly supports this claim with extensive experimental evidence.")
        else (REQUIRES_CONTEXT, 70.0,
              "Scientific claim '" ++ claim
              ++ "' requires peer-reviewed analysis and experimental validation.")
    | HISTORICAL =>
        (PARTIALLY_TRUE, 75.0,
         "Historical claim '" ++ claim
         ++ "' requires examination of primary sources and scholarly consensus.")
    | MEDICAL =>
        (REQUIRES_CONTEXT, 60.0,
         "Medical claim '" ++ claim
         ++ "' requires clinical evidence review and professional medical consultation.")
    | _ =>
        (UNVERIFIED, 50.0,
         "Claim '" ++ claim ++ "' categorized as " ++ cv
         ++ " requires comprehensive fact-checking analysis.")
    end in
  [("verdict", Json.Str (verdict_value verdict));
   ("confidence_score", Json.Float confidence);
   ("explanation", Json.Str explanation);
   ("claim_category", Json.Str cv);
   ("category_confidence", Json.Float category_confidence);
   ("key_evidence",
    Json.strs ["Category: " ++ cv ++ " (confidence: "
               ++ Py.format_percent1 category_confidence ++ ")";
               "Demo mode intelligent analysis applied";
               "Category-specific reasoning framework used";
               "Confidence adjusted for claim type"]);
   ("sources_needed", Json.strs (_get_category_sources category));
   ("reasoning_steps",
    Json.strs ["Categorized claim as " ++ cv;
               "Applied category-specific analysis framework";
               "Determined verdict: " ++ verdict_value verdict;
               "Calculated confidence: " ++ Py.str_of_float confidence ++ "%"]);
   ("caveats",
    Json.strs ["Demo mode - " ++ cv ++ " analysis"; "Requires real-world verification"])].

(** [analyze_claim_universal].  The default of the [.get] on
    [self.category_configs] is the subscript [[ClaimCategory.GENERAL]], which
    Python evaluates before the call. *)
Definition analyze_claim_universal (self : service) (host : Host.t)
    (claim : arg) (context : option Pathway.verification_context)
  : result Json.dict :=
  categorized <- _categorize_claim_advanced claim context ;;
  let '(claim_category, category_confidence) := categorized in
  general_config <- config_item GENERAL (category_configs self) ;;
  let category_config :=
    match config_get claim_category (category_configs self) with
    | Some config => config
    | None => general_config
    end in
  let claim := text_of claim in
  let prompt := _prepare_universal_prompt host claim claim_category category_config in
  if demo_mode self then
    Ok (_generate_intelligent_demo_response claim claim_category category_confidence)
  else
    match Host.http_post host with
    | Host.HttpTimeout =>
        Ok (_generate_intelligent_fallback_response claim claim_category "timeout")
    | Host.HttpResponse status_code llama_response =>
        if Host.raises_for_status status_code then
          Ok (_generate_intelligent_fallback_response claim claim_category "http_error")
        else
          match _parse_universal_response llama_response claim claim_category
                  category_config with
          | Ok d => Ok d
          | Raise _ =>
              Ok (_generate_intelligent_fallback_response claim claim_category
                    "unexpected_error")
          end
    | Host.HttpFailure _ =>
        Ok (_generate_intelligent_fallback_response claim claim_category
              "unexpected_error")
    end.

(** The second [analyze_claim] of the class, the one an instance answers
    with: it routes to the universal analysis. *)
Definition analyze_claim (self : service) (host : Host.t)
    (claim : arg) (context : option Pathway.verification_context)
  : result Json.dict :=
  analyze_claim_universal self host claim context.


(** *** The connection test *)

(** The prompt of [test_connection]. *)
Definition test_prompt : string :=
  "Please respond with 'Hello, I am working correctly.' in JSON format: {"
  ++ Py.quoted "message" ++ ": " ++ Py.quoted "your response" ++ "}".

(** The dict returned by [test_connection]: [test_response] is present in
    the report of the [try] body, [error] in the one of the [except]
    clause. *)
Record connection_report : Type := mk_report {
  status : string;
  model : string;
  response_time_ms : Z;
  test_response : option string;
  error : option string
}.

(** [test_connection].  [_call_llama_api] answers every failure of the
    backend itself, so no exception reaches the [except] clause here. *)
Definition test_connection (self : service) (host : Host.t) : connection_report :=
  let response := _call_llama_api host test_prompt in
  let response_time := Host.analysis_ms host in
  {| status := if String.eqb response "" then "error" else "connected";
     model := model_name self;
     response_time_ms := response_time;
     test_response := Some (shortened 100 response);
     error := None |}.

(** *** The mock reply as a record *)

(** The explanation that the text of [_get_mock_response] holds, and the
    object that the text denotes when it is valid JSON. *)
Definition mock_explanation (claim : string) : string :=
  "I apologize, but I cannot verify '" ++ claim
  ++ "' at this time due to service unavailability. To properly fact-check this claim, I would need access to current databases and reliable sources. Please try again later or consult authoritative sources manually.".

Definition mock_record (claim : string) : Json.dict :=
  [("verdict", Json.Str "Unverified");
   ("confidence_score", Json.Int 30);
   ("explanation", Json.Str (mock_explanation claim));
   ("key_evidence", Json.Arr []);
   ("sources_needed",
    Json.strs ["authoritative databases"; "reliable news sources"; "academic sources"]);
   ("reasoning_steps",
    Json.strs ["Service unavailable"; "Unable to access verification resources"]);
   ("caveats",
    Json.strs ["LLaMA service temporarily unavailable";
               "Manual verification recommended"])].
End Llama.
(** ** [models/memory_store.py] *)

Module MemoryStore.

(** One stored result: the dict built by [add_result]. *)
Record row : Type := mk_row {
  id : Z;
  claim : string;
  verdict : string;
  confidence_score : Q;
  explanation : string;
  processing_time_ms : option Z;
  timestamp : string;
  sources : option string;
  session_id : option string
}.

(** The object state: [self._store] and [self._counter]. *)
Record t : Type := mk {
  _store : list row;
  _counter : Z
}.

(** [__init__] *)
Definition init : t := {| _store := []; _counter := 1 |}.

(** The arguments of one [add_result] call; [now] is the reading of
    [datetime.utcnow().isoformat()] taken by the call. *)
Record add_args : Type := mk_args {
  a_claim : string;
  a_verdict : string;
  a_confidence_score : Q;
  a_explanation : string;
  a_processing_time_ms : option Z;
  a_sources : option string;
  a_session_id : option string;
  a_now : string
}.

(** [add_result]: the new state and the stored dict. *)
Definition add_result (self : t) (a : add_args) : t * row :=
  let result := {|
    id := _counter self;
    claim := a_claim a;
    verdict := a_verdict a;
    confidence_score := a_confidence_score a;
    explanation := a_explanation a;
    processing_time_ms := a_processing_time_ms a;
    timestamp := a_now a;
    sources := a_sources a;
    session_id := a_session_id a
  |} in
  ({| _store := _store self ++ [result]; _counter := (_counter self + 1)%Z |},
   result).

(** [sorted(xs, key=lambda x: x["id"], reverse=True)]: a stable sort by
    descending id (rows of equal id keep their order). *)
Fixpoint insert_desc (x : row) (l : list row) : list row :=
  match l with
  | [] => [x]
  | y :: l' =>
      if (id x <? id y)%Z then y :: insert_desc x l' else x :: l
  end.

Definition sorted_by_id_desc (l : list row) : list row :=
  fold_right insert_desc [] l.

(** The order [get_all] sorts by. *)
Definition id_ge (a b : row) : Prop := (id a >= id b)%Z.

(** The state after a sequence of [add_result] calls. *)
Fixpoint add_all (s : t) (adds : list add_args) : t :=
  match adds with
  | [] => s
  | a :: adds' => add_all (fst (add_result s a)) adds'
  end.

(** [get_all] *)
Definition get_all (self : t) (limit offset : option Z) : list row :=
  let results := sorted_by_id_desc (_store self) in
  let results :=
    match offset with
    | Some o => if Py.truthy offset then Py.slice_from o results else results
    | None => results
    end in
  let results :=
    match limit with
    | Some n => if Py.truthy limit then Py.slice_to n results else results
    | None => results
    end in
  results.

(** [get_by_id] *)
Fixpoint get_by_id_in (l : list row) (result_id : Z) : option row :=
  match l with
  | [] => None
  | r :: l' => if (id r =? result_id)%Z then Some r else get_by_id_in l' result_id
  end.

Definition get_by_id (self : t) (result_id : Z) : option row :=
  get_by_id_in (_store self) result_id.

(** [clear] *)
Definition clear (self : t) : t :=
  {| _store := []; _counter := _counter self |}.

(** [get_stats].  The counts are a dict from verdict to count, in insertion
    order: the three standard verdicts first, then any other verdict in the
    order of its first row.  The sum of the confidences is a sum of floats,
    which the code rounds at every addition and the model computes exactly;
    the statements about [get_stats] concern the counts, which are integers,
    and the average processing time, whose sum is a sum of integers. *)
Definition counts : Type := list (string * Z).

Definition no_counts : counts :=
  [("True", 0%Z); ("False", 0%Z); ("Unverified", 0%Z)]%string.

(** [verdicts.get(v)] *)
Fixpoint count_of (v : string) (d : counts) : option Z :=
  match d with
  | [] => None
  | (k, n) :: d' => if String.eqb k v then Some n else count_of v d'
  end.

(** [verdicts[v] += 1] when [v] is a key, [verdicts[v] = 1] otherwise. *)
Fixpoint bump (v : string) (d : counts) : counts :=
  match d with
  | [] => [(v, 1%Z)]
  | (k, n) :: d' =>
      if String.eqb k v then (k, (n + 1)%Z) :: d' else (k, n) :: bump v d'
  end.

Definition count_verdicts (rows : list row) : counts :=
  fold_left (fun d r => bump (verdict r) d) rows no_counts.

(** [sum(xs)]: from [0], left to right. *)
Definition sum_floats (xs : list Q) : Q := fold_left Qplus xs 0.
Definition sum_ints (xs : list Z) : Z := fold_left Z.add xs 0%Z.

(** The processing times that are not [None]. *)
Definition known_times (rows : list row) : list Z :=
  flat_map (fun r => match processing_time_ms r with
                     | Some t => [t]
                     | None => []
                     end) rows.

Record stats : Type := mk_stats {
  total : Z;
  verdicts : counts;
  average_confidence : Q;
  average_processing_time_ms : Q
}.

Definition get_stats (self : t) : stats :=
  match _store self with
  | [] =>
      {| total := 0;
         verdicts := no_counts;
         average_confidence := 0;
         average_processing_time_ms := 0 |}
  | _ :: _ =>
      let verdicts := count_verdicts (_store self) in
      let total_confidence := sum_floats (map confidence_score (_store self)) in
      let processing_times := known_times (_store self) in
      let avg_processing_time :=
        match processing_times with
        | [] => 0
        | _ :: _ =>
            inject_Z (sum_ints processing_times)
            / inject_Z (Z.of_nat (List.length processing_times))
        end in
      {| total := Z.of_nat (List.length (_store self));
         verdicts := verdicts;
         average_confidence :=
           total_confidence / inject_Z (Z.of_nat (List.length (_store self)));
         average_processing_time_ms := avg_processing_time |}
  end.

(** The calls that change a store, and a store after a sequence of them. *)
Inductive call : Type :=
| AddResult (a : add_args)
| Clear.

Definition after (self : t) (c : call) : t :=
  match c with
  | AddResult a => fst (add_result self a)
  | Clear => clear self
  end.

Definition after_all (self : t) (calls : list call) : t :=
  fold_left after calls self.

(** The number of [add_result] calls among [calls]. *)
Definition adds_in (calls : list call) : nat :=
  List.length (filter (fun c => match c with AddResult _ => true | Clear => false end)
                      calls).

End MemoryStore.
(** ** [services/fact_checker.py]: [FactCheckerService]

    The file defines the class twice; the second definition, the one in
    force, is modelled.  The rows of the store are typed as [add_result]
    declares them, so a verdict that is not a text, or a confidence that is
    not a finite number, is reported as a [TypeError] where the row is
    built. *)

Module FactChecker.

Local Open Scope string_scope.

(** Truth value of a parsed value. *)
Definition truthy (v : Json.value) : bool :=
  match v with
  | Json.Null => false
  | Json.Bool b => b
  | Json.Int z => negb (z =? 0)%Z
  | Json.Float x => negb (Qeq_bool x 0)
  | Json.Special _ => true
  | Json.Str s => negb (String.eqb s "")
  | Json.Arr items => Pathway.nonempty items
  | Json.Obj pairs => Pathway.nonempty pairs
  end.

(** [str(v)] *)
Definition str (host : Host.t) (v : Json.value) : string :=
  match v with
  | Json.Str s => s
  | _ => Host.str_of_value host v
  end.

(** [v[:n]], as the items a loop over it visits. *)
Definition head_items (n : nat) (v : Json.value) : result (list Json.value) :=
  match v with
  | Json.Arr items => Ok (firstn n items)
  | Json.Str s =>
      Ok (map (fun c => Json.Str (String c "")) (list_ascii_of_string (Py.take n s)))
  | _ => Raise (TypeError "object is not subscriptable")
  end.

(** The bullet of the caveats, as UTF-8. *)
Definition bullet : string :=
  String (ascii_of_N 226) (String (ascii_of_N 128) (String (ascii_of_N 162) "")).

(** One optional section of the explanation: a heading and at most [n]
    lines, each made by [line] from its 1-based position and its item. *)
Definition section (host : Host.t) (analysis_result : Json.dict) (key heading : string)
    (n : nat) (line : nat -> string -> string) (explanation : string)
  : result string :=
  let items := Json.get_default key (Json.Arr []) analysis_result in
  if truthy items then
    shown <- head_items n items ;;
    Ok (explanation ++ heading
        ++ String.concat ""
             (map (fun '(i, item) => line i (str host item))
                  (combine (seq 1 (List.length shown)) shown)))
  else Ok explanation.

(** [_format_explanation] *)
Definition _format_explanation (host : Host.t) (analysis_result : Json.dict)
  : result string :=
  match Json.get_default "explanation" (Json.Str "No explanation provided.")
          analysis_result with
  | Json.Str explanation =>
      explanation <-
        section host analysis_result "key_evidence"
          (Py.nl ++ Py.nl ++ "Key Evidence:" ++ Py.nl) 3
          (fun i evidence => Py.str_of_nat i ++ ". " ++ evidence ++ Py.nl)
          explanation ;;
      explanation <-
        section host analysis_result "reasoning_steps"
          (Py.nl ++ "Reasoning Process:" ++ Py.nl) 3
          (fun i step => Py.str_of_nat i ++ ". " ++ step ++ Py.nl)
          explanation ;;
      explanation <-
        section host analysis_result "caveats"
          (Py.nl ++ "Important Notes:" ++ Py.nl) 2
          (fun _ caveat => bullet ++ " " ++ caveat ++ Py.nl)
          explanation ;;
      Ok (Py.strip explanation)
  | _ => Raise (TypeError "explanation is not a text")
  end.

(** [_format_sources] *)
Definition _format_sources (host : Host.t) (analysis_result : Json.dict)
  : option string :=
  let sources_needed := Json.get_default "sources_needed" (Json.Arr []) analysis_result in
  if truthy sources_needed then
    Some (Host.json_dumps host
            (Json.Obj [("sources_needed", sources_needed);
                       ("model_used",
                        Json.get_default "model_used" (Json.Str "unknown")
                          analysis_result)]))
  else None.

Definition expect_text (v : Json.value) : result string :=
  match v with
  | Json.Str s => Ok s
  | _ => Raise (TypeError "verdict is not a text")
  end.

Definition expect_number (v : Json.value) : result Q :=
  match Json.as_number v with
  | Some x => Ok x
  | None => Raise (TypeError "confidence_score is not a number")
  end.

(** The [try] body of [check_fact], up to the arguments of [add_result]. *)
Definition checked (self : Llama.service) (host : Host.t) (claim : string)
    (session_id : option string) : result MemoryStore.add_args :=
  processed_claim <-
    Pathway.preprocess_claim (Host.table_empty host) (Host.utcnow host) claim ;;
  let verification_context :=
    Pathway.create_verification_context processed_claim None in
  analysis_result <-
    Llama.analyze_claim self host (Llama.Context verification_context) None ;;
  let total_processing_time := Host.elapsed_ms host in
  verdict <- expect_text
               (Json.get_default "verdict" (Json.Str "Unverified") analysis_result) ;;
  confidence_score <-
    expect_number
      (Json.get_default "confidence_score" (Json.Float 0.0) analysis_result) ;;
  explanation <- _format_explanation host analysis_result ;;
  Ok {| MemoryStore.a_claim := Py.strip claim;
        MemoryStore.a_verdict := verdict;
        MemoryStore.a_confidence_score := confidence_score;
        MemoryStore.a_explanation := explanation;
        MemoryStore.a_processing_time_ms := Some total_processing_time;
        MemoryStore.a_sources := _format_sources host analysis_result;
        MemoryStore.a_session_id := session_id;
        MemoryStore.a_now := Host.utcnow host |}.

(** The row that the [except] clause of [check_fact] stores. *)
Definition error_result (host : Host.t) (claim : string)
    (session_id : option string) (e : exn) : MemoryStore.add_args :=
  {| MemoryStore.a_claim := Py.strip claim;
     MemoryStore.a_verdict := "Unverified";
     MemoryStore.a_confidence_score := 0.0;
     MemoryStore.a_explanation :=
       "Fact-checking failed due to technical error: " ++ str_of_exn e
       ++ ". Please try again later.";
     MemoryStore.a_processing_time_ms := Some (Host.elapsed_ms host);
     MemoryStore.a_sources := None;
     MemoryStore.a_session_id := session_id;
     MemoryStore.a_now := Host.utcnow host |}.

(** [check_fact]: the new state of the store and the stored record. *)
Definition check_fact (self : Llama.service) (host : Host.t)
    (memory_store : MemoryStore.t) (claim : string) (session_id : option string)
  : MemoryStore.t * MemoryStore.row :=
  match checked self host claim session_id with
  | Ok args => MemoryStore.add_result memory_store args
  | Raise e => MemoryStore.add_result memory_store (error_result host claim session_id e)
  end.

(** The pipeline as [check_fact] would run it with the first
    [analyze_claim] of the service, the one that takes the verification
    context. *)
Definition checked_legacy (self : Llama.service) (host : Host.t) (claim : string)
    (session_id : option string) : result MemoryStore.add_args :=
  processed_claim <-
    Pathway.preprocess_claim (Host.table_empty host) (Host.utcnow host) claim ;;
  let verification_context :=
    Pathway.create_verification_context processed_claim None in
  let analysis_result := Llama.analyze_claim_legacy self host verification_context in
  verdict <- expect_text
               (Json.get_default "verdict" (Json.Str "Unverified") analysis_result) ;;
  confidence_score <-
    expect_number
      (Json.get_default "confidence_score" (Json.Float 0.0) analysis_result) ;;
  explanation <- _format_explanation host analysis_result ;;
  Ok {| MemoryStore.a_claim := Py.strip claim;
        MemoryStore.a_verdict := verdict;
        MemoryStore.a_confidence_score := confidence_score;
        MemoryStore.a_explanation := explanation;
        MemoryStore.a_processing_time_ms := Some (Host.elapsed_ms host);
        MemoryStore.a_sources := _format_sources host analysis_result;
        MemoryStore.a_session_id := session_id;
        MemoryStore.a_now := Host.utcnow host |}.

(** The dict returned by [test_services]. *)
Record service_report : Type := mk_service_report {
  r_timestamp : string;
  pathway_status : string;
  pathway_claim_type : option string;
  pathway_entities_found : option nat;
  llama_report : Llama.connection_report;
  overall_status : string
}.

Definition test_claim : string := "This is a test claim for service verification.".

(** [test_services] *)
Definition test_services (self : Llama.service) (host : Host.t) : service_report :=
  let pathway :=
    match Pathway.preprocess_claim (Host.table_empty host) (Host.utcnow host)
            test_claim with
    | Ok processed =>
        ("working", Some (Pathway.claim_type processed), Some 4%nat)
    | Raise _ => ("error", None, None)
    end in
  let llama_test := Llama.test_connection self host in
  let pathway_ok := String.eqb (fst (fst pathway)) "working" in
  let llama_ok :=
    existsb (String.eqb (Llama.status llama_test)) ["connected"; "working"] in
  {| r_timestamp := Host.utcnow host;
     pathway_status := fst (fst pathway);
     pathway_claim_type := snd (fst pathway);
     pathway_entities_found := snd pathway;
     llama_report := llama_test;
     overall_status :=
       if pathway_ok && llama_ok then "healthy"
       else if pathway_ok || llama_ok then "partial"
       else "error" |}.

End FactChecker.
(** ** [models/schemas.py] and the history endpoint of [main.py] *)

Module Api.

(** [VerdictEnum]: the six values a response model accepts. *)
Definition VerdictEnum : list string :=
  ["True"; "False"; "Partially True"; "Requires Investigation";
   "Requires Context"; "Unverified"]%string.

Definition is_verdict (v : string) : bool :=
  existsb (String.eqb v) VerdictEnum.

(** [HistoryResponse] *)
Record HistoryResponse : Type := mk_history {
  h_id : Z;
  h_claim : string;
  h_verdict : string;
  h_confidence_score : Q;
  h_explanation : string;
  h_timestamp : string
}.

(** The field constraints of [HistoryResponse]: [verdict: VerdictEnum] and
    [confidence_score] with [ge=0.0, le=100.0]. *)
Definition validate (h : HistoryResponse) : result HistoryResponse :=
  if negb (is_verdict (h_verdict h)) then
    Raise (ValidationError "verdict")
  else if negb (Qle_bool 0 (h_confidence_score h)
                && Qle_bool (h_confidence_score h) 100) then
    Raise (ValidationError "confidence_score")
  else Ok h.

(** [e[:200] + "..." if len(e) > 200 else e] *)
Definition shorten (e : string) : string :=
  if (200 <? String.length e)%nat
  then (Py.take 200 e ++ "...")%string
  else e.

Definition to_history (r : MemoryStore.row) : HistoryResponse :=
  {| h_id := MemoryStore.id r;
     h_claim := MemoryStore.claim r;
     h_verdict := MemoryStore.verdict r;
     h_confidence_score := MemoryStore.confidence_score r;
     h_explanation := shorten (MemoryStore.explanation r);
     h_timestamp := MemoryStore.timestamp r |}.

Fixpoint build_all (rs : list MemoryStore.row) : result (list HistoryResponse) :=
  match rs with
  | [] => Ok []
  | r :: rs' =>
      h <- validate (to_history r) ;;
      hs <- build_all rs' ;;
      Ok (h :: hs)
  end.

(** [get_history]: any exception becomes an HTTP 500. *)
Definition get_history (store : MemoryStore.t) (limit offset : option Z)
  : result (list HistoryResponse) :=
  match build_all (MemoryStore.get_all store limit offset) with
  | Ok hs => Ok hs
  | Raise e =>
      Raise (HTTPException 500
               ("Failed to retrieve history: " ++ str_of_exn e)%string)
  end.

(** [ClaimRequest]: [claim] is declared with [min_length=5] and
    [max_length=1000]; the framework validates the body before it calls the
    endpoint. *)
Record ClaimRequest : Type := mk_request {
  q_claim : string;
  q_session_id : option string
}.

Definition validate_request (r : ClaimRequest) : result ClaimRequest :=
  if ((String.length (q_claim r) <? 5) || (1000 <? String.length (q_claim r)))%nat
  then Raise (ValidationError "claim")
  else Ok r.

(** [ClaimResponse] *)
Record ClaimResponse : Type := mk_response {
  c_id : Z;
  c_claim : string;
  c_verdict : string;
  c_confidence_score : Q;
  c_explanation : string;
  c_timestamp : string;
  c_processing_time_ms : option Z;
  c_sources : option (list string)
}.

(** The field constraints of [ClaimResponse], those of [HistoryResponse]. *)
Definition validate_response (c : ClaimResponse) : result ClaimResponse :=
  if negb (is_verdict (c_verdict c)) then
    Raise (ValidationError "verdict")
  else if negb (Qle_bool 0 (c_confidence_score c)
                && Qle_bool (c_confidence_score c) 100) then
    Raise (ValidationError "confidence_score")
  else Ok c.

(** [check_claim]: the new state of the store and the response; any
    exception becomes an HTTP 500. *)
Definition check_claim (self : Llama.service) (host : Host.t)
    (memory_store : MemoryStore.t) (claim_request : ClaimRequest)
  : MemoryStore.t * result ClaimResponse :=
  let out := FactChecker.check_fact self host memory_store
               (q_claim claim_request) (q_session_id claim_request) in
  let result := snd out in
  (fst out,
   match validate_response
           {| c_id := MemoryStore.id result;
              c_claim := MemoryStore.claim result;
              c_verdict := MemoryStore.verdict result;
              c_confidence_score := MemoryStore.confidence_score result;
              c_explanation := MemoryStore.explanation result;
              c_timestamp := MemoryStore.timestamp result;
              c_processing_time_ms := MemoryStore.processing_time_ms result;
              c_sources := None |} with
   | Ok c => Ok c
   | Raise e =>
       Raise (HTTPException 500 ("Failed to process claim: " ++ str_of_exn e)%string)
   end).

(** The [/check] route: the body is validated, then handed to
    [check_claim]; a body that fails validation leaves the store alone. *)
Definition post_check (self : Llama.service) (host : Host.t)
    (memory_store : MemoryStore.t) (body : ClaimRequest)
  : MemoryStore.t * result ClaimResponse :=
  match validate_request body with
  | Ok claim_request => check_claim self host memory_store claim_request
  | Raise e => (memory_store, Raise e)
  end.

(** [get_stats] of [main.py] *)
Definition get_stats (memory_store : MemoryStore.t) : result MemoryStore.stats :=
  Ok (MemoryStore.get_stats memory_store).

End Api.
(** ** Sample data used to exercise the definitions *)

(** A request without Pathway, without the client library and with a
    backend that times out. *)
Definition sample_host : Host.t :=
  {| Host.table_empty := Raise (PathwayError "pathway is not available");
     Host.utcnow := "2024-01-15T10:30:00";
     Host.elapsed_ms := 1502%Z;
     Host.analysis_ms := 1500%Z;
     Host.ollama_generate := None;
     Host.http_post := Host.HttpTimeout;
     Host.json_dumps_entities := fun _ => "{}"%string;
     Host.json_dumps_structure := fun _ => "{}"%string;
     Host.json_dumps := fun _ => "{}"%string;
     Host.str_of_value := fun _ => ""%string;
     Host.repr_dict := fun _ => "{}"%string |}.

(** The prompt that the legacy pipeline builds for a claim. *)
Definition prompt_for (host : Host.t) (claim : string) : string :=
  Llama._create_fact_check_prompt host
    (Pathway.create_verification_context
       (Pathway.processed_data claim (Host.utcnow host) None) None).

(** A claim that holds a backslash. *)
Definition windows_claim : string := "The path C:\Windows is a folder".

Definition sample_add (k : nat) : MemoryStore.add_args :=
  {| MemoryStore.a_claim := "The Eiffel Tower is taller than 400 meters";
     MemoryStore.a_verdict := if Nat.even k then "False" else "Unverified";
     MemoryStore.a_confidence_score := inject_Z (Z.of_nat k);
     MemoryStore.a_explanation := "The Eiffel Tower is 330 meters tall.";
     MemoryStore.a_processing_time_ms := Some 1250%Z;
     MemoryStore.a_sources := None;
     MemoryStore.a_session_id := Some "user_session_123"%string;
     MemoryStore.a_now := "2024-01-15T10:30:00" |}.

Definition sample_adds (n : nat) : list MemoryStore.add_args :=
  map sample_add (seq 1 n).


(** The service as [__init__] builds it when [DEMO_MODE] is [false]. *)
Definition live_service : Llama.service :=
  {| Llama.model_name := "llama2";
     Llama.demo_mode := false;
     Llama.category_configs := Llama._init_category_configs |}.

(** A claim of two lines. *)
Definition two_line_claim : string :=
  ("The Earth is flat" ++ Py.nl ++ "and the Moon is a disc")%string.
(* ================================================================== *)
(** * Part II: properties *)
(* ================================================================== *)

(** ** Numbers *)

Lemma py_lt_true (a b : Q) : Py.lt a b = true <-> a < b.
Proof.
  unfold Py.lt. rewrite negb_true_iff. split; intros H.
  - apply Qnot_le_lt. intros L. apply Qle_bool_iff in L. congruence.
  - destruct (Qle_bool b a) eqn:E; [|reflexivity].
    apply Qle_bool_iff in E. exfalso. exact (Qlt_not_le _ _ H E).
Qed.

Lemma py_lt_false (a b : Q) : Py.lt a b = false <-> b <= a.
Proof.
  unfold Py.lt. rewrite negb_false_iff. apply Qle_bool_iff.
Qed.

Lemma py_gt_true (a b : Q) : Py.gt a b = true <-> b < a.
Proof. apply py_lt_true. Qed.


(** Python's two-argument [min] is the minimum. *)
Lemma py_min_Qmin (a b : Q) : Py.min a b == Qmin a b.
Proof.
  unfold Py.min. destruct (Py.lt b a) eqn:E.
  - apply py_lt_true in E. symmetry. apply Q.min_r. now apply Qlt_le_weak.
  - apply py_lt_false in E. symmetry. now apply Q.min_l.
Qed.

Lemma py_min_le_r (a b : Q) : Py.min a b <= b.
Proof. rewrite py_min_Qmin. apply Q.le_min_r. Qed.

Lemma py_min_le_l (a b : Q) : Py.min a b <= a.
Proof. rewrite py_min_Qmin. apply Q.le_min_l. Qed.

Lemma py_min_mono (a a' b : Q) : a <= a' -> Py.min a b <= Py.min a' b.
Proof.
  intros H. rewrite !py_min_Qmin. now apply Q.min_le_compat_r.
Qed.

(** Destructs a comparison of the model into the order fact it decides. *)
Ltac py_cmp a b :=
  let E := fresh "E" in
  destruct (Py.lt a b) eqn:E;
  [apply py_lt_true in E | apply py_lt_false in E].


(** ** Text and patterns *)

Lemma string_app_length (a b : string) :
  String.length (a ++ b) = (String.length a + String.length b)%nat.
Proof. induction a as [|c a IH]; cbn; [reflexivity|now rewrite IH]. Qed.

Lemma string_app_assoc (a b c : string) : ((a ++ b) ++ c = a ++ (b ++ c))%string.
Proof. induction a as [|x a IH]; cbn; [reflexivity|now rewrite IH]. Qed.

Lemma string_app_nil_r (a : string) : (a ++ "")%string = a.
Proof. induction a as [|x a IH]; cbn; [reflexivity|now rewrite IH]. Qed.

Lemma take_length (n : nat) (s : string) :
  String.length (Py.take n s) = Nat.min n (String.length s).
Proof.
  revert s. induction n as [|n IH]; intros [|c s]; cbn; try reflexivity.
  now rewrite IH.
Qed.

Lemma take_drop (n : nat) (s : string) : (Py.take n s ++ Py.drop n s)%string = s.
Proof.
  revert s. induction n as [|n IH]; intros [|c s]; cbn; try reflexivity.
  now rewrite IH.
Qed.

Lemma take_app (m s : string) : Py.take (String.length m) (m ++ s) = m.
Proof. induction m as [|c m IH]; cbn; [now destruct s|now rewrite IH]. Qed.

Lemma drop_app (m s : string) : Py.drop (String.length m) (m ++ s) = s.
Proof. induction m as [|c m IH]; cbn; [reflexivity|exact IH]. Qed.

Lemma all_chars_app (P : ascii -> bool) (a b : string) :
  Py.all_chars P (a ++ b) = Py.all_chars P a && Py.all_chars P b.
Proof.
  unfold Py.all_chars. induction a as [|c a IH]; cbn; [reflexivity|].
  now rewrite IH, andb_assoc.
Qed.

Lemma all_chars_impl (P Q : ascii -> bool) (s : string) :
  (forall c, P c = true -> Q c = true) ->
  Py.all_chars P s = true -> Py.all_chars Q s = true.
Proof.
  intros HPQ. unfold Py.all_chars.
  induction s as [|c s IH]; cbn [list_ascii_of_string forallb]; [reflexivity|].
  intros H. apply andb_true_iff in H. destruct H as [Hc Hs].
  now rewrite (HPQ c Hc), IH.
Qed.

Lemma all_chars_and (P Q : ascii -> bool) (s : string) :
  Py.all_chars P s = true -> Py.all_chars Q s = true ->
  Py.all_chars (fun c => P c && Q c) s = true.
Proof.
  unfold Py.all_chars.
  induction s as [|c s IH]; cbn [list_ascii_of_string forallb]; [reflexivity|].
  intros HP HQ. apply andb_true_iff in HP. apply andb_true_iff in HQ.
  destruct HP as [-> HP], HQ as [-> HQ]. now rewrite IH.
Qed.

(** Lower-casing leaves no upper-case letter. *)
Lemma lower_not_upper (s : string) :
  Py.all_chars (fun c => negb (Py.is_upper c)) (Py.lower s) = true.
Proof.
  unfold Py.all_chars.
  induction s as [|c s IH]; cbn [Py.lower list_ascii_of_string forallb];
    [reflexivity|].
  rewrite IH, andb_true_r.
  destruct c as [[] [] [] [] [] [] [] []]; reflexivity.
Qed.

Lemma consumed_app (m s : string) : Re.consumed (m ++ s) s = m.
Proof.
  unfold Re.consumed. rewrite string_app_length.
  replace (String.length m + String.length s - String.length s)%nat
    with (String.length m) by lia.
  apply take_app.
Qed.

(** A run of the matcher that succeeds has consumed a prefix of the text,
    made of characters of the classes of the pattern, before it called its
    continuation. *)
Lemma run_consumes (P : ascii -> bool) (r : Re.re) :
  Re.consumes_only P r ->
  forall (T : Type) prev s cap
         (k : option ascii -> string -> option string -> option T) x,
    Re.run r prev s cap k = Some x ->
    exists m s' prev' cap',
      s = (m ++ s')%string /\ Py.all_chars P m = true /\ k prev' s' cap' = Some x.
Proof.
  induction r as [|p|a IHa b IHb|a IHa b IHb|a IHa| |a IHa];
    cbn [Re.consumes_only]; intros HP T prev s cap k x H.
  - exists ""%string, s, prev, cap. cbn in *. auto.
  - cbn [Re.run] in H. destruct s as [|c s]; [discriminate|].
    destruct (p c) eqn:E; [|discriminate].
    exists (String c ""), s, (Some c), cap.
    unfold Py.all_chars. cbn. rewrite (HP c E). auto.
  - destruct HP as [HPa HPb]. cbn [Re.run] in H.
    destruct (IHa HPa _ _ _ _ _ _ H) as (m1 & s1 & prev1 & cap1 & -> & Hm1 & H1).
    destruct (IHb HPb _ _ _ _ _ _ H1) as (m2 & s2 & prev2 & cap2 & -> & Hm2 & H2).
    exists (m1 ++ m2)%string, s2, prev2, cap2.
    rewrite string_app_assoc, all_chars_app, Hm1, Hm2. auto.
  - destruct HP as [HPa HPb]. cbn [Re.run] in H.
    destruct (Re.run a prev s cap k) eqn:E.
    + injection H as <-. exact (IHa HPa _ _ _ _ _ _ E).
    + exact (IHb HPb _ _ _ _ _ _ H).
  - cbn [Re.run] in H. revert H. generalize (String.length s) as n.
    intros n. revert prev s cap x.
    induction n as [|n IHn]; intros prev s cap x H.
    + exists ""%string, s, prev, cap. auto.
    + match type of H with
      | match ?t with _ => _ end = _ => destruct t as [y|] eqn:E
      end.
      * injection H as <-.
        destruct (IHa HP _ _ _ _ _ _ E) as (m1 & s1 & prev1 & cap1 & -> & Hm1 & H1).
        destruct (String.length s1 <? String.length (m1 ++ s1))%nat; [|discriminate].
        destruct (IHn _ _ _ _ H1) as (m2 & s2 & prev2 & cap2 & -> & Hm2 & H2).
        exists (m1 ++ m2)%string, s2, prev2, cap2.
        rewrite string_app_assoc, all_chars_app, Hm1, Hm2. auto.
      * exists ""%string, s, prev, cap. auto.
  - cbn [Re.run] in H.
    destruct (xorb _ _); [|discriminate].
    exists ""%string, s, prev, cap. auto.
  - cbn [Re.run] in H.
    destruct (IHa HP _ _ _ _ _ _ H) as (m1 & s1 & prev1 & cap1 & -> & Hm1 & H1).
    exists m1, s1, prev1, (Some (Re.consumed (m1 ++ s1) s1)). auto.
Qed.

Lemma match_here_consumes (P : ascii -> bool) (r : Re.re) prev s t g :
  Re.consumes_only P r ->
  Re.match_here r prev s = Some (t, g) ->
  Py.all_chars P t = true /\ exists rest, s = (t ++ rest)%string.
Proof.
  intros HP H. unfold Re.match_here in H.
  destruct (run_consumes P r HP _ _ _ _ H) as (m & s' & prev' & cap' & -> & Hm & Hk).
  injection Hk as <- _. rewrite consumed_app. split; [exact Hm|now exists s'].
Qed.

(** Every text that [findall] reports is a piece of the subject, made of
    characters of the classes of the pattern. *)
Lemma findall_at_consumes (P : ascii -> bool) (r : Re.re) (t : string) :
  Re.consumes_only P r ->
  forall s prev skip,
    In t (Re.findall_at r prev s skip) ->
    Py.all_chars P t = true /\ exists a b, s = (a ++ t ++ b)%string.
Proof.
  intros HP. induction s as [|c s IH]; intros prev skip H.
  - destruct skip; cbn [Re.findall_at] in H; [|contradiction].
    destruct (Re.match_here r prev "") as [[t' g]|] eqn:E; [|contradiction].
    destruct H as [<-|[]].
    destruct (match_here_consumes P r _ _ HP E) as [Ht [rest Hs]].
    split; [exact Ht|]. exists ""%string, rest. exact Hs.
  - destruct skip as [|n]; cbn [Re.findall_at] in H.
    + destruct (Re.match_here r prev (String c s)) as [[t' g]|] eqn:E.
      * destruct H as [<-|H].
        -- destruct (match_here_consumes P r _ _ HP E) as [Ht [rest Hs]].
           split; [exact Ht|]. exists ""%string, rest. exact Hs.
        -- destruct (IH _ _ H) as [Ht (a & b & ->)].
           split; [exact Ht|]. now exists (String c a), b.
      * destruct (IH _ _ H) as [Ht (a & b & ->)].
        split; [exact Ht|]. now exists (String c a), b.
    + destruct (IH _ _ H) as [Ht (a & b & ->)].
      split; [exact Ht|]. now exists (String c a), b.
Qed.

Lemma findall_consumes (P : ascii -> bool) (r : Re.re) (s t : string) :
  Re.consumes_only P r ->
  In t (Re.findall r s) ->
  Py.all_chars P t = true /\ exists a b, s = (a ++ t ++ b)%string.
Proof. intros HP. apply findall_at_consumes. exact HP. Qed.

(** [search] finds a match wherever [findall] reports one. *)
Lemma search_none_findall (r : Re.re) (s : string) : forall prev pos,
  Re.search_at r prev s pos = None -> Re.findall_at r prev s 0 = [].
Proof.
  induction s as [|c s IH]; intros prev pos H.
  - cbn [Re.findall_at Re.search_at] in *.
    destruct (Re.match_here r prev "") as [[t g]|]; [discriminate|reflexivity].
  - cbn [Re.findall_at Re.search_at] in *.
    destruct (Re.match_here r prev (String c s)) as [[t g]|]; [discriminate|].
    now apply IH with (pos := S pos).
Qed.

Lemma search_of_findall (r : Re.re) (s : string) :
  Re.findall r s <> [] -> exists h, Re.search r s = Some h.
Proof.
  intros H. unfold Re.search.
  destruct (Re.search_at r None s 0) as [h|] eqn:E; [now exists h|].
  exfalso. apply H. exact (search_none_findall _ _ _ _ E).
Qed.

(** Decides, for a pattern whose classes are given, that it consumes only
    characters of a class: one case per character. *)
Ltac chars_in_class :=
  cbn; repeat split; intros c;
  destruct c as [[] [] [] [] [] [] [] []]; vm_compute; intros H;
  first [reflexivity | discriminate H].

(** [list(set(xs))] holds the elements of [xs], each once. *)
Lemma existsb_eqb_in (x : string) (l : list string) :
  existsb (String.eqb x) l = true <-> In x l.
Proof.
  rewrite existsb_exists. split.
  - intros (y & Hy & E). apply String.eqb_eq in E. now subst.
  - intros H. exists x. split; [exact H|apply String.eqb_refl].
Qed.

Lemma distinct_onto_in (xs : list string) : forall seen x,
  In x (Py.distinct_onto xs seen) <-> In x xs /\ ~ In x seen.
Proof.
  induction xs as [|y xs IH]; intros seen x; cbn [Py.distinct_onto In].
  - tauto.
  - destruct (existsb (String.eqb y) seen) eqn:E.
    + apply existsb_eqb_in in E. rewrite IH. split.
      * intros [H1 H2]. tauto.
      * intros [[->|H1] H2]; tauto.
    + assert (Hy : ~ In y seen).
      { intros H. apply existsb_eqb_in in H. congruence. }
      cbn [In]. rewrite IH. cbn [In]. split.
      * intros [->|[H1 H2]]; tauto.
      * intros [[->|H1] H2]; [now left|].
        destruct (String.eqb y x) eqn:Eyx.
        -- apply String.eqb_eq in Eyx. now left.
        -- apply String.eqb_neq in Eyx. right. tauto.
Qed.

Lemma distinct_onto_nodup (xs : list string) : forall seen,
  NoDup (Py.distinct_onto xs seen).
Proof.
  induction xs as [|y xs IH]; intros seen; cbn [Py.distinct_onto].
  - constructor.
  - destruct (existsb (String.eqb y) seen); [apply IH|].
    constructor; [|apply IH].
    rewrite distinct_onto_in. cbn [In]. tauto.
Qed.

Lemma list_set_in (xs : list string) (x : string) :
  In x (Py.list_set xs) <-> In x xs.
Proof. unfold Py.list_set. rewrite distinct_onto_in. cbn [In]. tauto. Qed.

Lemma list_set_nodup (xs : list string) : NoDup (Py.list_set xs).
Proof. apply distinct_onto_nodup. Qed.

Lemma count_in_le (words : list string) (text : string) :
  (Py.count_in words text <= List.length words)%nat.
Proof. unfold Py.count_in. apply filter_length_le. Qed.

(** *** Reversal, stripping and searching *)

Lemma rev_onto_rev_onto (m : string) : forall acc acc',
  Py.rev_onto (Py.rev_onto m acc) acc' = Py.rev_onto acc (m ++ acc')%string.
Proof.
  induction m as [|c m IH]; intros acc acc'; cbn [Py.rev_onto String.append].
  - reflexivity.
  - rewrite IH. reflexivity.
Qed.

Lemma rev_onto_app (a : string) : forall b acc,
  Py.rev_onto (a ++ b) acc = Py.rev_onto b (Py.rev_onto a acc).
Proof.
  induction a as [|c a IH]; intros b acc; cbn [String.append Py.rev_onto];
    [reflexivity|apply IH].
Qed.

Lemma rev_rev (s : string) : Py.rev (Py.rev s) = s.
Proof. unfold Py.rev. rewrite rev_onto_rev_onto. cbn. apply string_app_nil_r. Qed.

Lemma take_all (s : string) : Py.take (String.length s) s = s.
Proof. induction s as [|c s IH]; cbn; [reflexivity|now rewrite IH]. Qed.

(** A text that starts and ends with a character that is not white space
    is its own [strip]. *)
Lemma strip_tight (s : string) (c d : ascii) (r t : string) :
  s = String c r -> Py.rev s = String d t ->
  Py.is_space c = false -> Py.is_space d = false ->
  Py.strip s = s.
Proof.
  intros Hs Hr Hc Hd. unfold Py.strip, Py.rstrip.
  assert (L : Py.lstrip s = s).
  { rewrite Hs. cbn [Py.lstrip]. now rewrite Hc. }
  rewrite L, Hr. cbn [Py.lstrip]. rewrite Hd, <- Hr. apply rev_rev.
Qed.

Lemma index_of_skip (c : ascii) (m pre : string) : forall X,
  Py.all_chars (fun x => negb (Ascii.eqb c x)) pre = true ->
  Py.index_of (String c m) (pre ++ X)
  = option_map (Nat.add (String.length pre)) (Py.index_of (String c m) X).
Proof.
  induction pre as [|p pre IH]; intros X H.
  - cbn [String.append String.length]. destruct (Py.index_of _ X); reflexivity.
  - unfold Py.all_chars in H. cbn [list_ascii_of_string forallb] in H.
    apply andb_true_iff in H. destruct H as [Hp H].
    apply negb_true_iff in Hp.
    cbn [String.append Py.index_of Py.startswith]. rewrite Hp. cbn [andb].
    rewrite (IH X H). destruct (Py.index_of (String c m) X); reflexivity.
Qed.

Lemma index_of_before (ch : ascii) (m : string) : forall tail,
  Py.index_of (String ch "") (m ++ String ch tail)
  = Some (String.length (Py.before ch m)).
Proof.
  induction m as [|c m IH]; intros tail.
  - cbn [String.append Py.index_of Py.startswith Py.before String.length].
    rewrite Ascii.eqb_refl. reflexivity.
  - cbn [String.append Py.index_of Py.startswith Py.before].
    rewrite (Ascii.eqb_sym ch c).
    destruct (Ascii.eqb c ch); cbn [andb String.length]; [reflexivity|].
    rewrite IH. reflexivity.
Qed.

Lemma take_before (ch : ascii) (m : string) : forall X,
  Py.take (String.length (Py.before ch m)) (m ++ X) = Py.before ch m.
Proof.
  induction m as [|c m IH]; intros X.
  - cbn. now destruct X.
  - cbn [Py.before]. destruct (Ascii.eqb c ch).
    + reflexivity.
    + cbn [String.length String.append Py.take]. now rewrite IH.
Qed.

Lemma rev_onto_acc (s : string) : forall acc,
  Py.rev_onto s acc = (Py.rev s ++ acc)%string.
Proof.
  unfold Py.rev. induction s as [|c s IH]; intros acc; cbn [Py.rev_onto].
  - reflexivity.
  - rewrite IH, (IH (String c "")), string_app_assoc. reflexivity.
Qed.

Lemma py_rev_app (a b : string) : Py.rev (a ++ b) = (Py.rev b ++ Py.rev a)%string.
Proof.
  unfold Py.rev at 1. rewrite rev_onto_app, rev_onto_acc. reflexivity.
Qed.

Lemma py_rev_length (s : string) : String.length (Py.rev s) = String.length s.
Proof.
  induction s as [|c s IH]; [reflexivity|].
  change (String c s) with (String c "" ++ s)%string.
  rewrite py_rev_app, string_app_length, IH. cbn. lia.
Qed.

Lemma all_chars_rev (P : ascii -> bool) (s : string) :
  Py.all_chars P (Py.rev s) = Py.all_chars P s.
Proof.
  induction s as [|c s IH]; [reflexivity|].
  change (String c s) with (String c "" ++ s)%string.
  rewrite py_rev_app, !all_chars_app, IH. apply andb_comm.
Qed.

(** Stripping the front of a text stops at the first character that is not
    white space. *)
Lemma lstrip_app (pre : string) (c : ascii) (rest : string) :
  Py.is_space c = false ->
  exists a p', pre = (a ++ p')%string
               /\ Py.lstrip (pre ++ String c rest) = (p' ++ String c rest)%string.
Proof.
  intros Hc. induction pre as [|x pre (a & p' & Hpre & IH)].
  - exists ""%string, ""%string. cbn [String.append Py.lstrip]. now rewrite Hc.
  - cbn [String.append Py.lstrip]. destruct (Py.is_space x).
    + exists (String x a), p'. cbn [String.append]. now rewrite <- Hpre.
    + exists ""%string, (String x pre). auto.
Qed.

(** What [strip] keeps of a text around a core that starts and ends with a
    character that is not white space. *)
Lemma strip_core (pre core post : string) (c d : ascii) (r t : string) :
  core = String c r -> Py.rev core = String d t ->
  Py.is_space c = false -> Py.is_space d = false ->
  exists a p' q' b,
    pre = (a ++ p')%string /\ post = (q' ++ b)%string
    /\ Py.strip (pre ++ core ++ post) = (p' ++ core ++ q')%string.
Proof.
  intros Hcore Hrev Hc Hd. unfold Py.strip, Py.rstrip.
  destruct (@lstrip_app pre c (r ++ post) Hc) as (a & p' & Hpre & Hl).
  assert (E1 : (pre ++ core ++ post = pre ++ String c (r ++ post))%string)
    by (rewrite Hcore; reflexivity).
  rewrite E1, Hl.
  assert (E2 : (p' ++ String c (r ++ post) = (p' ++ core) ++ post)%string)
    by (rewrite Hcore, string_app_assoc; reflexivity).
  rewrite E2, py_rev_app, (py_rev_app p' core), Hrev.
  cbn [String.append].
  destruct (@lstrip_app (Py.rev post) d (t ++ Py.rev p') Hd) as (b' & q'' & Hpost & Hl2).
  rewrite Hl2.
  exists a, p', (Py.rev q''), (Py.rev b').
  split; [exact Hpre|]. split.
  - rewrite <- py_rev_app, <- Hpost. symmetry. apply rev_rev.
  - assert (E3 : (q'' ++ String d (t ++ Py.rev p')
                  = q'' ++ (Py.rev core ++ Py.rev p'))%string)
      by (rewrite Hrev; reflexivity).
    rewrite E3, py_rev_app, py_rev_app, !rev_rev, string_app_assoc. reflexivity.
Qed.

Lemma index_of_here (c : ascii) (rest : string) :
  Py.index_of (String c "") (String c rest) = Some 0%nat.
Proof. cbn [Py.index_of Py.startswith]. now rewrite Ascii.eqb_refl. Qed.

(** The span from the first opening brace to the last closing brace. *)
Lemma brace_span (p core q : string) (r t : string) :
  core = String "{" r -> Py.rev core = String "}" t ->
  Py.all_chars (fun x => negb (Ascii.eqb "{" x)) p = true ->
  Py.all_chars (fun x => negb (Ascii.eqb "}" x)) q = true ->
  let s := (p ++ core ++ q)%string in
  Py.find "{" s 0 = Z.of_nat (String.length p)
  /\ (Py.rfind_char "}" s + 1)%Z = Z.of_nat (String.length p + String.length core)
  /\ Py.slice s (String.length p) (Z.of_nat (String.length p + String.length core))
     = core.
Proof.
  intros Hcore Hrev Hp Hq s.
  assert (Hlen : (1 <= String.length core)%nat)
    by (rewrite Hcore; cbn [String.length]; lia).
  split; [|split].
  - unfold Py.find. cbn [Nat.ltb Nat.leb Py.drop]. subst s.
    rewrite index_of_skip by exact Hp.
    rewrite Hcore. cbn [String.append]. rewrite index_of_here.
    cbn [option_map]. f_equal. lia.
  - unfold Py.rfind_char, Py.rindex_char. subst s.
    rewrite py_rev_app, py_rev_app, string_app_assoc.
    rewrite index_of_skip by (rewrite all_chars_rev; exact Hq).
    rewrite Hrev. cbn [String.append]. rewrite index_of_here.
    cbn [option_map]. rewrite py_rev_length, !string_app_length. lia.
  - unfold Py.slice.
    assert (E : (Z.of_nat (String.length p + String.length core) <? 0)%Z = false)
      by (apply Z.ltb_ge; lia).
    rewrite E, Nat2Z.id. subst s. rewrite drop_app.
    replace (String.length p + String.length core - String.length p)%nat
      with (String.length core) by lia.
    apply take_app.
Qed.

Lemma all_chars_app_r (P : ascii -> bool) (a b : string) :
  Py.all_chars P (a ++ b) = true -> Py.all_chars P b = true.
Proof. rewrite all_chars_app. intros H. now apply andb_true_iff in H. Qed.

Lemma all_chars_app_l (P : ascii -> bool) (a b : string) :
  Py.all_chars P (a ++ b) = true -> Py.all_chars P a = true.
Proof. rewrite all_chars_app. intros H. now apply andb_true_iff in H. Qed.


(** *** Substitution *)

(** What [re.sub] writes is made of the replacement and of characters of
    the subject. *)
Lemma sub_at_chars (Q : ascii -> bool) (r : Re.re) (repl : string) :
  Py.all_chars Q repl = true ->
  forall s prev skip,
    Py.all_chars Q s = true -> Py.all_chars Q (Re.sub_at r repl prev s skip) = true.
Proof.
  intros Hrepl. induction s as [|c s IH]; intros prev skip Hs; [reflexivity|].
  unfold Py.all_chars in Hs. cbn [list_ascii_of_string forallb] in Hs.
  apply andb_true_iff in Hs. destruct Hs as [Hc Hs].
  cbn [Re.sub_at]. destruct skip as [|n]; [|now apply IH].
  destruct (Re.match_here r prev (String c s)) as [[[|x t'] g]|].
  - unfold Py.all_chars. cbn [list_ascii_of_string forallb]. rewrite Hc.
    now apply IH.
  - rewrite all_chars_app, Hrepl. now apply IH.
  - unfold Py.all_chars. cbn [list_ascii_of_string forallb]. rewrite Hc.
    now apply IH.
Qed.

(** [re.sub] leaves no character of a class that the pattern always
    matches. *)
Lemma sub_at_removes (p : ascii -> bool) (r : Re.re) (repl : string) :
  (forall prev c s', p c = true ->
     exists x t' g, Re.match_here r prev (String c s') = Some (String x t', g)) ->
  Py.all_chars (fun c => negb (p c)) repl = true ->
  forall s prev skip,
    Py.all_chars (fun c => negb (p c)) (Re.sub_at r repl prev s skip) = true.
Proof.
  intros Hmatch Hrepl. induction s as [|c s IH]; intros prev skip; [reflexivity|].
  cbn [Re.sub_at]. destruct skip as [|n]; [|apply IH].
  destruct (p c) eqn:Hc.
  - destruct (Hmatch prev c s Hc) as (x & t' & g & ->).
    rewrite all_chars_app, Hrepl. apply IH.
  - destruct (Re.match_here r prev (String c s)) as [[[|x t'] g]|].
    + unfold Py.all_chars. cbn [list_ascii_of_string forallb]. rewrite Hc.
      apply IH.
    + rewrite all_chars_app, Hrepl. apply IH.
    + unfold Py.all_chars. cbn [list_ascii_of_string forallb]. rewrite Hc.
      apply IH.
Qed.

(** With a replacement of at most one character, [re.sub] does not
    lengthen the text. *)
Lemma sub_at_length (r : Re.re) (repl : string) :
  (String.length repl <= 1)%nat ->
  forall s prev skip,
    (String.length (Re.sub_at r repl prev s skip) <= String.length s)%nat.
Proof.
  intros Hrepl. induction s as [|c s IH]; intros prev skip; [apply Nat.le_refl|].
  cbn [Re.sub_at String.length]. destruct skip as [|n].
  - destruct (Re.match_here r prev (String c s)) as [[[|x t'] g]|].
    + cbn [String.length]. specialize (IH (Some c) 0%nat). lia.
    + rewrite string_app_length. specialize (IH (Some c) (String.length t')). lia.
    + cbn [String.length]. specialize (IH (Some c) 0%nat). lia.
  - specialize (IH (Some c) n). lia.
Qed.

(** A repetition followed by nothing else always matches. *)
Lemma star_final (a : Re.re) (T : Type)
    (k : option ascii -> string -> option string -> option T) :
  (forall prev s cap, exists x, k prev s cap = Some x) ->
  forall prev s cap, exists x, Re.run (Re.Star a) prev s cap k = Some x.
Proof.
  intros Hk prev s cap. cbn [Re.run].
  generalize (String.length s) as n. intros n. revert prev s cap.
  induction n as [|n IH]; intros prev s cap.
  - apply Hk.
  - match goal with
    | |- exists x, match ?t with _ => _ end = _ => destruct t as [y|]
    end.
    + now exists y.
    + apply Hk.
Qed.

Lemma one_more (n : nat) : (S n - n = 1)%nat.
Proof. lia. Qed.

(** One character of the class is matched by the class... *)
Lemma match_here_chr (p : ascii -> bool) prev (c : ascii) (s' : string) :
  p c = true ->
  Re.match_here (Re.Chr p) prev (String c s') = Some (String c "", None).
Proof.
  intros Hc. unfold Re.match_here. cbn [Re.run]. rewrite Hc.
  unfold Re.consumed. cbn [String.length]. rewrite one_more. reflexivity.
Qed.

Lemma run_cat (a b : Re.re) (T : Type) prev s cap
    (k : option ascii -> string -> option string -> option T) :
  Re.run (Re.Cat a b) prev s cap k
  = Re.run a prev s cap (fun prev' s' cap' => Re.run b prev' s' cap' k).
Proof. reflexivity. Qed.

Lemma run_chr (p : ascii -> bool) (T : Type) prev c s' cap
    (k : option ascii -> string -> option string -> option T) :
  Re.run (Re.Chr p) prev (String c s') cap k
  = if p c then k (Some c) s' cap else None.
Proof. reflexivity. Qed.

(** ... and starts a match of the repeated class. *)
Lemma match_here_plus (p : ascii -> bool) prev (c : ascii) (s' : string) :
  p c = true ->
  exists t' g,
    Re.match_here (Re.Plus (Re.Chr p)) prev (String c s') = Some (String c t', g).
Proof.
  intros Hc. unfold Re.match_here, Re.Plus.
  rewrite run_cat, run_chr, Hc.
  set (k := fun (_ : option ascii) (rest : string) (cap : option string) =>
              Some (Re.consumed (String c s') rest, cap)).
  destruct (@star_final (Re.Chr p) _ k ltac:(intros; eexists; reflexivity)
              (Some c) s' None) as [x Hx].
  rewrite Hx.
  assert (HP : Re.consumes_only (fun _ => true) (Re.Star (Re.Chr p))) by (cbn; auto).
  destruct (run_consumes _ _ HP _ _ _ _ Hx) as (m & s'' & prev' & cap' & Hs & _ & Hk).
  subst k. cbn beta in Hk. injection Hk as <-. subst s'.
  change (String c (m ++ s'')) with (String c m ++ s'')%string.
  rewrite consumed_app. now exists m, cap'.
Qed.

Lemma lstrip_length (s : string) : (String.length (Py.lstrip s) <= String.length s)%nat.
Proof.
  induction s as [|c s IH]; cbn [Py.lstrip String.length]; [lia|].
  destruct (Py.is_space c); cbn [String.length]; lia.
Qed.

Lemma strip_length (s : string) : (String.length (Py.strip s) <= String.length s)%nat.
Proof.
  unfold Py.strip, Py.rstrip. rewrite py_rev_length.
  eapply Nat.le_trans; [apply lstrip_length|].
  rewrite py_rev_length. apply lstrip_length.
Qed.


(** ** Dicts *)

Lemma get_set_same (key : string) (v : Json.value) (d : Json.dict) :
  Json.get key (Json.set key v d) = Some v.
Proof.
  induction d as [|[k w] d IH]; cbn [Json.set Json.get].
  - now rewrite String.eqb_refl.
  - destruct (String.eqb k key) eqn:E; cbn [Json.get]; rewrite E; [reflexivity|exact IH].
Qed.

Lemma get_set_other (key key' : string) (v : Json.value) (d : Json.dict) :
  String.eqb key' key = false ->
  Json.get key (Json.set key' v d) = Json.get key d.
Proof.
  intros Hne. induction d as [|[k w] d IH]; cbn [Json.set Json.get].
  - now rewrite Hne.
  - destruct (String.eqb k key') eqn:E; cbn [Json.get].
    + apply String.eqb_eq in E. subst k. now rewrite Hne.
    + destruct (String.eqb k key); [reflexivity|exact IH].
Qed.

Lemma has_set_same (key : string) (v : Json.value) (d : Json.dict) :
  Json.has key (Json.set key v d) = true.
Proof. unfold Json.has. now rewrite get_set_same. Qed.

Lemma has_set_other (key key' : string) (v : Json.value) (d : Json.dict) :
  String.eqb key' key = false ->
  Json.has key (Json.set key' v d) = Json.has key d.
Proof. intros H. unfold Json.has. now rewrite get_set_other. Qed.

(** [if key not in d: d[key] = v], as the parser writes its defaults. *)
Lemma ensure_has (key : string) (v : Json.value) (d : Json.dict) :
  Json.has key (if Json.has key d then d else Json.set key v d) = true.
Proof.
  destruct (Json.has key d) eqn:E; [exact E | apply has_set_same].
Qed.

Lemma ensure_keeps_has (key key' : string) (v : Json.value) (d : Json.dict) :
  Json.has key d = true ->
  Json.has key (if Json.has key' d then d else Json.set key' v d) = true.
Proof.
  intros H. destruct (Json.has key' d); [exact H|].
  destruct (String.eqb key' key) eqn:E.
  - apply String.eqb_eq in E. subst key'. apply has_set_same.
  - now rewrite has_set_other.
Qed.

Lemma ensure_keeps_get (key key' : string) (v : Json.value) (d : Json.dict) :
  String.eqb key' key = false ->
  Json.get key (if Json.has key' d then d else Json.set key' v d) = Json.get key d.
Proof.
  intros H. destruct (Json.has key' d); [reflexivity | now apply get_set_other].
Qed.

Lemma ensure_default (key : string) (v : Json.value) (d : Json.dict) :
  Json.has key d = false ->
  Json.get key (if Json.has key d then d else Json.set key v d) = Some v.
Proof. intros ->. apply get_set_same. Qed.

(** ** The decoder never runs out of nested calls *)

Lemma skip_ws_length (s : string) :
  (String.length (Json.skip_ws s) <= String.length s)%nat.
Proof.
  induction s as [|c s IH]; cbn [Json.skip_ws String.length]; [lia|].
  destruct (Json.is_ws c); cbn [String.length]; lia.
Qed.

Lemma skip_ws_cons (s : string) (c : ascii) (rest : string) :
  Json.skip_ws s = String c rest ->
  (S (String.length rest) <= String.length s)%nat.
Proof.
  intros H. pose proof (skip_ws_length s) as L. rewrite H in L. exact L.
Qed.

Lemma drop_length (n : nat) (s : string) :
  (String.length (Py.drop n s) <= String.length s)%nat.
Proof.
  revert s. induction n as [|n IH]; intros s; destruct s as [|c s];
    cbn [Py.drop String.length]; try lia.
  specialize (IH s). lia.
Qed.

(** One step of [scanstring]. *)
Lemma scanstring_step (c : ascii) (s' acc : string) :
  Json.scanstring (String c s') acc =
  if Json.is_dq c then Json.Parsed (Py.rev acc) s'
  else if Json.is_backslash c then
    match s' with
    | ""%string => Json.Bad "Unterminated string starting at"
    | String esc s'' =>
        if Ascii.eqb esc "u" then
          match s'' with
          | String h1 (String h2 (String h3 (String h4 s4))) =>
              match Json.hex4 h1 h2 h3 h4 with
              | None => Json.Bad "Invalid \uXXXX escape"
              | Some hi =>
                  let single := Json.scanstring s4 (Json.push_utf8 hi acc) in
                  match s4 with
                  | String b (String u (String l1 (String l2 (String l3
                      (String l4 s10))))) =>
                      if Json.is_high_surrogate hi && Json.is_backslash b
                         && Ascii.eqb u "u"
                      then
                        match Json.hex4 l1 l2 l3 l4 with
                        | None => Json.Bad "Invalid \uXXXX escape"
                        | Some lo =>
                            if Json.is_low_surrogate lo then
                              Json.scanstring s10
                                (Json.push_utf8
                                   (65536 + (hi - 55296) * 1024 + (lo - 56320))%N
                                   acc)
                            else single
                        end
                      else single
                  | _ => single
                  end
              end
          | _ => Json.Bad "Invalid \uXXXX escape"
          end
        else
          match Json.unescape esc with
          | Some ch => Json.scanstring s'' (String ch acc)
          | None => Json.Bad "Invalid \escape"
          end
    end
  else if (N_of_ascii c <? 32)%N then Json.Bad "Invalid control character at"
  else Json.scanstring s' (String c acc).
Proof. reflexivity. Qed.

Lemma within_weaken {A : Type} (o : Json.outcome A) (n m : nat) :
  (n <= m)%nat -> Json.within o n -> Json.within o m.
Proof. destruct o; cbn [Json.within]; intros; try lia; assumption. Qed.

(** [scanstring] consumes at least the closing quote. *)
Lemma scanstring_within (n : nat) : forall s acc,
  (String.length s <= n)%nat ->
  Json.within (Json.scanstring s acc) (String.length s - 1).
Proof.
  induction n as [|n IH]; intros s acc Hlen.
  - destruct s; [exact I | cbn [String.length] in Hlen; lia].
  - destruct s as [|c s1]; [exact I|].
    cbn [String.length] in Hlen. rewrite scanstring_step.
    assert (Hrec : forall t acc', (String.length t <= String.length s1)%nat ->
                     Json.within (Json.scanstring t acc') (String.length (String c s1) - 1)).
    { intros t acc' Ht. apply within_weaken with (String.length t - 1)%nat.
      - cbn [String.length]. lia.
      - apply IH. lia. }
    destruct (Json.is_dq c); [cbn [Json.within String.length]; lia|].
    destruct (Json.is_backslash c).
    + destruct s1 as [|esc s2]; [exact I|].
      destruct (Ascii.eqb esc "u").
      * destruct s2 as [|h1 [|h2 [|h3 [|h4 s4]]]]; try exact I.
        destruct (Json.hex4 h1 h2 h3 h4) as [hi|]; [|exact I].
        assert (Hsingle : Json.within (Json.scanstring s4 (Json.push_utf8 hi acc))
                            (String.length
                               (String c (String esc (String h1 (String h2
                                  (String h3 (String h4 s4)))))) - 1)).
        { apply Hrec. cbn [String.length]. lia. }
        cbv zeta.
        destruct s4 as [|b [|u [|l1 [|l2 [|l3 [|l4 s10]]]]]]; try exact Hsingle.
        destruct (Json.is_high_surrogate hi && Json.is_backslash b && Ascii.eqb u "u");
          [|exact Hsingle].
        destruct (Json.hex4 l1 l2 l3 l4) as [lo|]; [|exact I].
        destruct (Json.is_low_surrogate lo); [|exact Hsingle].
        apply Hrec. cbn [String.length]. lia.
      * destruct (Json.unescape esc); [|exact I].
        apply Hrec. cbn [String.length]. lia.
    + destruct (N_of_ascii c <? 32)%N; [exact I|].
      apply Hrec. lia.
Qed.

Lemma literal_leaves (word : string) (v : Json.value) (s : string) :
  Json.leaves (Json.literal word v s) (String.length s).
Proof.
  unfold Json.literal. destruct (Py.startswith word s); cbn [Json.leaves];
    [apply drop_length | exact I].
Qed.

Lemma match_number_leaves (s : string) :
  Json.leaves (Json.match_number s) (String.length s).
Proof.
  unfold Json.match_number.
  destruct (Re.match_here Json.integer_re None s) as [[integer g]|]; [|exact I].
  cbv zeta.
  set (s1 := Py.drop (String.length integer) s).
  set (frac := match Re.match_here Json.frac_re None s1 with
               | Some (t, _) => t
               | None => ""%string
               end).
  set (s2 := Py.drop (String.length frac) s1).
  set (exp := match Re.match_here Json.exp_re None s2 with
              | Some (t, _) => t
              | None => ""%string
              end).
  assert (L : (String.length (Py.drop (String.length exp) s2) <= String.length s)%nat).
  { eapply Nat.le_trans; [apply drop_length|].
    eapply Nat.le_trans; [apply drop_length|]. apply drop_length. }
  destruct (String.eqb frac "" && String.eqb exp ""); exact L.
Qed.

Lemma first_of_leaves (n : nat) (xs : list (option (Json.value * string))) :
  Forall (fun x => Json.leaves x n) xs -> Json.leaves (Json.first_of xs) n.
Proof.
  induction 1 as [|x xs Hx _ IH]; cbn [Json.first_of fold_right]; [exact I|].
  destruct x as [[v rest]|]; [exact Hx | exact IH].
Qed.

Lemma scalar_within (s : string) : Json.within (Json.scalar s) (String.length s).
Proof.
  unfold Json.scalar.
  match goal with
  | |- context [Json.first_of ?xs] =>
      assert (H : Json.leaves (Json.first_of xs) (String.length s))
  end.
  { apply first_of_leaves.
    repeat constructor; apply literal_leaves || apply match_number_leaves. }
  destruct (Json.first_of _) as [[v rest]|]; [exact H | exact I].
Qed.

(** One level of each of the three scanners. *)
Lemma scan_once_step (fuel : nat) (c : ascii) (s' : string) :
  Json.scan_once (S fuel) (String c s') =
  if Json.is_dq c then
    match Json.scanstring s' "" with
    | Json.Parsed t rest => Json.Parsed (Json.Str t) rest
    | Json.Bad m => Json.Bad m
    | Json.OutOfFuel => Json.OutOfFuel
    end
  else if Ascii.eqb c "{" then
    match Json.skip_ws s' with
    | ""%string => Json.Bad Json.expecting_name
    | String q rest =>
        if Ascii.eqb q "}" then Json.Parsed (Json.Obj []) rest
        else if Json.is_dq q then Json.members fuel rest []
        else Json.Bad Json.expecting_name
    end
  else if Ascii.eqb c "[" then
    match Json.skip_ws s' with
    | ""%string => Json.elements fuel "" []
    | String q rest =>
        if Ascii.eqb q "]" then Json.Parsed (Json.Arr []) rest
        else Json.elements fuel (String q rest) []
    end
  else Json.scalar (String c s').
Proof. reflexivity. Qed.

Lemma elements_step (fuel : nat) (s : string) (items : list Json.value) :
  Json.elements (S fuel) s items =
  match Json.scan_once fuel s with
  | Json.Bad m => Json.Bad m
  | Json.OutOfFuel => Json.OutOfFuel
  | Json.Parsed v s1 =>
      match Json.skip_ws s1 with
      | ""%string => Json.Bad "Expecting ',' delimiter"
      | String d rest =>
          if Ascii.eqb d "]" then Json.Parsed (Json.Arr (items ++ [v])) rest
          else if Ascii.eqb d ","
          then Json.elements fuel (Json.skip_ws rest) (items ++ [v])
          else Json.Bad "Expecting ',' delimiter"
      end
  end.
Proof. reflexivity. Qed.

Lemma members_step (fuel : nat) (s : string) (pairs : list (string * Json.value)) :
  Json.members (S fuel) s pairs =
  match Json.scanstring s "" with
  | Json.Bad m => Json.Bad m
  | Json.OutOfFuel => Json.OutOfFuel
  | Json.Parsed key s1 =>
      match Json.skip_ws s1 with
      | ""%string => Json.Bad "Expecting ':' delimiter"
      | String colon s2 =>
          if Ascii.eqb colon ":" then
            match Json.scan_once fuel (Json.skip_ws s2) with
            | Json.Bad m => Json.Bad m
            | Json.OutOfFuel => Json.OutOfFuel
            | Json.Parsed v s3 =>
                match Json.skip_ws s3 with
                | ""%string => Json.Bad "Expecting ',' delimiter"
                | String d rest =>
                    if Ascii.eqb d "}"
                    then Json.Parsed (Json.Obj (Json.dict_of (pairs ++ [(key, v)]))) rest
                    else if Ascii.eqb d "," then
                      match Json.skip_ws rest with
                      | ""%string => Json.Bad Json.expecting_name
                      | String q rest' =>
                          if Json.is_dq q
                          then Json.members fuel rest' (pairs ++ [(key, v)])
                          else Json.Bad Json.expecting_name
                      end
                    else Json.Bad "Expecting ',' delimiter"
                end
            end
          else Json.Bad "Expecting ':' delimiter"
      end
  end.
Proof. reflexivity. Qed.

(** With [2 * length s + 1] nested calls ([+ 2] for a list of elements) no
    scanner runs out of them, and what it leaves is no longer than [s]. *)
Lemma scanners_within (fuel : nat) :
  (forall s, (2 * String.length s + 1 <= fuel)%nat ->
     Json.within (Json.scan_once fuel s) (String.length s))
  /\ (forall s items, (2 * String.length s + 2 <= fuel)%nat ->
        Json.within (Json.elements fuel s items) (String.length s))
  /\ (forall s pairs, (2 * String.length s + 1 <= fuel)%nat ->
        Json.within (Json.members fuel s pairs) (String.length s)).
Proof.
  induction fuel as [|fuel (IHscan & IHelems & IHmembers)].
  - repeat split; intros; lia.
  - split; [|split].
    + intros s Hfuel. destruct s as [|c s']; [exact I|].
      rewrite scan_once_step. cbn [String.length] in *.
      destruct (Json.is_dq c).
      { pose proof (scanstring_within s' "" (Nat.le_refl _)) as H.
        destruct (Json.scanstring s' ""); cbn [Json.within] in *; try assumption. lia. }
      destruct (Ascii.eqb c "{").
      { destruct (Json.skip_ws s') as [|q rest] eqn:E; [exact I|].
        apply skip_ws_cons in E.
        destruct (Ascii.eqb q "}"); [cbn [Json.within]; lia|].
        destruct (Json.is_dq q); [|exact I].
        apply within_weaken with (String.length rest); [lia|].
        apply IHmembers. lia. }
      destruct (Ascii.eqb c "[").
      { destruct (Json.skip_ws s') as [|q rest] eqn:E.
        - apply within_weaken with (String.length ""%string);
            [cbn [String.length]; lia|].
          apply IHelems. cbn [String.length]. lia.
        - apply skip_ws_cons in E.
          destruct (Ascii.eqb q "]"); [cbn [Json.within]; lia|].
          apply within_weaken with (String.length (String q rest));
            [cbn [String.length]; lia|].
          apply IHelems. cbn [String.length]. lia. }
      apply (scalar_within (String c s')).
    + intros s items Hfuel. rewrite elements_step.
      assert (Hscan : Json.within (Json.scan_once fuel s) (String.length s))
        by (apply IHscan; lia).
      destruct (Json.scan_once fuel s) as [v s1| |]; cbn [Json.within] in Hscan;
        try assumption.
      destruct (Json.skip_ws s1) as [|d rest] eqn:E; [exact I|].
      apply skip_ws_cons in E.
      destruct (Ascii.eqb d "]"); [cbn [Json.within]; lia|].
      destruct (Ascii.eqb d ","); [|exact I].
      pose proof (skip_ws_length rest) as L.
      apply within_weaken with (String.length (Json.skip_ws rest)); [lia|].
      apply IHelems. lia.
    + intros s pairs Hfuel. rewrite members_step.
      pose proof (scanstring_within s "" (Nat.le_refl _)) as Hkey.
      destruct (Json.scanstring s "") as [key s1| |]; cbn [Json.within] in Hkey;
        try assumption.
      destruct (Json.skip_ws s1) as [|colon s2] eqn:E1; [exact I|].
      apply skip_ws_cons in E1.
      destruct (Ascii.eqb colon ":"); [|exact I].
      pose proof (skip_ws_length s2) as L2.
      assert (Hscan : Json.within (Json.scan_once fuel (Json.skip_ws s2))
                        (String.length (Json.skip_ws s2)))
        by (apply IHscan; lia).
      destruct (Json.scan_once fuel (Json.skip_ws s2)) as [v s3| |];
        cbn [Json.within] in Hscan; try assumption.
      destruct (Json.skip_ws s3) as [|d rest] eqn:E3; [exact I|].
      apply skip_ws_cons in E3.
      destruct (Ascii.eqb d "}"); [cbn [Json.within]; lia|].
      destruct (Ascii.eqb d ","); [|exact I].
      destruct (Json.skip_ws rest) as [|q rest'] eqn:E4; [exact I|].
      apply skip_ws_cons in E4.
      destruct (Json.is_dq q); [|exact I].
      apply within_weaken with (String.length rest'); [lia|].
      apply IHmembers. lia.
Qed.

(** [json.loads] of the model never reports an exhausted scanner. *)
Lemma loads_within_fuel (s : string) (msg : string) :
  Json.loads s <> Raise (RecursionError msg).
Proof.
  unfold Json.loads.
  pose proof (skip_ws_length s) as L.
  assert (H : Json.within (Json.scan_once (2 * String.length s + 2) (Json.skip_ws s))
                (String.length (Json.skip_ws s)))
    by (apply scanners_within; lia).
  destruct (Json.scan_once _ (Json.skip_ws s)) as [v rest|m|]; cbn [Json.within] in H.
  - destruct (String.eqb (Json.skip_ws rest) ""); discriminate.
  - discriminate.
  - contradiction.
Qed.

(** ** Text containment *)

Lemma startswith_lower (p s : string) :
  Py.startswith p s = true -> Py.startswith (Py.lower p) (Py.lower s) = true.
Proof.
  revert s. induction p as [|a p IH]; intros s H; [reflexivity|].
  destruct s as [|b s]; [discriminate|].
  cbn [Py.startswith Py.lower] in *.
  apply andb_true_iff in H. destruct H as [Hab Hps].
  apply Ascii.eqb_eq in Hab. subst b.
  rewrite Ascii.eqb_refl. simpl. now apply IH.
Qed.

Lemma isin_lower (sub s : string) :
  Py.isin sub s = true -> Py.isin (Py.lower sub) (Py.lower s) = true.
Proof.
  induction s as [|c s IH]; cbn [Py.isin Py.lower]; intros H;
    apply orb_true_iff in H; destruct H as [H|H];
    try discriminate; apply orb_true_iff.
  - left. exact (startswith_lower sub ""%string H).
  - left. exact (startswith_lower sub (String c s) H).
  - right. exact (IH H).
Qed.

(** ** Claim-type classification *)

(** C4. The classifier is the first-match reading of the keyword table in
    the order measurement, temporal, geographical, biographical,
    definitional, comparative, with [general] when no keyword occurs in the
    lowercased claim; so a claim that contains both [taller] and [where], in
    any letter case, is a [measurement] claim. *)
Theorem classify_priority_order :
  (forall claim,
     Pathway._classify_claim_type claim
     = Pathway.first_match Pathway.classification_rules (Py.lower claim))
  /\ map fst Pathway.classification_rules
     = ["measurement"; "temporal"; "geographical"; "biographical";
        "definitional"; "comparative"]%string
  /\ (forall claim,
        Py.any_in (concat (map snd Pathway.classification_rules)) (Py.lower claim)
        = false ->
        Pathway._classify_claim_type claim = "general"%string)
  /\ (forall claim,
        Py.isin "taller" (Py.lower claim) = true ->
        Py.isin "where" (Py.lower claim) = true ->
        Pathway._classify_claim_type claim = "measurement"%string)
  /\ (forall claim,
        Py.isin "taller" claim = true ->
        Py.isin "where" claim = true ->
        Pathway._classify_claim_type claim = "measurement"%string).
Proof.
  assert (Htaller : forall claim,
             Py.isin "taller" (Py.lower claim) = true ->
             Pathway._classify_claim_type claim = "measurement"%string).
  { intros claim H. unfold Pathway._classify_claim_type.
    unfold Pathway.measurement_words at 1. cbn [Py.any_in existsb].
    now rewrite H. }
  split; [|split; [|split; [|split]]].
  - intros claim. reflexivity.
  - reflexivity.
  - intros claim H. unfold Pathway._classify_claim_type.
    unfold Py.any_in in *. cbn [Pathway.classification_rules map snd concat] in H.
    rewrite !existsb_app in H. repeat (apply orb_false_iff in H; destruct H as [? H]).
    repeat match goal with
           | E : existsb _ _ = false |- _ => rewrite E; clear E
           end.
    reflexivity.
  - intros claim H _. now apply Htaller.
  - intros claim H _. apply Htaller. exact (isin_lower "taller" claim H).
Qed.

Lemma classify_priority_order_witness :
  Pathway._classify_claim_type "Where is the TALLER tower?" = "measurement"%string
  /\ Pathway._classify_claim_type "where is the taller tower?" = "measurement"%string
  /\ Pathway._classify_claim_type "Bananas grow" = "general"%string.
Proof.
  destruct classify_priority_order as (_ & _ & Hgen & Hany & Hlit).
  split; [|split].
  - apply Hany; reflexivity.
  - apply Hlit; reflexivity.
  - apply Hgen; reflexivity.
Defined.

(** ** Complexity score *)

Lemma sum_of_mult (x : Q) (n : nat) :
  Pathway.sum_of x n == inject_Z (Z.of_nat n) * x.
Proof.
  induction n as [|n IH].
  - simpl. ring.
  - cbn [Pathway.sum_of]. rewrite IH, Nat2Z.inj_succ.
    unfold Z.succ. rewrite inject_Z_plus. ring.
Qed.

Lemma inject_nat_le (a b : nat) :
  (a <= b)%nat -> inject_Z (Z.of_nat a) <= inject_Z (Z.of_nat b).
Proof. intros H. rewrite <- Zle_Qle. lia. Qed.

Lemma complexity_words_mono (w w' h r : nat) :
  (w <= w')%nat -> Pathway.complexity_of w h r <= Pathway.complexity_of w' h r.
Proof.
  intros H. unfold Pathway.complexity_of.
  apply py_min_mono.
  repeat apply Qplus_le_compat; try apply Qle_refl.
  apply py_min_mono. unfold Qdiv.
  apply Qmult_le_compat_r; [now apply inject_nat_le | discriminate].
Qed.

Lemma complexity_runs_mono (w h r r' : nat) :
  (r <= r')%nat -> Pathway.complexity_of w h r <= Pathway.complexity_of w h r'.
Proof.
  intros H. unfold Pathway.complexity_of.
  apply py_min_mono.
  repeat apply Qplus_le_compat; try apply Qle_refl.
  apply Qmult_le_compat_r; [now apply inject_nat_le | discriminate].
Qed.

Lemma complexity_hits_mono (w h h' r : nat) :
  (h <= h')%nat -> Pathway.complexity_of w h r <= Pathway.complexity_of w h' r.
Proof.
  intros H. unfold Pathway.complexity_of.
  apply py_min_mono.
  repeat apply Qplus_le_compat; try apply Qle_refl.
  rewrite !sum_of_mult.
  apply Qmult_le_compat_r; [now apply inject_nat_le | discriminate].
Qed.

(** C9. The score is [min(words/10, 1) + 0.2 * hits + 0.3 * runs] capped at
    5; it never exceeds 5, and between two claims that differ only in their
    word count, or only in their number of digit runs, the one with more has
    a score at least as high. *)
Theorem complexity_monotone_bounded :
  (forall claim, Pathway._calculate_complexity claim <= 5)
  /\ (forall claim,
        Pathway._calculate_complexity claim
        == Qmin (Qmin (inject_Z (Z.of_nat (Pathway.word_count claim)) / 10) 1
                 + 0.2 * inject_Z (Z.of_nat (Pathway.subordinate_hits claim))
                 + 0.3 * inject_Z (Z.of_nat (Pathway.digit_runs claim))) 5)
  /\ (forall c c',
        (Pathway.word_count c <= Pathway.word_count c')%nat ->
        Pathway.subordinate_hits c = Pathway.subordinate_hits c' ->
        Pathway.digit_runs c = Pathway.digit_runs c' ->
        Pathway._calculate_complexity c <= Pathway._calculate_complexity c')
  /\ (forall c c',
        (Pathway.digit_runs c <= Pathway.digit_runs c')%nat ->
        Pathway.word_count c = Pathway.word_count c' ->
        Pathway.subordinate_hits c = Pathway.subordinate_hits c' ->
        Pathway._calculate_complexity c <= Pathway._calculate_complexity c')
  /\ (forall w w' h r r',
        (w <= w')%nat -> (r <= r')%nat ->
        Pathway.complexity_of w h r <= Pathway.complexity_of w' h r').
Proof.
  split; [|split; [|split; [|split]]].
  - intros claim. unfold Pathway._calculate_complexity, Pathway.complexity_of.
    eapply Qle_trans; [apply py_min_le_r | discriminate].
  - intros claim. unfold Pathway._calculate_complexity, Pathway.complexity_of.
    rewrite !py_min_Qmin, sum_of_mult.
    apply Q.min_compat; [|now unfold Qeq].
    assert (E : Qmin (inject_Z (Z.of_nat (Pathway.word_count claim)) / 10) 1.0
                == Qmin (inject_Z (Z.of_nat (Pathway.word_count claim)) / 10) 1).
    { apply Q.min_compat; [reflexivity | now unfold Qeq]. }
    rewrite E. ring.
  - intros c c' Hw Hh Hr. unfold Pathway._calculate_complexity.
    rewrite Hh, Hr. now apply complexity_words_mono.
  - intros c c' Hr Hw Hh. unfold Pathway._calculate_complexity.
    rewrite Hw, Hh. now apply complexity_runs_mono.
  - intros w w' h r r' Hw Hr.
    eapply Qle_trans; [apply complexity_words_mono, Hw|].
    now apply complexity_runs_mono.
Qed.

Lemma complexity_monotone_bounded_witness :
  Pathway._calculate_complexity "the tower is 330 meters"
  <= Pathway._calculate_complexity "the old tower is 330 meters"
  /\ Pathway._calculate_complexity "the tower is 330 meters"
     <= Pathway._calculate_complexity "the tower 1889 330 meters"
  /\ Pathway.complexity_of 3 1 0 <= Pathway.complexity_of 12 1 40.
Proof.
  destruct complexity_monotone_bounded as (_ & _ & Hw & Hr & Hall).
  split; [|split].
  - apply Hw; vm_compute; try reflexivity. lia.
  - apply Hr; vm_compute; try reflexivity. lia.
  - apply Hall; lia.
Defined.

(** ** More on preprocessing *)

Lemma complexity_bound (claim : string) :
  Pathway._calculate_complexity claim
  <= 2.6 + inject_Z (Z.of_nat (Pathway.digit_runs claim)) * 0.3.
Proof.
  unfold Pathway._calculate_complexity, Pathway.complexity_of.
  eapply Qle_trans; [apply py_min_le_l|].
  rewrite sum_of_mult.
  pose proof (py_min_le_r (inject_Z (Z.of_nat (Pathway.word_count claim)) / 10) 1.0)
    as Hw.
  pose proof (count_in_le Pathway.subordinate_words (Py.lower claim)) as Hh.
  fold (Pathway.subordinate_hits claim) in Hh.
  assert (Hh' : inject_Z (Z.of_nat (Pathway.subordinate_hits claim)) <= 8).
  { change 8 with (inject_Z 8). rewrite <- Zle_Qle.
    change (List.length Pathway.subordinate_words) with 8%nat in Hh. lia. }
  lra.
Qed.

Lemma runs_at_least (n k : nat) :
  inject_Z (Z.of_nat k) < inject_Z (Z.of_nat n) -> (k < n)%nat.
Proof. rewrite <- Zlt_Qlt. lia. Qed.

(** Opens a list of optional messages and shows that a message which is
    none of them is not in it. *)
Ltac not_among Hin :=
  unfold Pathway.when in Hin;
  repeat match type of Hin with
         | context [if ?b then _ else _] => destruct b
         end;
  cbn [app In] in Hin;
  repeat (destruct Hin as [Hin|Hin]; [discriminate Hin|]);
  exact Hin.

(** Only numbers make a claim complex.  Length and subordinate words raise
    the complexity score to 2.6 at most, so a claim is reported as highly
    complex (score above 3) only when it holds at least two runs of digits,
    and is then also reported to contain specific numbers; the advice to
    break it down (score above 4) needs at least five runs of digits. *)
Theorem high_complexity_needs_numbers (claim now : string) (method : option string) :
  let p := Pathway.processed_data claim now method in
  Pathway.complexity_score (Pathway.structure p)
  <= 2.6 + inject_Z (Z.of_nat (Pathway.digit_runs claim)) * 0.3
  /\ (In "High complexity - may be difficult to verify"%string
         (Pathway._identify_confidence_factors p) ->
      (2 <= Pathway.digit_runs claim)%nat
      /\ In "Contains specific numbers - verifiable"%string
            (Pathway._identify_confidence_factors p))
  /\ (In "High complexity - break down into sub-claims"%string
         (Pathway._identify_potential_issues p) ->
      (5 <= Pathway.digit_runs claim)%nat).
Proof.
  cbv zeta.
  pose proof (complexity_bound claim) as Hb.
  assert (H3 : 3 < Pathway._calculate_complexity claim ->
               (2 <= Pathway.digit_runs claim)%nat).
  { intros H. apply (@runs_at_least _ 1).
    change (inject_Z (Z.of_nat 1)) with 1. lra. }
  assert (H4 : 4 < Pathway._calculate_complexity claim ->
               (5 <= Pathway.digit_runs claim)%nat).
  { intros H. apply (@runs_at_least _ 4).
    change (inject_Z (Z.of_nat 4)) with 4. lra. }
  assert (Hq : (2 <= Pathway.digit_runs claim)%nat ->
               Pathway.has_quantifier (Pathway._analyze_claim_structure claim) = true).
  { intros H. cbn [Pathway._analyze_claim_structure Pathway.has_quantifier].
    destruct (@search_of_findall Pathway.digit_run_pattern claim) as [h ->];
      [|reflexivity].
    unfold Pathway.digit_runs in H. intros E. rewrite E in H. cbn in H. lia. }
  split; [exact Hb|]. split.
  - unfold Pathway._identify_confidence_factors.
    cbn [Pathway.processed_data Pathway.structure Pathway.entities
         Pathway._analyze_claim_structure Pathway.complexity_score
         Pathway.has_quantifier Pathway.is_comparative] in *.
    intros Hin.
    assert (Hgt : Py.gt (Pathway._calculate_complexity claim) 3 = true).
    { destruct (Py.gt (Pathway._calculate_complexity claim) 3); [reflexivity|].
      exfalso. not_among Hin. }
    apply py_gt_true in Hgt. specialize (H3 Hgt).
    split; [exact H3|].
    rewrite (Hq H3). cbn [Pathway.when app In]. now left.
  - unfold Pathway._identify_potential_issues.
    cbn [Pathway.processed_data Pathway.structure Pathway.key_terms
         Pathway._analyze_claim_structure Pathway.complexity_score
         Pathway.is_question Pathway.has_negation] in *.
    intros Hin.
    assert (Hgt : Py.gt (Pathway._calculate_complexity claim) 4 = true).
    { destruct (Py.gt (Pathway._calculate_complexity claim) 4); [reflexivity|].
      exfalso. not_among Hin. }
    apply py_gt_true in Hgt. exact (H4 Hgt).
Qed.

Lemma high_complexity_needs_numbers_witness :
  let claim := "In 1969, 2 of 3 men which flew 384400 km in 8 days reached it since 16 July"%string in
  let p := Pathway.processed_data claim "" None in
  In "High complexity - may be difficult to verify"%string
     (Pathway._identify_confidence_factors p)
  /\ (2 <= Pathway.digit_runs claim)%nat
  /\ In "Contains specific numbers - verifiable"%string
        (Pathway._identify_confidence_factors p).
Proof.
  intros claim p.
  assert (Hin : In "High complexity - may be difficult to verify"%string
                   (Pathway._identify_confidence_factors p)).
  { vm_compute. tauto. }
  split; [exact Hin|].
  exact (proj1 (proj2 (high_complexity_needs_numbers claim "" None)) Hin).
Defined.

Lemma word_pattern_letters : Re.consumes_only Py.is_alpha Pathway.word_pattern.
Proof. chars_in_class. Qed.

(** The key terms of a claim.  They are pairwise distinct; a text is a key
    term exactly when it is one of the words found in the lower-cased claim,
    has at least three characters and is not a stop word; and every key term
    is a piece of the lower-cased claim made of lower-case letters only. *)
Theorem key_terms_sound (claim term : string) :
  NoDup (Pathway._extract_key_terms claim)
  /\ (In term (Pathway._extract_key_terms claim)
      <-> In term (Re.findall Pathway.word_pattern (Py.lower claim))
          /\ (3 <= String.length term)%nat
          /\ ~ In term Pathway.stop_words)
  /\ (In term (Pathway._extract_key_terms claim) ->
      Py.all_chars Py.is_lower term = true
      /\ exists a b, Py.lower claim = (a ++ term ++ b)%string).
Proof.
  assert (Hiff : In term (Pathway._extract_key_terms claim)
      <-> In term (Re.findall Pathway.word_pattern (Py.lower claim))
          /\ (3 <= String.length term)%nat
          /\ ~ In term Pathway.stop_words).
  { unfold Pathway._extract_key_terms.
    rewrite list_set_in, filter_In, andb_true_iff, negb_true_iff, Nat.ltb_lt.
    split.
    - intros (Hin & Hstop & Hlen). split; [exact Hin|]. split; [lia|].
      intros H. apply existsb_eqb_in in H. congruence.
    - intros (Hin & Hlen & Hstop). split; [exact Hin|]. split; [|lia].
      destruct (existsb (String.eqb term) Pathway.stop_words) eqn:E; [|reflexivity].
      apply existsb_eqb_in in E. contradiction. }
  split; [apply list_set_nodup|]. split; [exact Hiff|].
  intros Hin. apply Hiff in Hin. destruct Hin as (Hin & _ & _).
  destruct (@findall_consumes _ _ _ _ word_pattern_letters Hin)
    as [Halpha (a & b & Hpiece)].
  split; [|now exists a, b].
  pose proof (lower_not_upper claim) as Hlow.
  rewrite Hpiece, !all_chars_app in Hlow.
  apply andb_true_iff in Hlow. destruct Hlow as [_ Hlow].
  apply andb_true_iff in Hlow. destruct Hlow as [Hlow _].
  pose proof (@all_chars_and _ _ _ Halpha Hlow) as Hboth.
  revert Hboth. apply all_chars_impl.
  intros c. unfold Py.is_alpha.
  destruct (Py.is_upper c), (Py.is_lower c); cbn; congruence.
Qed.

Lemma numbers_pattern_chars :
  Re.consumes_only (fun c => Py.is_digit c || Ascii.eqb c ".") Pathway.numbers_pattern.
Proof. chars_in_class. Qed.

Lemma dates_pattern_chars :
  Re.consumes_only (fun c => Py.is_digit c || Ascii.eqb c "-" || Ascii.eqb c "/")
                   Pathway.dates_pattern.
Proof. chars_in_class. Qed.

Lemma places_pattern_chars :
  Re.consumes_only (fun c => Py.is_alpha c || Py.is_space c) Pathway.places_pattern.
Proof. chars_in_class. Qed.

Lemma measurements_pattern_chars :
  Re.consumes_only
    (fun c => Py.is_digit c || Ascii.eqb c "." || Py.is_space c || Py.is_alpha c)
    Pathway.measurements_pattern.
Proof. chars_in_class. Qed.

(** The entities of a claim.  Each of the four lists holds pairwise
    distinct texts, and each text is a piece of the claim made only of the
    characters its pattern allows: digits and dots for numbers; digits,
    hyphens and slashes for dates; letters and white space for places;
    digits, dots, white space and letters for measurements. *)
Theorem entities_from_claim (claim x : string) :
  let e := Pathway._extract_entities claim in
  let piece := exists a b, claim = (a ++ x ++ b)%string in
  (NoDup (Pathway.numbers e) /\ NoDup (Pathway.dates e)
   /\ NoDup (Pathway.places e) /\ NoDup (Pathway.measurements e))
  /\ (In x (Pathway.numbers e) ->
      piece /\ Py.all_chars (fun c => Py.is_digit c || Ascii.eqb c ".") x = true)
  /\ (In x (Pathway.dates e) ->
      piece
      /\ Py.all_chars (fun c => Py.is_digit c || Ascii.eqb c "-" || Ascii.eqb c "/") x
         = true)
  /\ (In x (Pathway.places e) ->
      piece /\ Py.all_chars (fun c => Py.is_alpha c || Py.is_space c) x = true)
  /\ (In x (Pathway.measurements e) ->
      piece
      /\ Py.all_chars
           (fun c => Py.is_digit c || Ascii.eqb c "." || Py.is_space c || Py.is_alpha c)
           x = true).
Proof.
  cbv zeta. cbn [Pathway._extract_entities Pathway.numbers Pathway.dates
                 Pathway.places Pathway.measurements].
  split; [repeat split; apply list_set_nodup|].
  split; [|split; [|split]]; intros Hin; apply (proj1 (list_set_in _ _)) in Hin.
  - destruct (@findall_consumes _ _ _ _ numbers_pattern_chars Hin); tauto.
  - destruct (@findall_consumes _ _ _ _ dates_pattern_chars Hin); tauto.
  - destruct (@findall_consumes _ _ _ _ places_pattern_chars Hin); tauto.
  - destruct (@findall_consumes _ _ _ _ measurements_pattern_chars Hin); tauto.
Qed.

(** The normalised text.  [_normalize_text] returns a text that is no longer
    than the one it was given and in which every white space character is a
    space and no backquote is left.  An apostrophe is kept: the text
    [It's a `test`] with two spaces before [a] becomes [It's a "test"]. *)
Theorem normalize_text_clean (text : string) :
  Py.all_chars
    (fun c => (negb (Py.is_space c) || Ascii.eqb c " ") && negb (Ascii.eqb c "`"))
    (Pathway._normalize_text text) = true
  /\ (String.length (Pathway._normalize_text text) <= String.length text)%nat
  /\ Pathway._normalize_text "It's  a `test`"
     = ("It's a " ++ Py.dq ++ "test" ++ Py.dq)%string.
Proof.
  assert (Hex : Pathway._normalize_text "It's  a `test`"
                = ("It's a " ++ Py.dq ++ "test" ++ Py.dq)%string)
    by (vm_compute; reflexivity).
  revert Hex.
  unfold Pathway._normalize_text. cbv zeta.
  set (p1 := fun c => Py.is_space c && negb (Ascii.eqb c " ")).
  set (p2 := fun c => Ascii.eqb c "`").
  set (s1 := Re.sub (Re.Plus Re.space) " " (Py.strip text)).
  set (s2 := Re.sub (Re.one_of (Py.dq ++ "`")) Py.dq s1).
  assert (H1 : Py.all_chars (fun c => negb (p1 c)) s1 = true).
  { apply sub_at_removes; [|reflexivity].
    intros prev c s' Hc. subst p1. cbv beta in Hc.
    apply andb_true_iff in Hc. destruct Hc as [Hc _].
    destruct (@match_here_plus Py.is_space prev c s' Hc) as (t' & g & E).
    now exists c, t', g. }
  assert (H2 : Py.all_chars (fun c => negb (p2 c)) s2 = true).
  { apply sub_at_removes; [|reflexivity].
    intros prev c s' Hc. exists c, ""%string, None.
    apply match_here_chr.
    subst p2. cbv beta in Hc. cbn [Py.dq String.append list_ascii_of_string existsb].
    rewrite Hc, ?orb_true_r. reflexivity. }
  assert (H12 : Py.all_chars (fun c => negb (p1 c)) s2 = true).
  { apply sub_at_chars; [reflexivity|exact H1]. }
  intros Hex. split; [|split; [|exact Hex]].
  - apply all_chars_impl with (P := fun c => negb (p1 c) && negb (p2 c)).
    + intros c Hc. subst p1 p2. cbv beta in *.
      destruct (Py.is_space c), (Ascii.eqb c " "), (Ascii.eqb c "`");
        cbn in *; congruence.
    + apply sub_at_chars; [reflexivity|]. now apply all_chars_and.
  - eapply Nat.le_trans; [apply sub_at_length; cbn; lia|].
    eapply Nat.le_trans; [apply sub_at_length; cbn; lia|].
    eapply Nat.le_trans; [apply sub_at_length; cbn; lia|].
    apply strip_length.
Qed.

(** ** The claim classifier *)

(** C5, as stated, fails: when the Pathway step raises, the descriptor of
    "The Earth is flat" is not emptied.  Its claim type is [definitional]
    (the claim contains [is]), it has two key terms and one place. *)
Lemma preprocess_fallback_counterexample :
  exists d,
    Pathway.preprocess_claim (Raise (PathwayError "pathway is not available"))
      "2024-01-15T10:30:00" "The Earth is flat" = Ok d
    /\ Pathway.claim_type d = "definitional"%string
    /\ Pathway.claim_type d <> "general"%string
    /\ Pathway.key_terms d = ["earth"; "flat"]%string
    /\ Pathway.places (Pathway.entities d) = ["The Earth is flat"]%string.
Proof.
  eexists. split; [reflexivity|].
  repeat split; try reflexivity.
  vm_compute. discriminate.
Qed.

(** C5, amended. [preprocess_claim] returns a descriptor for every text,
    whether or not the Pathway step raises.  When it raises, the descriptor
    is the one [_basic_preprocessing] builds: the same original and
    normalized text, entities, claim type, key terms, structure and search
    queries as on the normal path, all computed from the claim, with
    [preprocessing_method] set to [basic]; without an error that key is
    absent. *)
Theorem preprocess_claim_total (table_empty : result unit) (now claim : string) :
  exists d,
    Pathway.preprocess_claim table_empty now claim = Ok d
    /\ Pathway.original_claim d = Py.strip claim
    /\ Pathway.normalized_claim d = Pathway._normalize_text claim
    /\ Pathway.entities d = Pathway._extract_entities claim
    /\ Pathway.claim_type d = Pathway._classify_claim_type claim
    /\ Pathway.key_terms d = Pathway._extract_key_terms claim
    /\ Pathway.structure d = Pathway._analyze_claim_structure claim
    /\ Pathway.search_queries d = Pathway._generate_search_queries claim
    /\ (forall e, table_empty = Raise e ->
          d = Pathway._basic_preprocessing claim now
          /\ Pathway.preprocessing_method d = Some "basic"%string)
    /\ (table_empty = Ok tt -> Pathway.preprocessing_method d = None).
Proof.
  destruct table_empty as [[]|e].
  - exists (Pathway.processed_data claim now None).
    repeat split; try reflexivity; intros; discriminate.
  - exists (Pathway._basic_preprocessing claim now).
    repeat split; try reflexivity; intros; discriminate.
Qed.

Lemma preprocess_claim_total_witness :
  exists d,
    Pathway.preprocess_claim (Raise (PathwayError "pathway is not available"))
      "2024-01-15T10:30:00" "The Eiffel Tower is taller than 400 meters" = Ok d
    /\ Pathway.claim_type d = "measurement"%string
    /\ Pathway.numbers (Pathway.entities d) = ["400"]%string
    /\ Pathway.preprocessing_method d = Some "basic"%string.
Proof.
  destruct (preprocess_claim_total
              (Raise (PathwayError "pathway is not available"))
              "2024-01-15T10:30:00" "The Eiffel Tower is taller than 400 meters")
    as (d & Hd & _ & _ & Hent & Htype & _ & _ & _ & Hraise & _).
  exists d. split; [exact Hd|].
  split; [rewrite Htype; reflexivity|].
  split; [rewrite Hent; reflexivity|].
  exact (proj2 (Hraise _ eq_refl)).
Defined.

(** ** Category-based confidence adjustment *)

(** C2. For every confidence [x] (in particular every [x] in [0,100]) the
    adjustment computes what the specification says: Mathematical gives
    [min(x, 99.5)] when [x > 90] and [x * 0.8] otherwise, Medical
    [min(x * 0.9, 85)], Opinion-based [min(x, 60)], Scientific [x * 0.85]
    when [x < 70] and [x] otherwise, and every other category [x]. *)
Theorem adjust_confidence_rules (x : Q) (category : Llama.ClaimCategory)
    (config : Json.dict) :
  Llama._adjust_confidence_by_category x category config
  == Llama.adjust_spec category x.
Proof.
  unfold Llama._adjust_confidence_by_category, Llama.adjust_spec, Py.gt.
  destruct category; try reflexivity.
  - (* SCIENTIFIC *)
    py_cmp x 70; destruct (Qlt_le_dec x 70) as [L | L].
    + reflexivity.
    + exfalso. exact (Qlt_not_le _ _ E L).
    + exfalso. exact (Qlt_not_le _ _ L E).
    + reflexivity.
  - (* MATHEMATICAL *)
    py_cmp 90 x; destruct (Qlt_le_dec 90 x) as [L | L].
    + apply py_min_Qmin.
    + exfalso. exact (Qlt_not_le _ _ E L).
    + exfalso. exact (Qlt_not_le _ _ L E).
    + reflexivity.
  - (* MEDICAL *)
    rewrite py_min_Qmin. apply Q.min_compat; [reflexivity | now unfold Qeq].
  - (* OPINION_BASED *)
    rewrite py_min_Qmin. apply Q.min_compat; [reflexivity | now unfold Qeq].
Qed.

(** Opens the adjustment and splits on every comparison it makes. *)
Ltac adjust_cases :=
  unfold Llama._adjust_confidence_by_category, Py.min, Py.gt in *;
  repeat match goal with
         | |- context [Py.lt ?a ?b] => py_cmp a b
         | H : context [Py.lt ?a ?b] |- _ => py_cmp a b
         end.

(** C3, as stated, fails twice: re-applying the Medical rule to 50 gives 45
    and then 40.5, and 95 in the Mathematical category stays 95 (it is below
    the cap of 99.5). *)
Lemma adjust_idempotence_counterexample :
  ~ (Llama._adjust_confidence_by_category
       (Llama._adjust_confidence_by_category 50 Llama.MEDICAL []) Llama.MEDICAL []
     == Llama._adjust_confidence_by_category 50 Llama.MEDICAL [])
  /\ Llama._adjust_confidence_by_category 50 Llama.MEDICAL [] == 45
  /\ Llama._adjust_confidence_by_category 45 Llama.MEDICAL [] == 40.5
  /\ ~ (Llama._adjust_confidence_by_category 95 Llama.MATHEMATICAL [] == 99.5)
  /\ Llama._adjust_confidence_by_category 95 Llama.MATHEMATICAL [] == 95.
Proof.
  repeat split; try (intros H; vm_compute in H; discriminate H);
    vm_compute; reflexivity.
Qed.

(** C3, amended. Re-application leaves the result unchanged for the
    Opinion-based cap, and it does change the result for the three rules
    that multiply: from 50 the Medical rule gives 45 and then 40.5, the
    Mathematical rule 40 and then 32, the Scientific rule 42.5 and then
    36.125.  On input 95 the Mathematical rule yields 95, the Opinion-based
    rule 60 and the Scientific rule 95. *)
Theorem adjust_idempotence (config : Json.dict) :
  (forall x,
     Llama._adjust_confidence_by_category
       (Llama._adjust_confidence_by_category x Llama.OPINION_BASED config)
       Llama.OPINION_BASED config
     = Llama._adjust_confidence_by_category x Llama.OPINION_BASED config)
  /\ (Llama._adjust_confidence_by_category 50 Llama.MEDICAL config == 45
      /\ Llama._adjust_confidence_by_category 45 Llama.MEDICAL config == 40.5
      /\ ~ Llama._adjust_confidence_by_category
            (Llama._adjust_confidence_by_category 50 Llama.MEDICAL config)
            Llama.MEDICAL config
          == Llama._adjust_confidence_by_category 50 Llama.MEDICAL config)
  /\ (Llama._adjust_confidence_by_category 50 Llama.MATHEMATICAL config == 40
      /\ Llama._adjust_confidence_by_category 40 Llama.MATHEMATICAL config == 32
      /\ ~ Llama._adjust_confidence_by_category
            (Llama._adjust_confidence_by_category 50 Llama.MATHEMATICAL config)
            Llama.MATHEMATICAL config
          == Llama._adjust_confidence_by_category 50 Llama.MATHEMATICAL config)
  /\ (Llama._adjust_confidence_by_category 50 Llama.SCIENTIFIC config == 42.5
      /\ Llama._adjust_confidence_by_category 42.5 Llama.SCIENTIFIC config == 36.125
      /\ ~ Llama._adjust_confidence_by_category
            (Llama._adjust_confidence_by_category 50 Llama.SCIENTIFIC config)
            Llama.SCIENTIFIC config
          == Llama._adjust_confidence_by_category 50 Llama.SCIENTIFIC config)
  /\ Llama._adjust_confidence_by_category 95 Llama.MATHEMATICAL config == 95
  /\ Llama._adjust_confidence_by_category 95 Llama.OPINION_BASED config == 60
  /\ Llama._adjust_confidence_by_category 95 Llama.SCIENTIFIC config == 95.
Proof.
  split; [|split; [|split; [|split; [|split; [|split]]]]].
  - intros x. adjust_cases; try reflexivity; exfalso; lra.
  - split; [|split]; try (vm_compute; reflexivity).
    intros H; vm_compute in H; discriminate H.
  - split; [|split]; try (vm_compute; reflexivity).
    intros H; vm_compute in H; discriminate H.
  - split; [|split]; try (vm_compute; reflexivity).
    intros H; vm_compute in H; discriminate H.
  - vm_compute. reflexivity.
  - vm_compute. reflexivity.
  - vm_compute. reflexivity.
Qed.

Lemma adjust_idempotence_witness :
  Llama._adjust_confidence_by_category
    (Llama._adjust_confidence_by_category 95 Llama.OPINION_BASED [])
    Llama.OPINION_BASED []
  == 60
  /\ ~ (Llama._adjust_confidence_by_category
          (Llama._adjust_confidence_by_category 50 Llama.MEDICAL []) Llama.MEDICAL []
        == Llama._adjust_confidence_by_category 50 Llama.MEDICAL [])
  /\ ~ (Llama._adjust_confidence_by_category
          (Llama._adjust_confidence_by_category 50 Llama.MATHEMATICAL [])
          Llama.MATHEMATICAL []
        == Llama._adjust_confidence_by_category 50 Llama.MATHEMATICAL [])
  /\ ~ (Llama._adjust_confidence_by_category
          (Llama._adjust_confidence_by_category 50 Llama.SCIENTIFIC [])
          Llama.SCIENTIFIC []
        == Llama._adjust_confidence_by_category 50 Llama.SCIENTIFIC []).
Proof.
  destruct (adjust_idempotence [])
    as (Hop & (_ & _ & Hmed) & (_ & _ & Hmath) & (_ & _ & Hsci) & _ & H60 & _).
  split; [|split; [|split]].
  - rewrite (Hop 95). exact H60.
  - exact Hmed.
  - exact Hmath.
  - exact Hsci.
Defined.

(** On a parsed number the adjustment of the reply's value is the
    adjustment of that number. *)
Lemma adjust_value_number (v : Json.value) (x : Q)
    (category : Llama.ClaimCategory) (config : Json.dict) :
  Json.as_number v = Some x ->
  exists v' x',
    Llama.adjust_value v category config = Ok v'
    /\ Json.as_number v' = Some x'
    /\ x' == Llama._adjust_confidence_by_category x category config.
Proof.
  intros Hx.
  destruct category;
    try (exists v, x; repeat split; [exact Hx | reflexivity]);
    destruct v; try discriminate Hx;
    cbn [Json.as_number] in Hx; injection Hx as <-;
    unfold Llama.adjust_value; cbn [Json.as_number];
    unfold Llama._adjust_confidence_by_category, Py.min, Py.gt;
    repeat match goal with
           | |- context [Py.lt ?a ?b] => destruct (Py.lt a b) eqn:?
           end;
    eexists; eexists; (split; [reflexivity|]); split;
    try (cbn [Json.as_number]; reflexivity); reflexivity.
Qed.

(** ** The generation stage *)

(** A timeout, a status other than 200 and any other exception of the HTTP
    call all end in the text of [_get_mock_response], unless the client
    library answered first. *)
Lemma call_llama_api_fallback (host : Host.t) (prompt : string) :
  (forall response, Host.ollama_generate host <> Some (Ok response)) ->
  (forall response, Host.http_post host <> Host.HttpResponse 200 response) ->
  Llama._call_llama_api host prompt = Llama._get_mock_response prompt.
Proof.
  intros Hollama Hhttp. unfold Llama._call_llama_api.
  destruct (Host.ollama_generate host) as [[response|e]|].
  - exfalso. now apply (Hollama response).
  - destruct (Host.http_post host) as [status_code response| |e']; try reflexivity.
    destruct (status_code =? 200)%Z eqn:E; [|reflexivity].
    apply Z.eqb_eq in E. subst. exfalso. now apply (Hhttp response).
  - destruct (Host.http_post host) as [status_code response| |e']; try reflexivity.
    destruct (status_code =? 200)%Z eqn:E; [|reflexivity].
    apply Z.eqb_eq in E. subst. exfalso. now apply (Hhttp response).
Qed.

(** C6 at two prompts, with a backend that times out.  For the claim "The
    Earth is flat" the fallback text decodes to an object with verdict
    [Unverified] and confidence [30].  For a claim that holds a backslash the
    fallback text, which embeds the claim as it is, is not JSON: the decoder
    rejects the escape. *)
Theorem mock_response_backslash :
  let good := prompt_for sample_host "The Earth is flat" in
  let bad := prompt_for sample_host windows_claim in
  Host.http_post sample_host = Host.HttpTimeout
  /\ Llama._call_llama_api sample_host good = Llama.mock_response "The Earth is flat"
  /\ (exists d,
        Json.loads (Llama._call_llama_api sample_host good) = Ok (Json.Obj d)
        /\ Json.get "verdict" d = Some (Json.Str "Unverified")
        /\ Json.get "confidence_score" d = Some (Json.Int 30))
  /\ Llama._call_llama_api sample_host bad = Llama.mock_response windows_claim
  /\ Json.loads (Llama._call_llama_api sample_host bad)
     = Raise (JSONDecodeError "Invalid \escape").
Proof.
  cbv zeta. split; [reflexivity|].
  split; [vm_compute; reflexivity|].
  split.
  - eexists. split; [vm_compute; reflexivity|]. split; reflexivity.
  - split; vm_compute; reflexivity.
Qed.

(** ** The mock reply of the legacy pipeline *)

(** Plain characters are taken as they are. *)
Lemma scanstring_plain_prefix (m : string) : forall rest acc,
  Py.all_chars Json.plain m = true ->
  Json.scanstring (m ++ rest) acc = Json.scanstring rest (Py.rev_onto m acc).
Proof.
  induction m as [|c m IH]; intros rest acc H; [reflexivity|].
  unfold Py.all_chars in H. cbn [list_ascii_of_string forallb] in H.
  apply andb_true_iff in H. destruct H as [Hc Hm].
  unfold Json.plain in Hc.
  apply andb_true_iff in Hc. destruct Hc as [Hc H3].
  apply andb_true_iff in Hc. destruct Hc as [H1 H2].
  apply negb_true_iff in H1, H2, H3.
  cbn [String.append]. rewrite scanstring_step, H1, H2, H3.
  rewrite (IH rest (String c acc) Hm). reflexivity.
Qed.

(** A run of plain characters up to a double quote is one string. *)
Lemma scanstring_plain (m : string) : forall rest acc,
  Py.all_chars Json.plain m = true ->
  Json.scanstring (m ++ String (ascii_of_N 34) rest) acc
  = Json.Parsed (Py.rev_onto acc m) rest.
Proof.
  induction m as [|c m IH]; intros rest acc H.
  - cbn [String.append]. rewrite scanstring_step.
    change (Json.is_dq (ascii_of_N 34)) with true. cbv iota.
    unfold Py.rev. reflexivity.
  - unfold Py.all_chars in H. cbn [list_ascii_of_string forallb] in H.
    apply andb_true_iff in H. destruct H as [Hc Hm].
    unfold Json.plain in Hc.
    apply andb_true_iff in Hc. destruct Hc as [Hc H3].
    apply andb_true_iff in Hc. destruct Hc as [H1 H2].
    apply negb_true_iff in H1, H2, H3.
    cbn [String.append]. rewrite scanstring_step, H1, H2, H3.
    rewrite (IH rest (String c acc) Hm). reflexivity.
Qed.

(** More nested calls do not change the outcome of a scanner that had
    enough of them. *)
Lemma scanners_mono (fuel : nat) :
  (forall s fuel', (fuel <= fuel')%nat ->
     Json.scan_once fuel s <> Json.OutOfFuel ->
     Json.scan_once fuel' s = Json.scan_once fuel s)
  /\ (forall s items fuel', (fuel <= fuel')%nat ->
        Json.elements fuel s items <> Json.OutOfFuel ->
        Json.elements fuel' s items = Json.elements fuel s items)
  /\ (forall s pairs fuel', (fuel <= fuel')%nat ->
        Json.members fuel s pairs <> Json.OutOfFuel ->
        Json.members fuel' s pairs = Json.members fuel s pairs).
Proof.
  induction fuel as [|fuel (IHscan & IHelems & IHmembers)].
  - repeat split; intros; cbn in *; congruence.
  - split; [|split].
    + intros s fuel' Hle H. destruct fuel' as [|fuel']; [lia|].
      destruct s as [|c s']; [reflexivity|].
      rewrite scan_once_step in H. rewrite !scan_once_step.
      destruct (Json.is_dq c); [reflexivity|].
      destruct (Ascii.eqb c "{").
      { destruct (Json.skip_ws s') as [|q rest]; [reflexivity|].
        destruct (Ascii.eqb q "}"); [reflexivity|].
        destruct (Json.is_dq q); [|reflexivity].
        apply IHmembers; [lia|exact H]. }
      destruct (Ascii.eqb c "[").
      { destruct (Json.skip_ws s') as [|q rest].
        - apply IHelems; [lia|exact H].
        - destruct (Ascii.eqb q "]"); [reflexivity|].
          apply IHelems; [lia|exact H]. }
      reflexivity.
    + intros s items fuel' Hle H. destruct fuel' as [|fuel']; [lia|].
      rewrite elements_step in H. rewrite !elements_step.
      assert (Hscan : Json.scan_once fuel s <> Json.OutOfFuel).
      { intros E. rewrite E in H. now apply H. }
      rewrite (IHscan s fuel' ltac:(lia) Hscan).
      destruct (Json.scan_once fuel s) as [v1 s1| |]; try reflexivity.
      destruct (Json.skip_ws s1) as [|d rest]; [reflexivity|].
      destruct (Ascii.eqb d "]"); [reflexivity|].
      destruct (Ascii.eqb d ","); [|reflexivity].
      apply IHelems; [lia|exact H].
    + intros s pairs fuel' Hle H. destruct fuel' as [|fuel']; [lia|].
      rewrite members_step in H. rewrite !members_step.
      destruct (Json.scanstring s "") as [key s1| |]; try reflexivity.
      destruct (Json.skip_ws s1) as [|colon s2]; [reflexivity|].
      destruct (Ascii.eqb colon ":"); [|reflexivity].
      assert (Hscan : Json.scan_once fuel (Json.skip_ws s2) <> Json.OutOfFuel).
      { intros E. rewrite E in H. now apply H. }
      rewrite (IHscan _ fuel' ltac:(lia) Hscan).
      destruct (Json.scan_once fuel (Json.skip_ws s2)) as [v1 s3| |]; try reflexivity.
      destruct (Json.skip_ws s3) as [|d rest]; [reflexivity|].
      destruct (Ascii.eqb d "}"); [reflexivity|].
      destruct (Ascii.eqb d ","); [|reflexivity].
      destruct (Json.skip_ws rest) as [|q rest']; [reflexivity|].
      destruct (Json.is_dq q); [|reflexivity].
      apply IHmembers; [lia|exact H].
Qed.

Lemma match_number_30 (rest : string) :
  Json.match_number (String "3" (String "0" (String "," rest)))
  = Some (Json.Int 30, String "," rest).
Proof.
  unfold Json.match_number.
  assert (H : Re.match_here Json.integer_re None
                (String "3" (String "0" (String "," rest)))
              = Some ("30"%string, None)).
  { unfold Re.match_here, Json.integer_re, Re.Opt, Re.char, Re.digit.
    cbn [Re.run Ascii.eqb Bool.eqb andb String.length].
    change (Py.between 49 57 "3") with true.
    change (Py.is_digit "0") with true.
    change (Py.is_digit ",") with false.
    cbv iota.
    assert (E : (S (String.length rest) <? S (S (String.length rest)))%nat = true)
      by (apply Nat.ltb_lt; lia).
    rewrite E.
    unfold Re.consumed. cbn [String.length].
    replace (S (S (S (String.length rest))) - S (String.length rest))%nat
      with 2%nat by lia.
    reflexivity. }
  rewrite H. cbn [String.length Py.drop].
  assert (F : Re.match_here Json.frac_re None (String "," rest) = None)
    by reflexivity.
  rewrite F. cbn [String.length Py.drop].
  assert (G : Re.match_here Json.exp_re None (String "," rest) = None)
    by reflexivity.
  rewrite G. reflexivity.
Qed.

(** The mock text is the claim between two fixed texts. *)
Lemma mock_response_shape (claim : string) :
  Llama.mock_response claim
  = (Py.take 113 (Llama.mock_response "") ++ claim
     ++ Py.drop 113 (Llama.mock_response ""))%string.
Proof.
  unfold Llama.mock_response, Py.lines, Py.quoted.
  cbn [Py.join].
  repeat rewrite string_app_assoc.
  cbn [String.append Py.dq Py.nl Py.take Py.drop].
  reflexivity.
Qed.

(** Evaluation of a closed part of the goal. *)
Ltac eval_sub t := let v := eval lazy in t in change t with v.

Ltac eval_if :=
  match goal with
  | |- context [if ?b then _ else _] =>
      lazymatch type of b with bool => idtac end;
      let v := eval lazy in b in
      match v with
      | true => change b with true
      | false => change b with false
      end; cbv iota
  end.

Ltac eval_ws :=
  match goal with
  | |- context [Json.skip_ws ?s] => eval_sub (Json.skip_ws s); cbv iota
  end.

Ltac eval_string :=
  match goal with
  | |- context [Json.scanstring ?s ""] => eval_sub (Json.scanstring s ""); cbv iota
  end.

(** Runs the scanner over the mock text up to the opening quote of the
    explanation. *)
Ltac to_explanation :=
  rewrite mock_response_shape;
  eval_sub (Py.take 113 (Llama.mock_response ""));
  eval_sub (Py.drop 113 (Llama.mock_response ""));
  cbn [String.append];
  rewrite scan_once_step; repeat eval_if; eval_ws; repeat eval_if;
  (* verdict *)
  rewrite members_step; eval_string;
  eval_ws; repeat eval_if; eval_ws;
  rewrite scan_once_step; repeat eval_if; eval_string;
  eval_ws; repeat eval_if; eval_ws; repeat eval_if;
  (* confidence_score *)
  rewrite members_step; eval_string;
  eval_ws; repeat eval_if; eval_ws;
  rewrite scan_once_step; repeat eval_if;
  unfold Json.scalar, Json.first_of, Json.literal; cbn [fold_right];
  repeat eval_if;
  rewrite match_number_30;
  eval_ws; repeat eval_if; eval_ws; repeat eval_if;
  (* explanation *)
  rewrite members_step; eval_string;
  eval_ws; repeat eval_if; eval_ws;
  rewrite scan_once_step; repeat eval_if.

Lemma mock_scan (claim : string) :
  Py.all_chars Json.plain claim = true ->
  Json.scan_once 20 (Llama.mock_response claim)
  = Json.Parsed (Json.Obj (Llama.mock_record claim)) ""%string.
Proof.
  intros Hplain. to_explanation.
  match goal with
  | |- context [Json.scanstring ?s ""] =>
      let E := fresh "E" in
      eassert (E : s = (Llama.mock_explanation claim
                        ++ String (ascii_of_N 34) _)%string);
      [unfold Llama.mock_explanation; rewrite !string_app_assoc; reflexivity
      |rewrite E; clear E]
  end.
  rewrite scanstring_plain.
  2:{ unfold Llama.mock_explanation. rewrite !all_chars_app, Hplain. reflexivity. }
  cbn [Py.rev_onto].
  eval_ws. repeat eval_if. eval_ws. repeat eval_if.
  unfold Llama.mock_record, Llama.mock_explanation.
  vm_compute. reflexivity.
Qed.

(** The scan of a mock text whose claim holds, after plain characters, a
    character that ends the scan of the explanation with an error. *)
Lemma mock_scan_bad (pre rest msg : string) (c : ascii) :
  Py.all_chars Json.plain pre = true ->
  (forall tail acc, Json.scanstring (String c (rest ++ tail)) acc = Json.Bad msg) ->
  Json.scan_once 20 (Llama.mock_response (pre ++ String c rest)) = Json.Bad msg.
Proof.
  intros Hplain Hbad. to_explanation.
  match goal with
  | |- context [Json.scanstring ?s ""] =>
      let E := fresh "E" in
      eassert (E : s = (("I apologize, but I cannot verify '" ++ pre)
                        ++ String c (rest ++ _))%string);
      [rewrite !string_app_assoc; reflexivity|rewrite E; clear E]
  end.
  rewrite scanstring_plain_prefix.
  2:{ rewrite all_chars_app, Hplain. reflexivity. }
  rewrite Hbad. reflexivity.
Qed.

Lemma mock_loads (claim : string) :
  Py.all_chars Json.plain claim = true ->
  Json.loads (Llama.mock_response claim) = Ok (Json.Obj (Llama.mock_record claim)).
Proof.
  intros Hplain. unfold Json.loads.
  assert (Hws : Json.skip_ws (Llama.mock_response claim) = Llama.mock_response claim).
  { rewrite mock_response_shape.
    eval_sub (Py.take 113 (Llama.mock_response "")).
    cbn [String.append]. reflexivity. }
  assert (Hlen : (20 <= 2 * String.length (Llama.mock_response claim) + 2)%nat).
  { rewrite mock_response_shape, string_app_length.
    eval_sub (String.length (Py.take 113 (Llama.mock_response ""))). lia. }
  rewrite Hws.
  rewrite (proj1 (scanners_mono 20) _ _ Hlen);
    rewrite (mock_scan claim Hplain); [reflexivity|discriminate].
Qed.

Lemma mock_response_ends (claim : string) :
  exists r t,
    Llama.mock_response claim = String "{" r
    /\ Py.rev (Llama.mock_response claim) = String "}" t.
Proof.
  rewrite mock_response_shape.
  unfold Py.rev. rewrite !rev_onto_app.
  eval_sub (Py.take 113 (Llama.mock_response "")).
  eval_sub (Py.drop 113 (Llama.mock_response "")).
  cbn [String.append Py.rev_onto].
  eexists. eexists. split; reflexivity.
Qed.

Lemma mock_reply_parsed (claim : string) :
  Py.all_chars Json.plain claim = true ->
  Llama.parse_json_reply (Llama.mock_response claim)
  = Ok [("verdict", Json.Str "Unverified");
        ("confidence_score", Json.Float 30);
        ("explanation", Json.Str (Llama.mock_explanation claim));
        ("key_evidence", Json.Arr []);
        ("sources_needed",
         Json.strs ["authoritative databases"; "reliable news sources";
                    "academic sources"]);
        ("reasoning_steps",
         Json.strs ["Service unavailable"; "Unable to access verification resources"]);
        ("caveats",
         Json.strs ["LLaMA service temporarily unavailable";
                    "Manual verification recommended"]);
        ("raw_response", Json.Str (Llama.mock_response claim))]%string.
Proof.
  intros Hplain.
  destruct (mock_response_ends claim) as (r & t & Hs & Hr).
  unfold Llama.parse_json_reply.
  rewrite (strip_tight Hs Hr eq_refl eq_refl).
  set (s := Llama.mock_response claim) in *.
  assert (Hfind : Py.find "{" s 0 = 0%Z).
  { unfold Py.find. rewrite Hs. reflexivity. }
  assert (Hrfind : Py.rfind_char "}" s = Z.of_nat (String.length s - 1)).
  { unfold Py.rfind_char, Py.rindex_char. rewrite Hr.
    cbn [Py.index_of Py.startswith]. rewrite Ascii.eqb_refl. cbn [andb].
    f_equal; lia. }
  rewrite Hfind, Hrfind.
  assert (Hend : (Z.of_nat (String.length s - 1) + 1)%Z = Z.of_nat (String.length s)).
  { rewrite Hs. cbn [String.length]. lia. }
  rewrite Hend.
  assert (Hcond : ((0 <=? 0)%Z && (0 <? Z.of_nat (String.length s))%Z) = true).
  { rewrite Hs. cbn [String.length]. apply andb_true_iff. split.
    - reflexivity.
    - apply Z.ltb_lt. lia. }
  rewrite Hcond.
  assert (Hslice : Py.slice s (Z.to_nat 0) (Z.of_nat (String.length s)) = s).
  { unfold Py.slice.
    assert (E : (Z.of_nat (String.length s) <? 0)%Z = false) by (apply Z.ltb_ge; lia).
    rewrite E. cbn [Z.to_nat Py.drop]. rewrite Nat2Z.id, Nat.sub_0_r.
    apply take_all. }
  rewrite Hslice. subst s. rewrite (mock_loads claim Hplain).
  reflexivity.
Qed.

Lemma prompt_shape (claim claim_type entities_json structure_json strategy : string) :
  exists tail,
    Llama.fact_check_prompt claim claim_type entities_json structure_json strategy
    = (Py.take 115 (Llama.fact_check_prompt "" "" "" "" "") ++ claim
       ++ String (ascii_of_N 34) tail)%string.
Proof.
  unfold Llama.fact_check_prompt, Py.lines, Py.quoted.
  cbn [Py.join].
  repeat rewrite string_app_assoc.
  cbn [String.append Py.dq Py.nl Py.take].
  eexists. reflexivity.
Qed.

Lemma mock_of_prompt (claim claim_type entities_json structure_json strategy : string) :
  Llama._get_mock_response
    (Llama.fact_check_prompt claim claim_type entities_json structure_json strategy)
  = Llama.mock_response
      (if String.eqb (Py.before (ascii_of_N 34) claim) ""
       then "the claim"%string else Py.before (ascii_of_N 34) claim).
Proof.
  destruct (prompt_shape claim claim_type entities_json structure_json strategy)
    as [tail ->].
  set (head := Py.take 115 (Llama.fact_check_prompt "" "" "" "" "")).
  unfold Llama._get_mock_response.
  set (marker := ("CLAIM TO ANALYZE: " ++ Py.dq)%string).
  set (b := Py.before (ascii_of_N 34) claim).
  assert (Hhead : head = (Py.take 96 head ++ marker)%string) by reflexivity.
  assert (Hstart : Py.find marker (head ++ claim ++ String (ascii_of_N 34) tail) 0
                   = 96%Z).
  { unfold Py.find. cbn [Nat.ltb Nat.leb Py.drop].
    rewrite Hhead at 1. rewrite string_app_assoc.
    unfold marker at 1. cbn [String.append Py.dq].
    rewrite index_of_skip by reflexivity.
    cbn [Py.index_of Py.startswith Ascii.eqb Bool.eqb andb String.append]. reflexivity. }
  rewrite Hstart.
  change (96 + Z.of_nat (String.length marker))%Z with 115%Z.
  change (Z.to_nat 115) with (String.length head).
  assert (Hend : Py.find Py.dq (head ++ claim ++ String (ascii_of_N 34) tail)
                   (String.length head)
                 = Z.of_nat (String.length head + String.length b)).
  { unfold Py.find.
    assert (E : (String.length (head ++ claim ++ String (ascii_of_N 34) tail)
                 <? String.length head)%nat = false).
    { apply Nat.ltb_ge. rewrite string_app_length. lia. }
    rewrite E, drop_app. unfold Py.dq. rewrite index_of_before. reflexivity. }
  rewrite Hend.
  unfold Py.slice.
  assert (E0 : (Z.of_nat (String.length head + String.length b) <? 0)%Z = false)
    by (apply Z.ltb_ge; lia).
  rewrite E0, Nat2Z.id, drop_app.
  replace (String.length head + String.length b - String.length head)%nat
    with (String.length b) by lia.
  assert (Htake : Py.take (String.length b) (claim ++ String (ascii_of_N 34) tail) = b)
    by apply take_before.
  rewrite Htake.
  change (String.length head) with 115%nat.
  destruct b as [|c b'].
  - reflexivity.
  - assert (E1 : (115 <? Z.of_nat (115 + String.length (String c b')))%Z = true).
    { apply Z.ltb_lt. cbn [String.length]. lia. }
    rewrite E1. reflexivity.
Qed.

(** The mock reply is valid JSON for a plain claim.  When the claim holds
    no double quote, no backslash and no control character, the text of
    [_get_mock_response] decodes to an object with verdict [Unverified],
    confidence 30 and an explanation that quotes the claim, and the legacy
    parser turns it into the record with verdict [Unverified] and
    confidence 30.0. *)
Theorem mock_response_valid_json (claim original_claim : string) :
  Py.all_chars Json.plain claim = true ->
  Json.loads (Llama.mock_response claim) = Ok (Json.Obj (Llama.mock_record claim))
  /\ Llama._parse_llama_response (Some (Llama.mock_response claim)) original_claim
     = Ok [("verdict", Json.Str "Unverified");
           ("confidence_score", Json.Float 30);
           ("explanation", Json.Str (Llama.mock_explanation claim));
           ("key_evidence", Json.Arr []);
           ("sources_needed",
            Json.strs ["authoritative databases"; "reliable news sources";
                       "academic sources"]);
           ("reasoning_steps",
            Json.strs ["Service unavailable";
                       "Unable to access verification resources"]);
           ("caveats",
            Json.strs ["LLaMA service temporarily unavailable";
                       "Manual verification recommended"]);
           ("raw_response", Json.Str (Llama.mock_response claim))]%string.
Proof.
  intros Hplain. split; [exact (mock_loads claim Hplain)|].
  unfold Llama._parse_llama_response.
  rewrite (mock_reply_parsed claim Hplain). reflexivity.
Qed.

Lemma mock_response_valid_json_witness :
  Json.loads (Llama.mock_response "The Eiffel Tower is taller than 400 meters")
  = Ok (Json.Obj (Llama.mock_record "The Eiffel Tower is taller than 400 meters")).
Proof.
  apply (@mock_response_valid_json
           "The Eiffel Tower is taller than 400 meters" "").
  reflexivity.
Defined.

(** The mock reply is not JSON for a claim with a control character or a
    stray backslash.  When the claim holds, after plain characters, a
    control character (a line break or a tab, say), [json.loads] rejects the
    text of [_get_mock_response] with [Invalid control character]; when it
    holds there a backslash followed by a character that is no JSON escape,
    with [Invalid \escape]. *)
Theorem mock_response_invalid_json (pre rest : string) (c : ascii) :
  Py.all_chars Json.plain pre = true ->
  ((N_of_ascii c <? 32)%N = true ->
   Json.loads (Llama.mock_response (pre ++ String c rest))
   = Raise (JSONDecodeError "Invalid control character at"))
  /\ (Json.unescape c = None -> Ascii.eqb c "u" = false ->
      Json.loads (Llama.mock_response (pre ++ String (ascii_of_N 92) (String c rest)))
      = Raise (JSONDecodeError "Invalid \escape")).
Proof.
  intros Hplain.
  assert (Hlift : forall claim msg,
             Json.scan_once 20 (Llama.mock_response claim) = Json.Bad msg ->
             Json.loads (Llama.mock_response claim) = Raise (JSONDecodeError msg)).
  { intros claim msg H. unfold Json.loads.
    assert (Hws : Json.skip_ws (Llama.mock_response claim) = Llama.mock_response claim).
    { rewrite mock_response_shape.
      eval_sub (Py.take 113 (Llama.mock_response "")).
      cbn [String.append]. reflexivity. }
    assert (Hlen : (20 <= 2 * String.length (Llama.mock_response claim) + 2)%nat).
    { rewrite mock_response_shape, string_app_length.
      eval_sub (String.length (Py.take 113 (Llama.mock_response ""))). lia. }
    rewrite Hws, (proj1 (scanners_mono 20) _ _ Hlen); rewrite H;
      [reflexivity|discriminate]. }
  split.
  - intros Hc. apply Hlift. apply mock_scan_bad; [exact Hplain|].
    intros tail acc. rewrite scanstring_step.
    assert (H1 : Json.is_dq c = false).
    { unfold Json.is_dq. apply N.eqb_neq. apply N.ltb_lt in Hc. lia. }
    assert (H2 : Json.is_backslash c = false).
    { unfold Json.is_backslash. apply N.eqb_neq. apply N.ltb_lt in Hc. lia. }
    rewrite H1, H2, Hc. reflexivity.
  - intros Hesc Hu. apply Hlift. apply mock_scan_bad; [exact Hplain|].
    intros tail acc. rewrite scanstring_step.
    change (Json.is_dq (ascii_of_N 92)) with false.
    change (Json.is_backslash (ascii_of_N 92)) with true.
    cbn [String.append]. rewrite Hu, Hesc. reflexivity.
Qed.

Lemma mock_response_invalid_json_witness :
  Json.loads (Llama.mock_response two_line_claim)
  = Raise (JSONDecodeError "Invalid control character at")
  /\ Json.loads (Llama.mock_response windows_claim)
     = Raise (JSONDecodeError "Invalid \escape").
Proof.
  split.
  - apply (proj1 (@mock_response_invalid_json "The Earth is flat"
                    "and the Moon is a disc" (ascii_of_N 10) eq_refl)).
    reflexivity.
  - apply (proj2 (@mock_response_invalid_json "The path C:" "indows is a folder"
                    "W" eq_refl)); reflexivity.
Defined.

(** The claim that the mock reply quotes.  [_get_mock_response] reads the
    claim back from the prompt of [_create_fact_check_prompt] up to the first
    double quote: the mock reply quotes the claim up to its first double
    quote (all of it when it holds none), and [the claim] when that text is
    empty. *)
Theorem mock_response_of_prompt (host : Host.t)
    (verification_context : Pathway.verification_context) :
  let claim :=
    Pathway.original_claim (Pathway.claim_analysis verification_context) in
  Llama._get_mock_response
    (Llama._create_fact_check_prompt host verification_context)
  = Llama.mock_response
      (if String.eqb (Py.before (ascii_of_N 34) claim) ""
       then "the claim"%string
       else Py.before (ascii_of_N 34) claim).
Proof.
  cbv zeta. unfold Llama._create_fact_check_prompt. apply mock_of_prompt.
Qed.

(** The legacy analysis with an unreachable backend.  Outside demo mode,
    when the client library gives no reply and the HTTP call times out, fails
    or answers with a status other than 200, and the quoted part of the claim
    holds no backslash and no control character, the first [analyze_claim]
    of the class answers with verdict [Unverified], confidence 30.0, the
    explanation of the mock reply, the processing time and the name of the
    model. *)
Theorem legacy_backend_down (self : Llama.service) (host : Host.t)
    (verification_context : Pathway.verification_context) :
  let claim :=
    Pathway.original_claim (Pathway.claim_analysis verification_context) in
  let shown :=
    if String.eqb (Py.before (ascii_of_N 34) claim) ""
    then "the claim"%string
    else Py.before (ascii_of_N 34) claim in
  Llama.demo_mode self = false ->
  (forall response, Host.ollama_generate host <> Some (Ok response)) ->
  (forall response, Host.http_post host <> Host.HttpResponse 200 response) ->
  Py.all_chars Json.plain (Py.before (ascii_of_N 34) claim) = true ->
  Llama.analyze_claim_legacy self host verification_context
  = [("verdict", Json.Str "Unverified");
     ("confidence_score", Json.Float 30);
     ("explanation", Json.Str (Llama.mock_explanation shown));
     ("key_evidence", Json.Arr []);
     ("sources_needed",
      Json.strs ["authoritative databases"; "reliable news sources";
                 "academic sources"]);
     ("reasoning_steps",
      Json.strs ["Service unavailable"; "Unable to access verification resources"]);
     ("caveats",
      Json.strs ["LLaMA service temporarily unavailable";
                 "Manual verification recommended"]);
     ("raw_response", Json.Str (Llama.mock_response shown));
     ("processing_time_ms", Json.Int (Host.analysis_ms host));
     ("model_used", Json.Str (Llama.model_name self))]%string.
Proof.
  cbv zeta. intros Hdemo Hclient Hhttp Hplain.
  unfold Llama.analyze_claim_legacy. rewrite Hdemo. cbn [negb].
  rewrite (call_llama_api_fallback host _ Hclient Hhttp).
  unfold Llama._create_fact_check_prompt. rewrite mock_of_prompt.
  set (claim := Pathway.original_claim (Pathway.claim_analysis verification_context))
    in *.
  set (shown := if String.eqb (Py.before (ascii_of_N 34) claim) ""
                then "the claim"%string
                else Py.before (ascii_of_N 34) claim).
  assert (Hshown : Py.all_chars Json.plain shown = true).
  { subst shown. destruct (String.eqb _ ""); [reflexivity|exact Hplain]. }
  unfold Llama._parse_llama_response.
  rewrite (mock_reply_parsed shown Hshown). reflexivity.
Qed.

Lemma legacy_backend_down_witness :
  let ctx := Pathway.create_verification_context
               (Pathway.processed_data "The Eiffel Tower is taller than 400 meters"
                  "" None) None in
  Json.get "verdict" (Llama.analyze_claim_legacy live_service sample_host ctx)
  = Some (Json.Str "Unverified")
  /\ Json.get "confidence_score" (Llama.analyze_claim_legacy live_service sample_host ctx)
     = Some (Json.Float 30).
Proof.
  intros ctx.
  rewrite (@legacy_backend_down live_service sample_host ctx).
  - split; reflexivity.
  - reflexivity.
  - intros r. discriminate.
  - intros r. discriminate.
  - reflexivity.
Defined.

(** ** A JSON reply inside prose *)

(** The legacy parser reads the span from the first opening brace to the
    last closing brace.  Text before the object that holds no opening brace
    and text after it that holds no closing brace do not change what
    [_parse_llama_response] makes of a reply, except that [raw_response]
    keeps the whole reply. *)
Theorem json_in_prose (pre body post : string) (r t : string) :
  body = String "{" r -> Py.rev body = String "}" t ->
  Py.all_chars (fun x => negb (Ascii.eqb "{" x)) pre = true ->
  Py.all_chars (fun x => negb (Ascii.eqb "}" x)) post = true ->
  Llama.parse_json_reply (pre ++ body ++ post)
  = (d <- Llama.parse_json_reply body ;;
     Ok (Json.set "raw_response" (Json.Str (pre ++ body ++ post)) d))
  /\ forall d original_claim,
       Llama.parse_json_reply body = Ok d ->
       Llama._parse_llama_response (Some body) original_claim = Ok d
       /\ Llama._parse_llama_response (Some (pre ++ body ++ post)%string)
            original_claim
          = Ok (Json.set "raw_response" (Json.Str (pre ++ body ++ post)) d).
Proof.
  intros Hbody Hrev Hpre Hpost.
  assert (Hmain : Llama.parse_json_reply (pre ++ body ++ post)
  = (d <- Llama.parse_json_reply body ;;
     Ok (Json.set "raw_response" (Json.Str (pre ++ body ++ post)) d))); [|
    split; [exact Hmain|];
    intros d original_claim Hd; unfold Llama._parse_llama_response;
    rewrite Hmain, Hd; split; reflexivity].
  destruct (@strip_core pre body post "{" "}" r t Hbody Hrev eq_refl eq_refl)
    as (a & p' & q' & b & Ea & Eb & Hstrip).
  assert (Hp' : Py.all_chars (fun x => negb (Ascii.eqb "{" x)) p' = true).
  { rewrite Ea in Hpre. exact (all_chars_app_r _ _ _ Hpre). }
  assert (Hq' : Py.all_chars (fun x => negb (Ascii.eqb "}" x)) q' = true).
  { rewrite Eb in Hpost. exact (all_chars_app_l _ _ _ Hpost). }
  destruct (@brace_span p' body q' r t Hbody Hrev Hp' Hq') as (F1 & F2 & F3).
  destruct (@brace_span "" body "" r t Hbody Hrev eq_refl eq_refl) as (G1 & G2 & G3).
  cbn [String.append String.length Nat.add] in G1, G2, G3.
  rewrite string_app_nil_r in G1, G2, G3.
  assert (Hlen : (1 <= String.length body)%nat)
    by (rewrite Hbody; cbn [String.length]; lia).
  assert (Hc1 : ((0 <=? Z.of_nat (String.length p'))%Z
                 && (Z.of_nat (String.length p')
                     <? Z.of_nat (String.length p' + String.length body))%Z) = true).
  { apply andb_true_iff. split; [apply Z.leb_le|apply Z.ltb_lt]; lia. }
  assert (Hc2 : ((0 <=? Z.of_nat 0)%Z
                 && (Z.of_nat 0 <? Z.of_nat (String.length body))%Z) = true).
  { apply andb_true_iff. split; [apply Z.leb_le|apply Z.ltb_lt]; lia. }
  unfold Llama.parse_json_reply.
  rewrite Hstrip, F1, F2, Hc1, Nat2Z.id, F3.
  rewrite (strip_tight Hbody Hrev eq_refl eq_refl), G1, G2, Hc2.
  change (Z.to_nat (Z.of_nat 0)) with 0%nat. rewrite G3.
  destruct (Json.loads body) as [parsed|e]; [|reflexivity].
  cbn [bind]. destruct parsed; try reflexivity.
  destruct (Llama._normalize_verdict _) as [verdict|e]; [|reflexivity].
  cbn [bind]. destruct (Llama.py_float _) as [conf|e]; reflexivity.
Qed.

Lemma json_in_prose_witness :
  let body := ("{" ++ Py.quoted "verdict" ++ ": " ++ Py.quoted "correct" ++ ", "
               ++ Py.quoted "confidence_score" ++ ": 90}")%string in
  exists d,
    Llama.parse_json_reply ("Here is my analysis: " ++ body ++ " I hope this helps.")%string
    = Ok d
    /\ Json.get "verdict" d = Some (Json.Str "True")
    /\ Json.get "confidence_score" d = Some (Json.Float 90).
Proof.
  intros body.
  destruct (@json_in_prose "Here is my analysis: " body " I hope this helps."
              (Py.drop 1 body) (Py.drop 1 (Py.rev body)))
    as [H _]; try reflexivity.
  rewrite H. eexists. split; [vm_compute; reflexivity|]. split; reflexivity.
Defined.

(** ** The universal response parser *)

(** What the [try] body of the parser builds from the fields of the reply
    and the adjusted confidence. *)
Lemma parse_body_unfold (llama_response claim : string)
    (category : Llama.ClaimCategory) (config : Json.dict) :
  Llama.parse_body llama_response claim category config =
  match Llama.reply_fields llama_response with
  | Raise e => Raise e
  | Ok fields =>
      let tagged :=
        Json.set "analysis_framework"
          (Json.Str (Llama.category_value category ++ "_analysis"))
          (Json.set "claim_category" (Json.Str (Llama.category_value category))
             fields) in
      match Llama.adjust_value
              (Json.get_default "confidence_score" (Json.Float 50.0) tagged)
              category config with
      | Raise e => Raise e
      | Ok adjusted =>
          let scored := Json.set "confidence_score" adjusted tagged in
          let judged :=
            if Json.has "verdict" scored then scored
            else Json.set "verdict" (Json.Str "UNVERIFIED") scored in
          Ok (if Json.has "explanation" judged then judged
              else Json.set "explanation"
                     (Json.Str (Llama.placeholder claim category)) judged)
      end
  end.
Proof.
  unfold Llama.parse_body.
  destruct (Llama.reply_fields llama_response) as [fields|e]; [|reflexivity].
  cbn [bind].
  destruct (Llama.adjust_value _ category config) as [adjusted|e]; reflexivity.
Qed.

(** The only exception of the adjustment is the [TypeError] of a value that
    is not a number. *)
Lemma adjust_value_raises (v : Json.value) (category : Llama.ClaimCategory)
    (config : Json.dict) (e : exn) :
  Llama.adjust_value v category config = Raise e ->
  e = TypeError "unsupported operand type(s)".
Proof.
  unfold Llama.adjust_value.
  destruct category; try discriminate;
    destruct v; cbn [Json.as_number]; try discriminate;
    intros H; injection H as <-; reflexivity.
Qed.

(** C7, as stated, fails.  A reply whose verdict line says [disputed] makes
    the parser raise [AttributeError] (the verdict enum has no member
    [DISPUTED]); a JSON reply whose confidence is a text makes it raise
    [TypeError] in a category that adjusts the confidence; and the default
    verdict is the text [UNVERIFIED], not [Unverified]. *)
Lemma parse_universal_counterexample :
  Llama._parse_universal_response "verdict: disputed" "The Earth is flat"
    Llama.GENERAL [] = Raise (AttributeError "DISPUTED")
  /\ Llama._parse_universal_response
       ("{" ++ Py.quoted "confidence_score" ++ ": " ++ Py.quoted "high" ++ "}")
       "The Earth is flat" Llama.MEDICAL []
     = Raise (TypeError "unsupported operand type(s)")
  /\ exists d,
       Llama._parse_universal_response "{}" "The Earth is flat" Llama.GENERAL []
       = Ok d
       /\ Json.get "verdict" d = Some (Json.Str "UNVERIFIED")
       /\ Json.get "verdict" d <> Some (Json.Str "Unverified").
Proof.
  split; [vm_compute; reflexivity|].
  split; [vm_compute; reflexivity|].
  eexists. split; [vm_compute; reflexivity|].
  split; [reflexivity|].
  vm_compute. discriminate.
Qed.

(** C7, amended. (1) A reply whose JSON span does not decode is answered by
    the category's fallback record, whose verdict is [UNVERIFIED], whose
    confidence is [30.0] and whose explanation names the category and the
    error type [parsing_error]. (2) Whenever the parser returns, the record
    has a verdict, an explanation and a confidence and carries the category;
    a reply without verdict gets [UNVERIFIED] and a reply without
    explanation the placeholder sentence. (3) The parser never lets a
    [JSONDecodeError] or a [KeyError] through. *)
Theorem parse_universal_contract (llama_response claim : string)
    (category : Llama.ClaimCategory) (config : Json.dict) :
  let parsed := Llama._parse_universal_response llama_response claim category config in
  let fallback :=
    Llama._generate_intelligent_fallback_response claim category "parsing_error" in
  (forall msg,
     Llama.reply_fields llama_response = Raise (JSONDecodeError msg) ->
     parsed = Ok fallback)
  /\ (Json.get "verdict" fallback = Some (Json.Str "UNVERIFIED")
      /\ Json.get "confidence_score" fallback = Some (Json.Float 30.0)
      /\ Json.get "explanation" fallback
         = Some (Json.Str ("Unable to complete " ++ Llama.category_value category
                           ++ " analysis for '" ++ claim
                           ++ "' due to parsing_error. Requires manual verification.")))
  /\ (forall d,
        parsed = Ok d ->
        Json.has "verdict" d = true
        /\ Json.has "explanation" d = true
        /\ Json.has "confidence_score" d = true
        /\ Json.get "claim_category" d
           = Some (Json.Str (Llama.category_value category)))
  /\ (forall fields d,
        Llama.reply_fields llama_response = Ok fields ->
        parsed = Ok d ->
        (Json.has "verdict" fields = false ->
         Json.get "verdict" d = Some (Json.Str "UNVERIFIED"))
        /\ (Json.has "explanation" fields = false ->
            Json.get "explanation" d
            = Some (Json.Str (Llama.placeholder claim category))))
  /\ (forall e,
        parsed = Raise e ->
        (forall m, e <> JSONDecodeError m) /\ (forall m, e <> KeyError m)).
Proof.
  cbv zeta. unfold Llama._parse_universal_response.
  rewrite parse_body_unfold.
  split; [|split; [|split; [|split]]].
  - intros msg ->. reflexivity.
  - repeat split.
  - intros d.
    destruct (Llama.reply_fields llama_response) as [fields|e].
    + cbv zeta.
      destruct (Llama.adjust_value _ category config) as [adjusted|e] eqn:E.
      * intros H. injection H as <-.
        set (tagged := Json.set "analysis_framework" _ _) in *.
        set (scored := Json.set "confidence_score" adjusted tagged).
        assert (Hc : Json.has "confidence_score" scored = true)
          by apply has_set_same.
        assert (Hcat : Json.get "claim_category" scored
                       = Some (Json.Str (Llama.category_value category))).
        { subst scored tagged.
          rewrite !get_set_other by reflexivity. apply get_set_same. }
        split; [apply ensure_keeps_has, ensure_has|].
        split; [apply ensure_has|].
        split; [now apply ensure_keeps_has, ensure_keeps_has|].
        now rewrite !ensure_keeps_get by reflexivity.
      * apply adjust_value_raises in E. subst e. discriminate.
    + destruct e; try discriminate.
      all: intros H; injection H as <-; repeat split.
  - intros fields d ->. cbv zeta.
    destruct (Llama.adjust_value _ category config) as [adjusted|e] eqn:E;
      [|apply adjust_value_raises in E; subst e; discriminate].
    intros H. injection H as <-.
    set (tagged := Json.set "analysis_framework" _ _).
    set (scored := Json.set "confidence_score" adjusted tagged).
    assert (Hv : Json.has "verdict" scored = Json.has "verdict" fields).
    { subst scored tagged. now rewrite !has_set_other by reflexivity. }
    assert (He : Json.has "explanation" scored = Json.has "explanation" fields).
    { subst scored tagged. now rewrite !has_set_other by reflexivity. }
    split.
    + intros Hno. rewrite ensure_keeps_get by reflexivity.
      apply ensure_default. now rewrite Hv.
    + intros Hno. apply ensure_default.
      destruct (Json.has "verdict" scored);
        rewrite ?has_set_other by reflexivity; now rewrite He.
  - intros e.
    destruct (Llama.reply_fields llama_response) as [fields|e'].
    + cbv zeta.
      destruct (Llama.adjust_value _ category config) as [adjusted|e''] eqn:E;
        [discriminate|].
      apply adjust_value_raises in E. subst e''.
      intros H; injection H as <-; split; intros m; discriminate.
    + destruct e'; try discriminate;
        intros H; injection H as <-; split; intros m; discriminate.
Qed.

Lemma parse_universal_contract_witness :
  Llama._parse_universal_response "{ not json }" "The Earth is flat"
    Llama.SCIENTIFIC []
  = Ok (Llama._generate_intelligent_fallback_response "The Earth is flat"
          Llama.SCIENTIFIC "parsing_error")
  /\ exists d,
       Llama._parse_universal_response "{}" "The Earth is flat" Llama.SCIENTIFIC []
       = Ok d
       /\ Json.get "verdict" d = Some (Json.Str "UNVERIFIED")
       /\ Json.get "explanation" d
          = Some (Json.Str "Analysis completed for scientific claim: The Earth is flat")
       /\ Json.has "confidence_score" d = true.
Proof.
  destruct (parse_universal_contract "{ not json }" "The Earth is flat"
              Llama.SCIENTIFIC []) as (Hbad & _).
  destruct (parse_universal_contract "{}" "The Earth is flat"
              Llama.SCIENTIFIC []) as (_ & _ & Hfull & Hdefault & _).
  split.
  - apply (Hbad "Expecting property name enclosed in double quotes"%string).
    reflexivity.
  - eexists. split; [vm_compute; reflexivity|].
    match goal with
    | |- Json.get _ ?d = _ /\ _ =>
        destruct (Hdefault [] d eq_refl eq_refl) as [Hv He];
        destruct (Hfull d eq_refl) as (_ & _ & Hc & _)
    end.
    split; [apply Hv; reflexivity|].
    split; [apply He; reflexivity|exact Hc].
Defined.

(** ** More on the analysis service *)

(** A text that starts with [a ++ b] holds [b]. *)
Lemma startswith_app_isin (a b s : string) :
  Py.startswith (a ++ b) s = true -> Py.isin b s = true.
Proof.
  revert s. induction a as [|c a IH]; intros s H.
  - cbn [String.append] in H. destruct s; cbn [Py.isin]; now rewrite H.
  - destruct s as [|d s]; [discriminate|].
    cbn [String.append Py.startswith] in H.
    apply andb_true_iff in H. destruct H as [_ H].
    cbn [Py.isin]. rewrite (IH s H). apply orb_true_r.
Qed.

(** A text that holds [a ++ b] holds [b]. *)
Lemma isin_suffix (a b s : string) :
  Py.isin (a ++ b) s = true -> Py.isin b s = true.
Proof.
  induction s as [|c s IH]; intros H.
  - cbn [Py.isin] in H. rewrite orb_false_r in H.
    now apply startswith_app_isin with (a := a).
  - cbn [Py.isin] in H. apply orb_true_iff in H. destruct H as [H|H].
    + now apply startswith_app_isin with (a := a).
    + cbn [Py.isin]. rewrite (IH H). apply orb_true_r.
Qed.

(** The negated forms read as their positive.  [_standardize_verdict] tests
    the keywords of [TRUE] first, by containment: a verdict text that holds
    [incorrect], [invalid], [inaccurate] or [untrue], in any case, is
    standardised to [TRUE], so the keywords [incorrect] and [invalid] of the
    [FALSE] list never decide. *)
Theorem standardize_verdict_negated (verdict_text : string) :
  Py.any_in ["incorrect"; "invalid"; "inaccurate"; "untrue"]%string
            (Py.lower verdict_text) = true ->
  Llama._standardize_verdict verdict_text = Ok "TRUE"%string.
Proof.
  intros H. unfold Llama._standardize_verdict.
  assert (E : Py.any_in ["true"; "correct"; "accurate"; "valid"]%string
                        (Py.lower verdict_text) = true).
  { unfold Py.any_in in *. cbn [existsb] in *.
    repeat rewrite orb_true_iff in H. repeat rewrite orb_true_iff.
    destruct H as [H|[H|[H|[H|H]]]]; [| | | |discriminate].
    - right. left. exact (isin_suffix "in" "correct" _ H).
    - right. right. right. left. exact (isin_suffix "in" "valid" _ H).
    - right. right. left. exact (isin_suffix "in" "accurate" _ H).
    - left. exact (isin_suffix "un" "true" _ H). }
  rewrite E. reflexivity.
Qed.

Lemma standardize_verdict_negated_witness :
  Llama._standardize_verdict "Incorrect" = Ok "TRUE"%string
  /\ exists d,
       Llama._extract_structured_info "Verdict: Invalid, the claim is wrong."
       = Ok d
       /\ Json.get "verdict" d = Some (Json.Str "TRUE").
Proof.
  split.
  - apply (standardize_verdict_negated "Incorrect"). reflexivity.
  - eexists. split; vm_compute; reflexivity.
Defined.

(** The verdicts of the universal analysis are not verdicts of the API.
    No value of [VerdictType] is a value of [VerdictEnum] (the first are
    upper-case names, the second capitalised words); the canned answer of
    demo mode, the fallback answer and [_standardize_verdict] only produce
    values of [VerdictType]; so a [ClaimResponse] built with any of them is
    refused by its schema. *)
Theorem universal_verdicts_outside_schema :
  (forall v : Llama.VerdictType, Api.is_verdict (Llama.verdict_value v) = false)
  /\ (forall claim category category_confidence,
        exists v,
          Json.get "verdict"
            (Llama._generate_intelligent_demo_response claim category
               category_confidence)
          = Some (Json.Str (Llama.verdict_value v)))
  /\ (forall claim category error_type,
        Json.get "verdict"
          (Llama._generate_intelligent_fallback_response claim category error_type)
        = Some (Json.Str (Llama.verdict_value Llama.UNVERIFIED)))
  /\ (forall verdict_text s,
        Llama._standardize_verdict verdict_text = Ok s ->
        exists v, s = Llama.verdict_value v)
  /\ (forall (v : Llama.VerdictType) (c : Api.ClaimResponse),
        Api.c_verdict c = Llama.verdict_value v ->
        Api.validate_response c = Raise (ValidationError "verdict")).
Proof.
  assert (H0 : forall v : Llama.VerdictType,
             Api.is_verdict (Llama.verdict_value v) = false)
    by (intros []; reflexivity).
  split; [exact H0|]. split; [|split; [|split]].
  - intros claim category conf.
    unfold Llama._generate_intelligent_demo_response.
    destruct category;
      repeat match goal with
             | |- context [if ?b then _ else _] => destruct b
             end;
      eexists; reflexivity.
  - reflexivity.
  - intros t s. unfold Llama._standardize_verdict.
    repeat match goal with
           | |- context [if ?b then _ else _] => destruct b
           end;
      intros H;
      lazymatch type of H with
      | Ok (Llama.verdict_value ?v) = _ => exists v; congruence
      | _ => vm_compute in H; discriminate H
      end.
  - intros v c Hc. unfold Api.validate_response. rewrite Hc, H0. reflexivity.
Qed.

(** The adjustment never raises a confidence and keeps it non-negative:
    for every category and every confidence from 0 upwards, the adjusted
    value lies between 0 and the value given, so a confidence within 0..100
    stays within 0..100. *)
Theorem adjust_never_raises (x : Q) (category : Llama.ClaimCategory)
    (config : Json.dict) :
  0 <= x ->
  0 <= Llama._adjust_confidence_by_category x category config
  /\ Llama._adjust_confidence_by_category x category config <= x.
Proof.
  intros Hx. destruct category; adjust_cases; split; lra.
Qed.

Lemma adjust_never_raises_witness :
  0 <= Llama._adjust_confidence_by_category 80 Llama.MEDICAL [] <= 80.
Proof.
  apply (@adjust_never_raises 80 Llama.MEDICAL []). discriminate.
Defined.

(** The adjustment keeps the order of confidences: within one category a
    higher confidence is never adjusted to a lower value than a lower
    one. *)
Theorem adjust_monotone (x y : Q) (category : Llama.ClaimCategory)
    (config : Json.dict) :
  x <= y ->
  Llama._adjust_confidence_by_category x category config
  <= Llama._adjust_confidence_by_category y category config.
Proof.
  intros Hxy. destruct category; adjust_cases; lra.
Qed.

Lemma adjust_monotone_witness :
  Llama._adjust_confidence_by_category 90 Llama.MATHEMATICAL []
  <= Llama._adjust_confidence_by_category 91 Llama.MATHEMATICAL [].
Proof.
  apply (@adjust_monotone 90 91 Llama.MATHEMATICAL []). discriminate.
Defined.





Lemma normalize_verdict_in_schema (v : Json.value) (s : string) :
  Llama._normalize_verdict v = Ok s ->
  In s Api.VerdictEnum /\ Api.is_verdict s = true.
Proof.
  unfold Llama._normalize_verdict. destruct v; try discriminate.
  intros H. injection H as <-.
  repeat match goal with
         | |- context [if ?b then _ else _] => destruct b
         end;
    (split; [cbn; tauto|reflexivity]).
Qed.

Lemma text_verdict_in_schema (response original_claim : string) :
  exists v,
    Json.get "verdict" (Llama._parse_text_response response original_claim)
    = Some (Json.Str v)
    /\ In v Api.VerdictEnum /\ Api.is_verdict v = true
    /\ Json.get "raw_response" (Llama._parse_text_response response original_claim)
       = Some (Json.Str response).
Proof.
  unfold Llama._parse_text_response.
  repeat match goal with
         | |- context [if ?b then _ else _] => destruct b
         end;
    eexists; (split; [reflexivity|]); (split; [cbn; tauto|]); split; reflexivity.
Qed.

(** The verdicts of the legacy parser are verdicts of the API.  Whatever
    the reply of the backend, [_parse_llama_response] returns a record (it
    never raises on a text) whose verdict is one of the six values of
    [VerdictEnum] and which keeps the reply under [raw_response]. *)
Theorem legacy_verdict_in_schema (response original_claim : string) :
  exists d v,
    Llama._parse_llama_response (Some response) original_claim = Ok d
    /\ Json.get "verdict" d = Some (Json.Str v)
    /\ In v Api.VerdictEnum
    /\ Api.is_verdict v = true
    /\ Json.get "raw_response" d = Some (Json.Str response).
Proof.
  unfold Llama._parse_llama_response.
  destruct (Llama.parse_json_reply response) as [d|e] eqn:E.
  - unfold Llama.parse_json_reply in E.
    destruct (_ && _) in E; [|discriminate].
    destruct (Json.loads _) as [parsed|] in E; [|discriminate].
    cbn [bind] in E. destruct parsed; try discriminate.
    destruct (Llama._normalize_verdict _) as [verdict|] eqn:Ev in E; [|discriminate].
    cbn [bind] in E.
    destruct (Llama.py_float _) as [confidence|] in E; [|discriminate].
    cbn [bind] in E. injection E as <-.
    destruct (@normalize_verdict_in_schema _ _ Ev) as [Hin Hok].
    eexists. exists verdict. split; [reflexivity|]. split; [reflexivity|].
    split; [exact Hin|]. split; [exact Hok|reflexivity].
  - destruct (text_verdict_in_schema response original_claim)
      as (v & Hv & Hin & Hok & Hraw).
    eexists. exists v. split; [reflexivity|]. repeat split; assumption.
Qed.

Lemma startswith_app_l (a b s : string) :
  Py.startswith (a ++ b) s = true -> Py.startswith a s = true.
Proof.
  revert s. induction a as [|c a IH]; intros s H; [now destruct s|].
  destruct s as [|d s]; [discriminate|].
  cbn [String.append Py.startswith] in *.
  apply andb_true_iff in H. destruct H as [-> H]. now rewrite (IH s H).
Qed.

(** A text that holds [a ++ b] holds [a]. *)
Lemma isin_prefix (a b s : string) :
  Py.isin (a ++ b) s = true -> Py.isin a s = true.
Proof.
  induction s as [|c s IH]; intros H; cbn [Py.isin] in *.
  - rewrite orb_false_r in *. now apply startswith_app_l with (b := b).
  - apply orb_true_iff in H. destruct H as [H|H].
    + now rewrite (startswith_app_l a b _ H).
    + rewrite (IH H). apply orb_true_r.
Qed.

(** Demo mode has no reply for some claims.  [_create_demo_response]
    returns nothing for a claim without [flat] that names the sun and the
    earth (or [solar], [world]) but neither [bigger] nor [larger], and for a
    claim without [flat], [sun], [solar] and [small] that names water, h2o,
    gravity or the speed of light but not [2+2]; the legacy analysis then
    answers with the fallback record: verdict [Unverified], confidence 0 and
    model [fallback]. *)
Theorem demo_reply_missing (self : Llama.service) (host : Host.t)
    (verification_context : Pathway.verification_context) :
  let claim_analysis := Pathway.claim_analysis verification_context in
  let claim := Pathway.original_claim claim_analysis in
  let has w := Py.isin w (Py.lower claim) in
  Llama.demo_mode self = true ->
  has "flat"%string = false ->
  ((has "sun" || has "solar") && (has "world" || has "earth") = true
   /\ has "bigger" || has "larger" = false)%string
  \/ (has "sun" || has "solar" || has "small" = false
      /\ Py.any_in ["water"; "h2o"; "gravity"; "speed of light"]
                   (Py.lower claim) = true
      /\ has "2+2" || has "2 + 2" = false)%string ->
  Llama._create_demo_response claim (Pathway.claim_type claim_analysis) = None
  /\ Llama.analyze_claim_legacy self host verification_context
     = Llama._create_fallback_response verification_context
         "'NoneType' object has no attribute 'lower'"
  /\ Json.get "verdict" (Llama.analyze_claim_legacy self host verification_context)
     = Some (Json.Str "Unverified")
  /\ Json.get "confidence_score"
       (Llama.analyze_claim_legacy self host verification_context)
     = Some (Json.Float 0.0)
  /\ Json.get "model_used" (Llama.analyze_claim_legacy self host verification_context)
     = Some (Json.Str "fallback").
Proof.
  cbv zeta. intros Hdemo Hflat Hcase.
  set (claim := Pathway.original_claim (Pathway.claim_analysis verification_context)) in *.
  assert (Hnone : Llama._create_demo_response claim
                    (Pathway.claim_type (Pathway.claim_analysis verification_context))
                  = None).
  { unfold Llama._create_demo_response. rewrite Hflat. cbn [andb].
    destruct Hcase as [[H1 H2]|(H1 & H2 & H3)].
    - rewrite H1, H2. reflexivity.
    - apply orb_false_iff in H1. destruct H1 as [H1 Hsmall].
      rewrite H1. cbn [andb].
      assert (Hsmaller : Py.isin "smaller" (Py.lower claim) = false).
      { destruct (Py.isin "smaller" (Py.lower claim)) eqn:E; [|reflexivity].
        rewrite (isin_prefix "small" "er" _ E) in Hsmall. discriminate. }
      rewrite Hsmall, Hsmaller. cbn [orb andb].
      apply orb_false_iff in H3. destruct H3 as [H3 H4].
      unfold Py.any_in in H2 |- *. cbn [existsb] in H2 |- *.
      rewrite H3, H4. cbn [orb]. rewrite H2. reflexivity. }
  assert (Hlegacy : Llama.analyze_claim_legacy self host verification_context
     = Llama._create_fallback_response verification_context
         "'NoneType' object has no attribute 'lower'").
  { unfold Llama.analyze_claim_legacy. rewrite Hdemo. fold claim.
    rewrite Hnone. reflexivity. }
  split; [exact Hnone|]. split; [exact Hlegacy|].
  rewrite Hlegacy. repeat split; reflexivity.
Qed.

Lemma demo_reply_missing_witness :
  let ctx := Pathway.create_verification_context
               (Pathway.processed_data "Water boils at 100 degrees" "" None) None in
  Llama._create_demo_response "Water boils at 100 degrees" "general" = None
  /\ Json.get "verdict" (Llama.analyze_claim_legacy Llama.default_service sample_host ctx)
     = Some (Json.Str "Unverified").
Proof.
  intros ctx.
  destruct (@demo_reply_missing Llama.default_service sample_host ctx)
    as (H1 & _ & H2 & _).
  - reflexivity.
  - reflexivity.
  - right. repeat split; reflexivity.
  - split; [|exact H2]. vm_compute. reflexivity.
Defined.
(** ** The result log *)

Section StoreFacts.
Import MemoryStore.

Lemma insert_desc_perm x l : Permutation (x :: l) (insert_desc x l).
Proof.
  induction l as [|y l IH]; simpl.
  - apply Permutation_refl.
  - destruct (id x <? id y)%Z.
    + eapply perm_trans; [apply perm_swap|]. now apply perm_skip.
    + apply Permutation_refl.
Qed.

Lemma sorted_by_id_desc_perm l : Permutation l (sorted_by_id_desc l).
Proof.
  induction l as [|x l IH]; simpl.
  - constructor.
  - eapply perm_trans; [apply perm_skip, IH | apply insert_desc_perm].
Qed.

Lemma insert_desc_Forall (P : row -> Prop) x l :
  P x -> Forall P l -> Forall P (insert_desc x l).
Proof.
  intros Hx Hl.
  eapply Permutation_Forall; [apply insert_desc_perm|].
  now constructor.
Qed.

Lemma insert_desc_sorted x l :
  StronglySorted id_ge l -> StronglySorted id_ge (insert_desc x l).
Proof.
  induction l as [|y l IH]; intros Hs; simpl.
  - repeat constructor.
  - inversion Hs as [|? ? Hl Hy]; subst.
    destruct (id x <? id y)%Z eqn:E.
    + constructor; [now apply IH|].
      apply insert_desc_Forall; [|assumption].
      unfold id_ge. apply Z.ltb_lt in E. lia.
    + constructor; [assumption|].
      apply Z.ltb_ge in E.
      constructor; [unfold id_ge; lia|].
      eapply Forall_impl; [|exact Hy].
      unfold id_ge. intros; lia.
Qed.

Lemma sorted_by_id_desc_sorted l : StronglySorted id_ge (sorted_by_id_desc l).
Proof.
  induction l as [|x l IH]; simpl.
  - constructor.
  - now apply insert_desc_sorted.
Qed.

Lemma sorted_by_id_desc_length l :
  List.length (sorted_by_id_desc l) = List.length l.
Proof. symmetry. apply Permutation_length, sorted_by_id_desc_perm. Qed.

(** A row whose id is below every id of a list goes to its end. *)
Lemma insert_desc_last x l :
  Forall (fun y => (id x < id y)%Z) l -> insert_desc x l = l ++ [x].
Proof.
  induction 1 as [|y l Hy _ IH]; simpl.
  - reflexivity.
  - apply Z.ltb_lt in Hy. rewrite Hy. now rewrite IH.
Qed.

(** Rows appended with increasing ids come back reversed. *)
Lemma sorted_increasing_rev l :
  StronglySorted (fun a b => (id a < id b)%Z) l ->
  sorted_by_id_desc l = rev l.
Proof.
  induction 1 as [|x l Hl IH Hx]; simpl.
  - reflexivity.
  - rewrite IH. apply insert_desc_last.
    apply Forall_rev. exact Hx.
Qed.

Lemma add_all_app s xs ys : add_all s (xs ++ ys) = add_all (add_all s xs) ys.
Proof.
  revert s. induction xs as [|x xs IH]; intros s; simpl; [reflexivity|apply IH].
Qed.

Lemma add_all_counter adds : forall s,
  _counter (add_all s adds) = (_counter s + Z.of_nat (List.length adds))%Z.
Proof.
  induction adds as [|a adds IH]; intros s; simpl.
  - lia.
  - rewrite IH. simpl. lia.
Qed.

Lemma add_all_ids adds : forall s,
  map id (_store (add_all s adds)) =
  map id (_store s) ++
  map (fun k => (_counter s + Z.of_nat k)%Z) (seq 0 (List.length adds)).
Proof.
  induction adds as [|a adds IH]; intros s; simpl.
  - now rewrite app_nil_r.
  - rewrite IH. simpl.
    rewrite map_app, <- app_assoc. simpl. f_equal.
    rewrite Z.add_0_r. f_equal.
    rewrite <- seq_shift, map_map.
    apply map_ext. intros k. lia.
Qed.

End StoreFacts.

Lemma in_firstn_elim {A : Type} (n : nat) (l : list A) (x : A) :
  In x (firstn n l) -> In x l.
Proof.
  intros H. rewrite <- (firstn_skipn n l). apply in_or_app. now left.
Qed.

Lemma in_skipn_elim {A : Type} (n : nat) (l : list A) (x : A) :
  In x (skipn n l) -> In x l.
Proof.
  intros H. rewrite <- (firstn_skipn n l). apply in_or_app. now right.
Qed.

Section HistoryFacts.
Import MemoryStore.

(** The ids of a fresh store after [n] insertions are [1..n], in order. *)
Lemma fresh_store_ids adds :
  map id (_store (add_all init adds)) =
  map (fun k => Z.of_nat (S k)) (seq 0 (List.length adds)).
Proof.
  rewrite add_all_ids. cbn [init _store _counter map app].
  apply map_ext. intros k. rewrite Nat2Z.inj_succ. lia.
Qed.

Lemma increasing_of_ids (l : list row) :
  StronglySorted Z.lt (map id l) ->
  StronglySorted (fun a b => (id a < id b)%Z) l.
Proof.
  induction l as [|x l IH]; simpl; intros H.
  - constructor.
  - inversion H as [|? ? Hl Hx]; subst.
    constructor; [now apply IH|].
    rewrite Forall_map in Hx. exact Hx.
Qed.

Lemma seq_ids_increasing n m :
  StronglySorted Z.lt (map (fun k => Z.of_nat (S k)) (seq m n)).
Proof.
  revert m. induction n as [|n IH]; intros m; cbn [seq map].
  - constructor.
  - constructor; [apply IH|].
    rewrite Forall_map, Forall_forall. intros k Hk.
    apply in_seq in Hk. lia.
Qed.

Lemma fresh_store_sorted adds :
  sorted_by_id_desc (_store (add_all init adds)) =
  rev (_store (add_all init adds)).
Proof.
  apply sorted_increasing_rev, increasing_of_ids.
  rewrite fresh_store_ids. apply seq_ids_increasing.
Qed.

Lemma fresh_store_length adds :
  List.length (_store (add_all init adds)) = List.length adds.
Proof.
  rewrite <- (length_map id), fresh_store_ids, length_map. apply length_seq.
Qed.

(** Validation succeeds on rows that satisfy the response schema. *)
Lemma build_all_valid rs :
  Forall (fun r => Api.validate (Api.to_history r) = Ok (Api.to_history r)) rs ->
  Api.build_all rs = Ok (map Api.to_history rs).
Proof.
  induction 1 as [|r rs Hr _ IH]; simpl.
  - reflexivity.
  - rewrite Hr. simpl. rewrite IH. reflexivity.
Qed.

End HistoryFacts.

(** C8. A store filled by 60 insertions into a fresh store holds ids 1..60;
    the history query with limit 10 and offset 5 then returns the rows with
    ids 55 down to 46, in strictly descending order: they are the stored rows
    46..55 reversed, and the endpoint returns their history views whenever
    the stored rows satisfy the response schema. *)
Theorem history_pagination_60 (adds : list MemoryStore.add_args) :
  List.length adds = 60%nat ->
  let s := MemoryStore.add_all MemoryStore.init adds in
  let page := MemoryStore.get_all s (Some 10%Z) (Some 5%Z) in
  map MemoryStore.id (MemoryStore._store s) = map Z.of_nat (seq 1 60)
  /\ map MemoryStore.id page = [55; 54; 53; 52; 51; 50; 49; 48; 47; 46]%Z
  /\ page = rev (skipn 45 (firstn 55 (MemoryStore._store s)))
  /\ StronglySorted Z.gt (map MemoryStore.id page)
  /\ (Forall (fun r => Api.validate (Api.to_history r) = Ok (Api.to_history r))
             (MemoryStore._store s) ->
      Api.get_history s (Some 10%Z) (Some 5%Z) = Ok (map Api.to_history page)).
Proof.
  intros Hlen s page.
  assert (Hids : map MemoryStore.id (MemoryStore._store s) = map Z.of_nat (seq 1 60)).
  { subst s. rewrite fresh_store_ids, Hlen. reflexivity. }
  assert (Hstore : List.length (MemoryStore._store s) = 60%nat).
  { subst s. now rewrite fresh_store_length. }
  assert (Hpage : page = rev (skipn 45 (firstn 55 (MemoryStore._store s)))).
  { subst page. unfold MemoryStore.get_all. simpl Py.truthy. cbv iota.
    subst s. rewrite fresh_store_sorted.
    set (l := MemoryStore._store _) in *.
    unfold Py.slice_from, Py.slice_to.
    change (5 <? 0)%Z with false. change (10 <? 0)%Z with false. cbv iota.
    change (Z.to_nat 5) with 5%nat. change (Z.to_nat 10) with 10%nat.
    rewrite skipn_rev, firstn_rev, length_firstn, Hstore.
    reflexivity. }
  assert (Hpids : map MemoryStore.id page = [55; 54; 53; 52; 51; 50; 49; 48; 47; 46]%Z).
  { rewrite Hpage, map_rev, <- skipn_map, <- firstn_map, Hids. reflexivity. }
  split; [exact Hids|]. split; [exact Hpids|]. split; [exact Hpage|]. split.
  - rewrite Hpids. repeat constructor.
  - intros Hvalid. unfold Api.get_history. fold page.
    rewrite build_all_valid; [reflexivity|].
    rewrite Hpage. apply Forall_rev.
    apply Forall_forall. intros r Hr.
    rewrite Forall_forall in Hvalid. apply Hvalid.
    apply in_skipn_elim, in_firstn_elim in Hr. exact Hr.
Qed.

Lemma history_pagination_60_witness :
  List.length (sample_adds 60) = 60%nat
  /\ map MemoryStore.id
       (MemoryStore.get_all (MemoryStore.add_all MemoryStore.init (sample_adds 60))
          (Some 10%Z) (Some 5%Z))
     = [55; 54; 53; 52; 51; 50; 49; 48; 47; 46]%Z
  /\ exists hs,
       Api.get_history (MemoryStore.add_all MemoryStore.init (sample_adds 60))
         (Some 10%Z) (Some 5%Z) = Ok hs
       /\ map Api.h_id hs = [55; 54; 53; 52; 51; 50; 49; 48; 47; 46]%Z.
Proof.
  split; [reflexivity|].
  destruct (history_pagination_60 (sample_adds 60) eq_refl)
    as (_ & Hids & _ & _ & Hhist).
  split; [exact Hids|].
  eexists. split.
  - apply Hhist. vm_compute. repeat constructor.
  - reflexivity.
Defined.

(** C10. [get_all] applies [limit] and [offset] only when they are truthy:
    with [limit] equal to [0] or [None] and [offset] equal to [0] or [None]
    the result is the whole log sorted by descending id (a permutation of the
    stored rows, of the same length), and with such a [limit] and any
    [offset] nothing is cut at the end. *)
Theorem get_all_falsy_limit (s : MemoryStore.t) (limit offset : option Z) :
  limit = None \/ limit = Some 0%Z ->
  (offset = None \/ offset = Some 0%Z ->
     MemoryStore.get_all s limit offset =
       MemoryStore.sorted_by_id_desc (MemoryStore._store s)
     /\ Permutation (MemoryStore._store s) (MemoryStore.get_all s limit offset)
     /\ StronglySorted MemoryStore.id_ge (MemoryStore.get_all s limit offset)
     /\ List.length (MemoryStore.get_all s limit offset) =
        List.length (MemoryStore._store s))
  /\ MemoryStore.get_all s limit offset = MemoryStore.get_all s None offset.
Proof.
  intros Hl. split.
  - intros Ho.
    assert (E : MemoryStore.get_all s limit offset =
                MemoryStore.sorted_by_id_desc (MemoryStore._store s)).
    { destruct Hl as [-> | ->], Ho as [-> | ->]; reflexivity. }
    rewrite E. split; [reflexivity|]. split; [apply sorted_by_id_desc_perm|].
    split; [apply sorted_by_id_desc_sorted|apply sorted_by_id_desc_length].
  - destruct Hl as [-> | ->]; reflexivity.
Qed.

Lemma get_all_falsy_limit_witness :
  let s := MemoryStore.add_all MemoryStore.init (sample_adds 3) in
  map MemoryStore.id (MemoryStore.get_all s (Some 0%Z) (Some 0%Z)) = [3; 2; 1]%Z
  /\ MemoryStore.get_all s (Some 0%Z) (Some 0%Z) = MemoryStore.get_all s None None
  /\ List.length (MemoryStore.get_all s (Some 0%Z) None) = 3%nat.
Proof.
  intros s.
  destruct (get_all_falsy_limit s (limit := Some 0%Z) (Some 0%Z)
              (or_intror eq_refl)) as [H0 H1].
  destruct (H0 (or_intror eq_refl)) as (E & _ & _ & _).
  destruct (get_all_falsy_limit s (limit := Some 0%Z) None
              (or_intror eq_refl)) as [H2 _].
  destruct (H2 (or_introl eq_refl)) as (_ & _ & _ & L).
  split; [rewrite E; reflexivity|].
  split; [exact H1|].
  rewrite L. reflexivity.
Defined.

(** ** The result log under any sequence of calls *)

Section StoreCalls.
Import MemoryStore.

(** What every call keeps: the ids of the stored rows increase in insertion
    order and stay below the counter. *)
Lemma after_keeps (s : t) (c : call) :
  StronglySorted Z.lt (map id (_store s)) ->
  Forall (fun r => (1 <= id r < _counter s)%Z) (_store s) ->
  (1 <= _counter s)%Z ->
  StronglySorted Z.lt (map id (_store (after s c)))
  /\ Forall (fun r => (1 <= id r < _counter (after s c))%Z) (_store (after s c))
  /\ (1 <= _counter (after s c))%Z
  /\ _counter (after s c)
     = (_counter s + match c with AddResult _ => 1 | Clear => 0 end)%Z.
Proof.
  intros Hs Hb Hc. destruct c as [a|]; cbn [after add_result clear fst _store _counter].
  - split; [|split; [|split; [lia|reflexivity]]].
    + rewrite map_app. cbn [map id].
      clear Hc. induction (_store s) as [|x l IH]; cbn [map app].
      * repeat constructor.
      * inversion Hs as [|? ? Hl Hx]; subst.
        inversion Hb as [|? ? Hbx Hbl]; subst.
        constructor; [now apply IH|].
        apply Forall_app. split; [exact Hx|].
        constructor; [lia|constructor].
    + apply Forall_app. split.
      * eapply Forall_impl; [|exact Hb]. cbv beta. intros r Hr. lia.
      * constructor; [cbn [id]; lia|constructor].
  - split; [constructor|]. split; [constructor|]. split; [exact Hc|lia].
Qed.

Lemma after_all_keeps (calls : list call) : forall s,
  StronglySorted Z.lt (map id (_store s)) ->
  Forall (fun r => (1 <= id r < _counter s)%Z) (_store s) ->
  (1 <= _counter s)%Z ->
  StronglySorted Z.lt (map id (_store (after_all s calls)))
  /\ Forall (fun r => (1 <= id r < _counter (after_all s calls))%Z)
            (_store (after_all s calls))
  /\ _counter (after_all s calls) = (_counter s + Z.of_nat (adds_in calls))%Z.
Proof.
  induction calls as [|c calls IH]; intros s Hs Hb Hc.
  - cbn. split; [exact Hs|]. split; [exact Hb|lia].
  - destruct (@after_keeps s c Hs Hb Hc) as (Hs' & Hb' & Hc' & Hn).
    destruct (IH (after s c) Hs' Hb' Hc') as (Hs2 & Hb2 & Hn2).
    change (after_all s (c :: calls)) with (after_all (after s c) calls).
    split; [exact Hs2|]. split; [exact Hb2|].
    rewrite Hn2, Hn. unfold adds_in. cbn [filter].
    destruct c; cbn [List.length]; lia.
Qed.

Lemma reached_keeps (calls : list call) :
  StronglySorted Z.lt (map id (_store (after_all init calls)))
  /\ Forall (fun r => (1 <= id r < _counter (after_all init calls))%Z)
            (_store (after_all init calls))
  /\ _counter (after_all init calls) = (1 + Z.of_nat (adds_in calls))%Z.
Proof.
  apply (@after_all_keeps calls init); cbn; [constructor|constructor|lia].
Qed.

(** A lookup by an id that no row has finds nothing. *)
Lemma get_by_id_in_none (l : list row) (k : Z) :
  Forall (fun r => id r <> k) l -> get_by_id_in l k = None.
Proof.
  induction 1 as [|r l Hr _ IH]; cbn [get_by_id_in]; [reflexivity|].
  apply Z.eqb_neq in Hr. now rewrite Hr.
Qed.

Lemma get_by_id_in_app (l1 l2 : list row) (k : Z) :
  get_by_id_in (l1 ++ l2) k
  = match get_by_id_in l1 k with
    | Some r => Some r
    | None => get_by_id_in l2 k
    end.
Proof.
  induction l1 as [|r l1 IH]; cbn [app get_by_id_in]; [reflexivity|].
  destruct (id r =? k)%Z; [reflexivity|exact IH].
Qed.

(** With distinct ids, every row is the answer to the lookup of its id. *)
Lemma get_by_id_in_found (l : list row) :
  StronglySorted Z.lt (map id l) ->
  Forall (fun r => get_by_id_in l (id r) = Some r) l.
Proof.
  induction l as [|x l IH]; cbn [map]; intros Hs; [constructor|].
  inversion Hs as [|? ? Hl Hx]; subst.
  constructor.
  - cbn [get_by_id_in]. now rewrite Z.eqb_refl.
  - specialize (IH Hl). rewrite Forall_forall in IH |- *.
    intros r Hr. cbn [get_by_id_in].
    rewrite Forall_map, Forall_forall in Hx. specialize (Hx r Hr).
    assert (E : (id x =? id r)%Z = false) by (apply Z.eqb_neq; lia).
    rewrite E. now apply IH.
Qed.

End StoreCalls.

(** Ids are never reused.  After any sequence of [add_result] and [clear]
    calls on a new store, the counter is one more than the number of
    [add_result] calls made so far ([clear] does not reset it), the ids of
    the stored rows increase strictly in insertion order, and each lies
    between 1 and the counter, which is the id the next row will get. *)
Theorem ids_never_reused (calls : list MemoryStore.call) :
  let s := MemoryStore.after_all MemoryStore.init calls in
  MemoryStore._counter s = (1 + Z.of_nat (MemoryStore.adds_in calls))%Z
  /\ StronglySorted Z.lt (map MemoryStore.id (MemoryStore._store s))
  /\ NoDup (map MemoryStore.id (MemoryStore._store s))
  /\ Forall (fun r => (1 <= MemoryStore.id r < MemoryStore._counter s)%Z)
            (MemoryStore._store s)
  /\ forall a, ~ In (MemoryStore.id (snd (MemoryStore.add_result s a)))
                    (map MemoryStore.id (MemoryStore._store s)).
Proof.
  cbv zeta. destruct (reached_keeps calls) as (Hs & Hb & Hn).
  split; [exact Hn|]. split; [exact Hs|]. split; [|split; [exact Hb|]].
  - clear Hb Hn.
    induction (map MemoryStore.id _) as [|x l IH]; [constructor|].
    inversion Hs as [|? ? Hl Hx]; subst.
    constructor; [|now apply IH].
    intros Hin. rewrite Forall_forall in Hx. specialize (Hx x Hin). lia.
  - intros a Hin. cbn [MemoryStore.add_result snd MemoryStore.id] in Hin.
    apply in_map_iff in Hin. destruct Hin as (r & Hr & Hin).
    rewrite Forall_forall in Hb. specialize (Hb r Hin). lia.
Qed.

(** Insertion and lookup.  In a store reached by any sequence of calls,
    [get_by_id] finds every stored row under its id; after one more
    [add_result] the new id answers with the new row, an id that was free
    before, and every other lookup answers as before. *)
Theorem get_by_id_add_result (calls : list MemoryStore.call)
    (a : MemoryStore.add_args) :
  let s := MemoryStore.after_all MemoryStore.init calls in
  let out := MemoryStore.add_result s a in
  Forall (fun r => MemoryStore.get_by_id s (MemoryStore.id r) = Some r)
         (MemoryStore._store s)
  /\ MemoryStore.get_by_id s (MemoryStore.id (snd out)) = None
  /\ MemoryStore.get_by_id (fst out) (MemoryStore.id (snd out)) = Some (snd out)
  /\ forall k, k <> MemoryStore.id (snd out) ->
       MemoryStore.get_by_id (fst out) k = MemoryStore.get_by_id s k.
Proof.
  cbv zeta. destruct (reached_keeps calls) as (Hs & Hb & Hn).
  set (s := MemoryStore.after_all MemoryStore.init calls) in *.
  assert (Hfree : MemoryStore.get_by_id_in (MemoryStore._store s)
                    (MemoryStore._counter s) = None).
  { apply get_by_id_in_none. eapply Forall_impl; [|exact Hb].
    cbv beta. intros r Hr. lia. }
  split; [apply get_by_id_in_found, Hs|].
  unfold MemoryStore.get_by_id.
  cbn [MemoryStore.add_result fst snd MemoryStore.id MemoryStore._store].
  split; [exact Hfree|]. split.
  - rewrite get_by_id_in_app, Hfree. cbn [MemoryStore.get_by_id_in MemoryStore.id].
    now rewrite Z.eqb_refl.
  - intros k Hk. rewrite get_by_id_in_app.
    destruct (MemoryStore.get_by_id_in (MemoryStore._store s) k); [reflexivity|].
    cbn [MemoryStore.get_by_id_in MemoryStore.id].
    assert (E : (MemoryStore._counter s =? k)%Z = false) by (apply Z.eqb_neq; lia).
    now rewrite E.
Qed.

(** Newest first.  In a store reached by any sequence of calls, [get_all]
    without limit and offset lists the stored rows in the reverse of their
    insertion order, and a page with a positive limit and a non-negative
    offset is the slice of that list: it skips [offset] rows and holds at
    most [limit]. *)
Theorem get_all_newest_first (calls : list MemoryStore.call) (limit offset : Z) :
  (0 < limit)%Z -> (0 <= offset)%Z ->
  let s := MemoryStore.after_all MemoryStore.init calls in
  MemoryStore.get_all s None None = rev (MemoryStore._store s)
  /\ MemoryStore.get_all s (Some limit) (Some offset)
     = firstn (Z.to_nat limit) (skipn (Z.to_nat offset) (rev (MemoryStore._store s)))
  /\ (Z.of_nat (List.length (MemoryStore.get_all s (Some limit) (Some offset)))
      <= limit)%Z.
Proof.
  intros Hl Ho. cbv zeta. destruct (reached_keeps calls) as (Hs & _ & _).
  set (s := MemoryStore.after_all MemoryStore.init calls) in *.
  assert (Hrev : MemoryStore.sorted_by_id_desc (MemoryStore._store s)
                 = rev (MemoryStore._store s)).
  { apply sorted_increasing_rev, increasing_of_ids, Hs. }
  assert (Hpage : MemoryStore.get_all s (Some limit) (Some offset)
     = firstn (Z.to_nat limit) (skipn (Z.to_nat offset) (rev (MemoryStore._store s)))).
  { unfold MemoryStore.get_all. rewrite Hrev. unfold Py.truthy.
    assert (El : (limit =? 0)%Z = false) by (apply Z.eqb_neq; lia).
    rewrite El. cbn [negb].
    unfold Py.slice_to, Py.slice_from.
    assert (El' : (limit <? 0)%Z = false) by (apply Z.ltb_ge; lia).
    assert (Eo' : (offset <? 0)%Z = false) by (apply Z.ltb_ge; lia).
    rewrite El', Eo'.
    destruct (offset =? 0)%Z eqn:Eo; cbn [negb]; [|reflexivity].
    apply Z.eqb_eq in Eo. subst offset. reflexivity. }
  split; [|split; [exact Hpage|]].
  - unfold MemoryStore.get_all. exact Hrev.
  - rewrite Hpage, length_firstn. lia.
Qed.

Lemma get_all_newest_first_witness :
  map MemoryStore.id
    (MemoryStore.get_all
       (MemoryStore.after_all MemoryStore.init
          [MemoryStore.AddResult (sample_add 1); MemoryStore.Clear;
           MemoryStore.AddResult (sample_add 2); MemoryStore.AddResult (sample_add 3);
           MemoryStore.AddResult (sample_add 4)])
       (Some 2%Z) (Some 1%Z))
  = [3; 2]%Z.
Proof.
  destruct (get_all_newest_first
              [MemoryStore.AddResult (sample_add 1); MemoryStore.Clear;
               MemoryStore.AddResult (sample_add 2); MemoryStore.AddResult (sample_add 3);
               MemoryStore.AddResult (sample_add 4)]
              (limit := 2%Z) (offset := 1%Z) eq_refl)
    as (_ & H & _).
  - discriminate.
  - rewrite H. reflexivity.
Defined.

(** Negative limit and offset.  [get_all] hands them to Python's slices,
    which count a negative bound from the end: in a store reached by any
    sequence of calls, the limit [-k] leaves out the [k] oldest rows instead
    of limiting the page, and the offset [-k] returns only the [k] oldest
    rows instead of skipping any; both pages are still newest first. *)
Theorem get_all_negative (calls : list MemoryStore.call) (k : nat) :
  (0 < k)%nat ->
  let s := MemoryStore.after_all MemoryStore.init calls in
  MemoryStore.get_all s (Some (- Z.of_nat k)%Z) None
  = rev (skipn k (MemoryStore._store s))
  /\ MemoryStore.get_all s None (Some (- Z.of_nat k)%Z)
     = rev (firstn k (MemoryStore._store s)).
Proof.
  intros Hk. cbv zeta. destruct (reached_keeps calls) as (Hs & _ & _).
  set (s := MemoryStore.after_all MemoryStore.init calls) in *.
  assert (Hrev : MemoryStore.sorted_by_id_desc (MemoryStore._store s)
                 = rev (MemoryStore._store s)).
  { apply sorted_increasing_rev, increasing_of_ids, Hs. }
  assert (Ez : (- Z.of_nat k =? 0)%Z = false) by (apply Z.eqb_neq; lia).
  assert (En : (- Z.of_nat k <? 0)%Z = true) by (apply Z.ltb_lt; lia).
  unfold MemoryStore.get_all, Py.truthy. rewrite Hrev, Ez. cbn [negb].
  unfold Py.slice_to, Py.slice_from. rewrite En, length_rev.
  set (l := MemoryStore._store s). set (n := List.length l).
  replace (Z.to_nat (Z.max (Z.of_nat n + - Z.of_nat k) 0)) with (n - k)%nat by lia.
  split.
  - rewrite firstn_rev. fold n. f_equal.
    destruct (Nat.le_gt_cases k n) as [Hle | Hgt].
    + f_equal. lia.
    + replace (n - (n - k))%nat with n by lia.
      rewrite !skipn_all2; [reflexivity | fold n; lia | fold n; lia].
  - rewrite skipn_rev. fold n. f_equal.
    destruct (Nat.le_gt_cases k n) as [Hle | Hgt].
    + f_equal. lia.
    + replace (n - (n - k))%nat with n by lia.
      rewrite !firstn_all2; [reflexivity | fold n; lia | fold n; lia].
Qed.

Lemma get_all_negative_witness :
  map MemoryStore.id
    (MemoryStore.get_all
       (MemoryStore.after_all MemoryStore.init
          [MemoryStore.AddResult (sample_add 1); MemoryStore.AddResult (sample_add 2);
           MemoryStore.AddResult (sample_add 3); MemoryStore.AddResult (sample_add 4)])
       (Some (-1)%Z) None)
  = [4; 3; 2]%Z.
Proof.
  destruct (@get_all_negative
              [MemoryStore.AddResult (sample_add 1); MemoryStore.AddResult (sample_add 2);
               MemoryStore.AddResult (sample_add 3); MemoryStore.AddResult (sample_add 4)]
              1%nat) as (H & _).
  - lia.
  - change (- Z.of_nat 1)%Z with (-1)%Z in H. rewrite H. reflexivity.
Defined.

(** ** The statistics of the log *)

Section StatsFacts.
Import MemoryStore.

Lemma count_of_bump (v w : string) (d : counts) :
  count_of v (bump w d)
  = if String.eqb w v
    then Some (match count_of v d with Some n => (n + 1)%Z | None => 1%Z end)
    else count_of v d.
Proof.
  induction d as [|[k n] d IH]; cbn [bump count_of].
  - destruct (String.eqb w v); reflexivity.
  - destruct (String.eqb k w) eqn:Ekw; cbn [count_of].
    + apply String.eqb_eq in Ekw. subst k.
      destruct (String.eqb w v); reflexivity.
    + destruct (String.eqb k v) eqn:Ekv; [|exact IH].
      apply String.eqb_eq in Ekv. subst k.
      rewrite String.eqb_sym, Ekw. reflexivity.
Qed.

Lemma sum_ints_from (xs : list Z) (a : Z) :
  fold_left Z.add xs a = (a + sum_ints xs)%Z.
Proof.
  unfold sum_ints. revert a.
  induction xs as [|x xs IH]; intros a; cbn [fold_left]; [lia|].
  rewrite IH, (IH (0 + x)%Z). lia.
Qed.

Lemma sum_ints_cons (x : Z) (xs : list Z) :
  sum_ints (x :: xs) = (x + sum_ints xs)%Z.
Proof. unfold sum_ints at 1. cbn [fold_left]. rewrite sum_ints_from. lia. Qed.

Lemma sum_counts_bump (w : string) (d : counts) :
  sum_ints (map snd (bump w d)) = (sum_ints (map snd d) + 1)%Z.
Proof.
  induction d as [|[k n] d IH]; cbn [bump map snd]; [reflexivity|].
  destruct (String.eqb k w); cbn [map snd]; rewrite !sum_ints_cons; [lia|].
  rewrite IH. lia.
Qed.

(** The number of rows with verdict [v]. *)
Lemma counted_from (rows : list row) (v : string) : forall d,
  count_of v (fold_left (fun d r => bump (verdict r) d) rows d)
  = let n := Z.of_nat (List.length
                 (filter (fun r => String.eqb (verdict r) v) rows)) in
    match count_of v d with
    | Some m => Some (m + n)%Z
    | None => if (0 <? n)%Z then Some n else None
    end.
Proof.
  induction rows as [|r rows IH]; intros d; cbn [fold_left filter].
  - cbn. destruct (count_of v d); [f_equal; lia|reflexivity].
  - rewrite IH, count_of_bump. cbv zeta.
    destruct (String.eqb (verdict r) v); cbn [List.length].
    + rewrite Nat2Z.inj_succ.
      destruct (count_of v d) as [m|].
      * f_equal. lia.
      * assert (E : (0 <? Z.succ (Z.of_nat (List.length
                   (filter (fun r0 => String.eqb (verdict r0) v) rows))))%Z = true)
          by (apply Z.ltb_lt; lia).
        rewrite E. f_equal. lia.
    + reflexivity.
Qed.

Lemma summed_from (rows : list row) : forall d,
  sum_ints (map snd (fold_left (fun d r => bump (verdict r) d) rows d))
  = (sum_ints (map snd d) + Z.of_nat (List.length rows))%Z.
Proof.
  induction rows as [|r rows IH]; intros d; cbn [fold_left List.length].
  - lia.
  - rewrite IH, sum_counts_bump, Nat2Z.inj_succ. lia.
Qed.

Lemma sum_floats_from (xs : list Q) (a : Q) :
  fold_left Qplus xs a == a + sum_floats xs.
Proof.
  unfold sum_floats. revert a.
  induction xs as [|x xs IH]; intros a; cbn [fold_left]; [ring|].
  rewrite IH, (IH (0 + x)). ring.
Qed.

Lemma sum_floats_cons (x : Q) (xs : list Q) :
  sum_floats (x :: xs) == x + sum_floats xs.
Proof. unfold sum_floats at 1. cbn [fold_left]. rewrite sum_floats_from. ring. Qed.

Lemma sum_floats_between (lo hi : Q) (xs : list Q) :
  Forall (fun x => lo <= x <= hi) xs ->
  inject_Z (Z.of_nat (List.length xs)) * lo <= sum_floats xs
  /\ sum_floats xs <= inject_Z (Z.of_nat (List.length xs)) * hi.
Proof.
  induction 1 as [|x xs [Hlo Hhi] _ [IHlo IHhi]].
  - cbn. split; rewrite Qmult_0_l; apply Qle_refl.
  - cbn [List.length]. rewrite Nat2Z.inj_succ. unfold Z.succ.
    rewrite inject_Z_plus, sum_floats_cons.
    change (inject_Z 1) with 1.
    set (n := inject_Z (Z.of_nat (List.length xs))) in *.
    split; nra.
Qed.

Lemma sum_ints_between (lo hi : Z) (xs : list Z) :
  Forall (fun x => (lo <= x <= hi)%Z) xs ->
  (Z.of_nat (List.length xs) * lo <= sum_ints xs
   <= Z.of_nat (List.length xs) * hi)%Z.
Proof.
  induction 1 as [|x xs Hx _ IH].
  - cbn. lia.
  - cbn [List.length]. rewrite Nat2Z.inj_succ, sum_ints_cons. lia.
Qed.

Lemma positive_length {A : Type} (x : A) (l : list A) :
  0 < inject_Z (Z.of_nat (List.length (x :: l))).
Proof.
  change 0 with (inject_Z 0). rewrite <- Zlt_Qlt. cbn [List.length]. lia.
Qed.

Lemma mean_between (lo hi total n : Q) :
  0 < n -> n * lo <= total -> total <= n * hi ->
  lo <= total / n /\ total / n <= hi.
Proof.
  intros Hn Hlo Hhi. split.
  - apply Qle_shift_div_l; [exact Hn|]. lra.
  - apply Qle_shift_div_r; [exact Hn|]. lra.
Qed.

End StatsFacts.

(** The verdict counts of [get_stats].  The total is the number of stored
    rows; the counts add up to the total; and the count under a verdict is
    the number of rows with exactly that verdict, where the three standard
    verdicts are always present (with 0 when no row has them) and any other
    verdict is present once a row has it. *)
Theorem get_stats_counts (s : MemoryStore.t) (v : string) :
  let st := MemoryStore.get_stats s in
  let n := Z.of_nat (List.length
             (filter (fun r => String.eqb (MemoryStore.verdict r) v)
                     (MemoryStore._store s))) in
  MemoryStore.total st = Z.of_nat (List.length (MemoryStore._store s))
  /\ MemoryStore.sum_ints (map snd (MemoryStore.verdicts st)) = MemoryStore.total st
  /\ MemoryStore.count_of v (MemoryStore.verdicts st)
     = if existsb (String.eqb v) ["True"; "False"; "Unverified"]%string
          || (0 <? n)%Z
       then Some n else None.
Proof.
  cbv zeta. unfold MemoryStore.get_stats.
  destruct (MemoryStore._store s) as [|r rows] eqn:E.
  - cbn [MemoryStore.total MemoryStore.verdicts List.length filter].
    split; [reflexivity|]. split; [reflexivity|].
    unfold MemoryStore.no_counts. cbn [MemoryStore.count_of existsb].
    rewrite !(String.eqb_sym v).
    destruct (String.eqb "True" v); [reflexivity|].
    destruct (String.eqb "False" v); [reflexivity|].
    destruct (String.eqb "Unverified" v); reflexivity.
  - cbn [MemoryStore.total MemoryStore.verdicts].
    split; [reflexivity|]. split.
    + unfold MemoryStore.count_verdicts. rewrite summed_from. reflexivity.
    + unfold MemoryStore.count_verdicts. rewrite counted_from. cbv zeta.
      unfold MemoryStore.no_counts. cbn [MemoryStore.count_of existsb].
      rewrite !(String.eqb_sym v).
      destruct (String.eqb "True" v); [reflexivity|].
      destruct (String.eqb "False" v); [reflexivity|].
      destruct (String.eqb "Unverified" v); reflexivity.
Qed.

(** The average processing time of [get_stats].  It is taken over the rows
    that have a processing time: it is 0 when no row has one, the empty
    store included, and otherwise it lies between the least and the greatest
    recorded time, whatever the number of rows without one.  The times are
    integers, so their sum is exact and the quotient is the one rounded
    operation; for times between -2^53 and 2^53, where every integer is a
    float, the rounded quotient lies between the same bounds. *)
Theorem get_stats_average_time (s : MemoryStore.t) (tlo thi : Z) :
  (- 2 ^ 53 <= tlo)%Z -> (thi <= 2 ^ 53)%Z ->
  Forall (fun t => (tlo <= t <= thi)%Z)
         (MemoryStore.known_times (MemoryStore._store s)) ->
  let st := MemoryStore.get_stats s in
  (MemoryStore.known_times (MemoryStore._store s) = [] ->
   MemoryStore.average_processing_time_ms st == 0)
  /\ (MemoryStore.known_times (MemoryStore._store s) <> [] ->
      inject_Z tlo <= MemoryStore.average_processing_time_ms st <= inject_Z thi).
Proof.
  intros _ _ Htimes. cbv zeta. unfold MemoryStore.get_stats.
  destruct (MemoryStore._store s) as [|r rows] eqn:E.
  - cbn [MemoryStore.average_processing_time_ms]. split.
    + intros _. apply Qeq_refl.
    + intros Hk. now contradiction Hk.
  - cbn [MemoryStore.average_processing_time_ms]. split.
    + intros ->. apply Qeq_refl.
    + intros Hk.
      destruct (MemoryStore.known_times (r :: rows)) as [|t ts] eqn:Et; [congruence|].
      pose proof (positive_length t ts) as Hpos'.
      pose proof (sum_ints_between Htimes) as [H1 H2].
      apply mean_between; [exact Hpos'| |].
      * rewrite <- inject_Z_mult, <- Zle_Qle. exact H1.
      * rewrite <- inject_Z_mult, <- Zle_Qle. exact H2.
Qed.

Lemma get_stats_average_time_witness :
  let s := MemoryStore.add_all MemoryStore.init (sample_adds 4) in
  1250 <= MemoryStore.average_processing_time_ms (MemoryStore.get_stats s) <= 1250.
Proof.
  intros s.
  assert (Hlo : (- 2 ^ 53 <= 1250)%Z) by (apply Z.leb_le; reflexivity).
  assert (Hhi : (1250 <= 2 ^ 53)%Z) by (apply Z.leb_le; reflexivity).
  assert (Htimes : Forall (fun t => (1250 <= t <= 1250)%Z)
                     (MemoryStore.known_times (MemoryStore._store s))).
  { repeat constructor; discriminate. }
  destruct (@get_stats_average_time s 1250%Z 1250%Z Hlo Hhi Htimes) as (_ & Ht).
  apply Ht. discriminate.
Defined.

(** ** The end-to-end pipeline *)

(** The analysis entry point cannot lower-case the verification context it
    is handed. *)
Lemma analyze_claim_context (self : Llama.service) (host : Host.t)
    (c : Pathway.verification_context) (context : option Pathway.verification_context) :
  Llama.analyze_claim self host (Llama.Context c) context
  = Raise (AttributeError "'dict' object has no attribute 'lower'").
Proof. reflexivity. Qed.

Lemma preprocess_claim_ok (table_empty : result unit) (now claim : string) :
  exists method,
    Pathway.preprocess_claim table_empty now claim
    = Ok (Pathway.processed_data claim now method).
Proof.
  destruct table_empty as [[]|e]; [exists None | exists (Some "basic"%string)];
    reflexivity.
Qed.

Lemma checked_raises (self : Llama.service) (host : Host.t) (claim : string)
    (session_id : option string) :
  FactChecker.checked self host claim session_id
  = Raise (AttributeError "'dict' object has no attribute 'lower'").
Proof.
  unfold FactChecker.checked.
  destruct (preprocess_claim_ok (Host.table_empty host) (Host.utcnow host) claim)
    as [method ->].
  reflexivity.
Qed.

(** C1. In demo mode, [check_fact] on the claim "The Earth is flat" stores a
    record whose verdict is [Unverified] and whose confidence is [0],
    whatever the store held and whatever the clock, Pathway and the backend
    do: the service's [analyze_claim] is the later definition, which calls
    [.lower()] on the verification context.  The pipeline wired to the first
    [analyze_claim] stores verdict [False] with confidence [99.9]. *)
Theorem check_fact_flat_earth (host : Host.t) (memory_store : MemoryStore.t)
    (session_id : option string) :
  let out := FactChecker.check_fact Llama.default_service host memory_store
               "The Earth is flat" session_id in
  Llama.demo_mode Llama.default_service = true
  /\ MemoryStore.verdict (snd out) = "Unverified"%string
  /\ MemoryStore.confidence_score (snd out) == 0
  /\ MemoryStore.explanation (snd out)
     = ("Fact-checking failed due to technical error: "
        ++ "'dict' object has no attribute 'lower'. Please try again later.")%string
  /\ MemoryStore._store (fst out) = (MemoryStore._store memory_store ++ [snd out])%list
  /\ exists args,
       FactChecker.checked_legacy Llama.default_service host "The Earth is flat"
         session_id = Ok args
       /\ MemoryStore.a_verdict args = "False"%string
       /\ MemoryStore.a_confidence_score args == 99.9.
Proof.
  cbv zeta. unfold FactChecker.check_fact. rewrite checked_raises.
  repeat split.
  unfold FactChecker.checked_legacy.
  destruct (preprocess_claim_ok (Host.table_empty host) (Host.utcnow host)
              "The Earth is flat") as [method ->].
  cbn [bind].
  set (analysis :=
         Llama.analyze_claim_legacy Llama.default_service host
           (Pathway.create_verification_context
              (Pathway.processed_data "The Earth is flat" (Host.utcnow host) method)
              None)).
  assert (Hverdict : Json.get "verdict" analysis = Some (Json.Str "False")).
  { subst analysis. vm_compute. reflexivity. }
  assert (Hconf : Json.get "confidence_score" analysis = Some (Json.Float 99.9)).
  { subst analysis. vm_compute. reflexivity. }
  assert (Hexpl : exists text,
             FactChecker._format_explanation host analysis = Ok text).
  { subst analysis. eexists. vm_compute. reflexivity. }
  destruct Hexpl as [text Htext].
  unfold Json.get_default. rewrite Hverdict, Hconf. cbn [FactChecker.expect_text bind].
  unfold FactChecker.expect_number. cbn [Json.as_number bind].
  rewrite Htext. cbn [bind].
  eexists. split; [reflexivity|]. split; reflexivity.
Qed.

(** ** The endpoints *)

(** Stripping a text of white space only leaves nothing. *)
Lemma lstrip_spaces (s : string) :
  forallb Py.is_space (list_ascii_of_string s) = true -> Py.lstrip s = ""%string.
Proof.
  induction s as [|c s IH]; cbn [list_ascii_of_string forallb Py.lstrip];
    [reflexivity|].
  intros H. apply andb_true_iff in H. destruct H as [Hc Hs].
  rewrite Hc. now apply IH.
Qed.

Lemma strip_spaces (s : string) :
  forallb Py.is_space (list_ascii_of_string s) = true -> Py.strip s = ""%string.
Proof.
  intros H. unfold Py.strip, Py.rstrip. rewrite (lstrip_spaces s H). reflexivity.
Qed.

Lemma check_claim_outcome (self : Llama.service) (host : Host.t)
    (memory_store : MemoryStore.t) (claim_request : Api.ClaimRequest) :
  let out := Api.check_claim self host memory_store claim_request in
  let row := snd (FactChecker.check_fact self host memory_store
                    (Api.q_claim claim_request) (Api.q_session_id claim_request)) in
  MemoryStore.verdict row = "Unverified"%string
  /\ MemoryStore.confidence_score row == 0
  /\ MemoryStore.explanation row
     = ("Fact-checking failed due to technical error: "
        ++ "'dict' object has no attribute 'lower'. Please try again later.")%string
  /\ MemoryStore.sources row = None
  /\ MemoryStore.claim row = Py.strip (Api.q_claim claim_request)
  /\ MemoryStore.id row = MemoryStore._counter memory_store
  /\ MemoryStore._store (fst out) = (MemoryStore._store memory_store ++ [row])%list
  /\ exists c,
       snd out = Ok c
       /\ Api.c_id c = MemoryStore.id row
       /\ Api.c_verdict c = "Unverified"%string
       /\ Api.c_confidence_score c == 0
       /\ Api.c_explanation c = MemoryStore.explanation row.
Proof.
  cbv zeta. unfold Api.check_claim, FactChecker.check_fact.
  rewrite checked_raises.
  cbn [MemoryStore.add_result fst snd FactChecker.error_result
       MemoryStore.verdict MemoryStore.confidence_score MemoryStore.explanation
       MemoryStore.sources MemoryStore.claim MemoryStore.id MemoryStore._store
       MemoryStore.a_claim MemoryStore.a_verdict MemoryStore.a_confidence_score
       MemoryStore.a_explanation MemoryStore.a_sources str_of_exn].
  repeat (split; [reflexivity|]).
  eexists. split; [reflexivity|].
  repeat split; reflexivity.
Qed.


(** The request is measured before it is stripped.  A claim of 5 to 1000
    characters that are all white space passes the validation of
    [ClaimRequest], and the record stored for it has the empty claim. *)
Theorem blank_claim_accepted (self : Llama.service) (host : Host.t)
    (memory_store : MemoryStore.t) (body : Api.ClaimRequest) :
  (5 <= String.length (Api.q_claim body) <= 1000)%nat ->
  forallb Py.is_space (list_ascii_of_string (Api.q_claim body)) = true ->
  Api.validate_request body = Ok body
  /\ let out := Api.post_check self host memory_store body in
     (exists c, snd out = Ok c /\ Api.c_claim c = ""%string)
     /\ exists row,
          MemoryStore._store (fst out) = (MemoryStore._store memory_store ++ [row])%list
          /\ MemoryStore.claim row = ""%string.
Proof.
  intros [Hlo Hhi] Hblank.
  assert (Hv : Api.validate_request body = Ok body).
  { unfold Api.validate_request.
    assert (E1 : (String.length (Api.q_claim body) <? 5)%nat = false)
      by (apply Nat.ltb_ge; exact Hlo).
    assert (E2 : (1000 <? String.length (Api.q_claim body))%nat = false)
      by (apply Nat.ltb_ge; exact Hhi).
    rewrite E1, E2. reflexivity. }
  split; [exact Hv|]. cbv zeta. unfold Api.post_check. rewrite Hv.
  destruct (check_claim_outcome self host memory_store body)
    as (_ & _ & _ & _ & Hclaim & _ & Hstore & c & Hc & _).
  rewrite (strip_spaces _ Hblank) in Hclaim.
  split.
  - exists c. split; [exact Hc|].
    unfold Api.check_claim in Hc. cbn [snd] in Hc.
    destruct (Api.validate_response _) as [c'|e] eqn:Ev in Hc; [|discriminate].
    injection Hc as <-.
    unfold Api.validate_response in Ev.
    repeat match type of Ev with
           | (if ?b then _ else _) = _ => destruct b; [discriminate|]
           end.
    injection Ev as <-. exact Hclaim.
  - eexists. split; [exact Hstore|exact Hclaim].
Qed.

Lemma blank_claim_accepted_witness :
  exists c,
    snd (Api.post_check Llama.default_service sample_host MemoryStore.init
           {| Api.q_claim := "      "; Api.q_session_id := None |}) = Ok c
    /\ Api.c_claim c = ""%string.
Proof.
  destruct (@blank_claim_accepted Llama.default_service sample_host MemoryStore.init
              {| Api.q_claim := "      "; Api.q_session_id := None |})
    as (_ & H & _).
  - cbn. lia.
  - reflexivity.
  - exact H.
Defined.

Lemma build_all_decides (page : list MemoryStore.row) :
  let fits (r : MemoryStore.row) :=
    Api.is_verdict (MemoryStore.verdict r)
    && Qle_bool 0 (MemoryStore.confidence_score r)
    && Qle_bool (MemoryStore.confidence_score r) 100 in
  Api.build_all page
  = if forallb fits page then Ok (map Api.to_history page)
    else Raise (ValidationError
                  match find (fun r => negb (fits r)) page with
                  | Some r =>
                      if Api.is_verdict (MemoryStore.verdict r)
                      then "confidence_score" else "verdict"
                  | None => ""
                  end%string).
Proof.
  cbv zeta.
  induction page as [|r page IH]; cbn [Api.build_all forallb map find];
    [reflexivity|].
  unfold Api.validate at 1.
  cbn [Api.to_history Api.h_verdict Api.h_confidence_score]. cbv beta.
  destruct (Api.is_verdict (MemoryStore.verdict r)) eqn:Ev; cbn [negb andb bind];
    [|rewrite Ev; reflexivity].
  destruct (Qle_bool 0 (MemoryStore.confidence_score r)); cbn [negb andb bind];
    [|rewrite Ev; reflexivity].
  destruct (Qle_bool (MemoryStore.confidence_score r) 100); cbn [negb andb bind];
    [|rewrite Ev; reflexivity].
  rewrite IH.
  destruct (forallb _ page); reflexivity.
Qed.

(** History is all or nothing.  When every row of the requested page
    satisfies the response schema, [get_history] returns the views of the
    rows of the page, in the order of the page; when one row has a verdict
    outside [VerdictEnum] or a confidence outside 0..100, the whole request
    fails with an HTTP 500 that names the field of the first such row,
    whatever the other rows are. *)
Theorem get_history_all_or_nothing (store : MemoryStore.t) (limit offset : option Z) :
  let page := MemoryStore.get_all store limit offset in
  let fits (r : MemoryStore.row) :=
    Api.is_verdict (MemoryStore.verdict r)
    && Qle_bool 0 (MemoryStore.confidence_score r)
    && Qle_bool (MemoryStore.confidence_score r) 100 in
  Api.get_history store limit offset
  = if forallb fits page then Ok (map Api.to_history page)
    else Raise (HTTPException 500
                  ("Failed to retrieve history: "
                   ++ match find (fun r => negb (fits r)) page with
                      | Some r =>
                          if Api.is_verdict (MemoryStore.verdict r)
                          then "confidence_score" else "verdict"
                      | None => ""
                      end)%string).
Proof.
  cbv zeta. unfold Api.get_history.
  pose proof (build_all_decides (MemoryStore.get_all store limit offset)) as H.
  cbv zeta in H. rewrite H.
  destruct (forallb _ (MemoryStore.get_all store limit offset)); reflexivity.
Qed.

(** The shortened explanation of a history entry has at most 203
    characters.  A stored explanation of at most 200 characters is returned
    as it is; a longer one is cut to its first 200 characters followed by
    three dots, which is 203 characters whatever the length was. *)
Theorem history_explanation_bounded (r : MemoryStore.row) :
  let e := MemoryStore.explanation r in
  let h := Api.h_explanation (Api.to_history r) in
  (String.length h <= 203)%nat
  /\ ((String.length e <= 200)%nat /\ h = e
      \/ (200 < String.length e)%nat
         /\ h = (Py.take 200 e ++ "...")%string
         /\ e = (Py.take 200 e ++ Py.drop 200 e)%string
         /\ String.length h = 203%nat).
Proof.
  cbv zeta. cbn [Api.to_history Api.h_explanation]. unfold Api.shorten.
  destruct (200 <? String.length (MemoryStore.explanation r))%nat eqn:E.
  - apply Nat.ltb_lt in E.
    assert (L : String.length (Py.take 200 (MemoryStore.explanation r) ++ "...")
                = 203%nat).
    { rewrite string_app_length, take_length. cbn [String.length]. lia. }
    split; [lia|]. right.
    split; [exact E|]. split; [reflexivity|]. split; [|exact L].
    symmetry. apply take_drop.
  - apply Nat.ltb_ge in E. split; [lia|]. left. split; [exact E|reflexivity].
Qed.

(** ** The self-test *)

(** The self-test does not see an unreachable backend.  When the client
    library gives no reply and the HTTP call times out, fails or answers
    with a status other than 200, [_call_llama_api] answers with the canned
    mock reply, which is not empty: [test_connection] reports [connected] and
    [test_services] reports the overall status [healthy]. *)
Theorem self_test_blind (self : Llama.service) (host : Host.t) :
  (forall r, Host.ollama_generate host <> Some (Ok r)) ->
  (forall r, Host.http_post host <> Host.HttpResponse 200 r) ->
  Llama._call_llama_api host Llama.test_prompt
  = Llama._get_mock_response Llama.test_prompt
  /\ Llama.status (Llama.test_connection self host) = "connected"%string
  /\ FactChecker.pathway_status (FactChecker.test_services self host)
     = "working"%string
  /\ FactChecker.overall_status (FactChecker.test_services self host)
     = "healthy"%string.
Proof.
  intros Hclient Hhttp.
  assert (Hcall : Llama._call_llama_api host Llama.test_prompt
                  = Llama._get_mock_response Llama.test_prompt).
  { unfold Llama._call_llama_api.
    destruct (Host.ollama_generate host) as [[r|e]|];
      [exfalso; exact (Hclient r eq_refl)| |];
      (destruct (Host.http_post host) as [status_code response| |e'];
       [|reflexivity|reflexivity];
       destruct (status_code =? 200)%Z eqn:E; [|reflexivity];
       apply Z.eqb_eq in E; subst status_code;
       exfalso; exact (Hhttp response eq_refl)). }
  assert (Hstatus : Llama.status (Llama.test_connection self host)
                    = "connected"%string).
  { unfold Llama.test_connection. cbn [Llama.status]. rewrite Hcall.
    vm_compute. reflexivity. }
  split; [exact Hcall|]. split; [exact Hstatus|].
  unfold FactChecker.test_services.
  cbn [FactChecker.pathway_status FactChecker.overall_status].
  rewrite Hstatus.
  destruct (preprocess_claim_ok (Host.table_empty host) (Host.utcnow host)
              FactChecker.test_claim) as [method ->].
  split; reflexivity.
Qed.

Lemma self_test_blind_witness :
  FactChecker.overall_status
    (FactChecker.test_services Llama.default_service sample_host)
  = "healthy"%string.
Proof.
  destruct (@self_test_blind Llama.default_service sample_host)
    as (_ & _ & _ & H).
  - intros r. discriminate.
  - intros r. discriminate.
  - exact H.
Defined.

(** ** Further properties of the pipeline *)

(** The search queries start with the claim as given and are at most
    five. *)
Theorem search_queries_bounded (claim : string) :
  (List.length (Pathway._generate_search_queries claim) <= 5)%nat
  /\ hd_error (Pathway._generate_search_queries claim) = Some claim.
Proof.
  unfold Pathway._generate_search_queries. split.
  - apply firstn_le_length.
  - destruct (3 <=? List.length (Pathway._extract_key_terms claim))%nat;
      reflexivity.
Qed.

(** The claim type is one of the seven tags. *)
Theorem classify_in_enum (claim : string) :
  In (Pathway._classify_claim_type claim)
     ["measurement"; "temporal"; "geographical"; "biographical";
      "definitional"; "comparative"; "general"]%string.
Proof.
  unfold Pathway._classify_claim_type.
  repeat match goal with
         | |- context [if ?b then _ else _] => destruct b
         end;
    cbn [In]; tauto.
Qed.

(** The complexity score lies between 0 and 5. *)
Theorem complexity_in_range (claim : string) :
  0 <= Pathway._calculate_complexity claim
  /\ Pathway._calculate_complexity claim <= 5.
Proof.
  split.
  - unfold Pathway._calculate_complexity, Pathway.complexity_of.
    assert (Hnat : forall n, 0 <= inject_Z (Z.of_nat n)).
    { intros n. change 0 with (inject_Z 0). rewrite <- Zle_Qle. lia. }
    rewrite !py_min_Qmin, sum_of_mult.
    pose proof (Hnat (Pathway.word_count claim)) as Hw.
    pose proof (Hnat (Pathway.subordinate_hits claim)) as Hh.
    pose proof (Hnat (Pathway.digit_runs claim)) as Hr.
    assert (H1 : 0 <= Qmin (inject_Z (Z.of_nat (Pathway.word_count claim)) / 10) 1.0).
    { apply Q.min_glb; [|discriminate].
      apply Qle_shift_div_l; [reflexivity|]. lra. }
    apply Q.min_glb; [|discriminate]. lra.
  - unfold Pathway._calculate_complexity, Pathway.complexity_of.
    eapply Qle_trans; [apply py_min_le_r | discriminate].
Qed.

(** Every request appends exactly one record to the log, under the next
    id. *)
Theorem check_fact_appends_one (self : Llama.service) (host : Host.t)
    (memory_store : MemoryStore.t) (claim : string) (session_id : option string) :
  let out := FactChecker.check_fact self host memory_store claim session_id in
  MemoryStore._store (fst out) = (MemoryStore._store memory_store ++ [snd out])%list
  /\ MemoryStore.id (snd out) = MemoryStore._counter memory_store
  /\ MemoryStore._counter (fst out) = (MemoryStore._counter memory_store + 1)%Z
  /\ MemoryStore.claim (snd out) = Py.strip claim.
Proof.
  cbv zeta. unfold FactChecker.check_fact.
  destruct (FactChecker.checked self host claim session_id) as [args|e] eqn:E.
  - repeat split.
    unfold FactChecker.checked in E.
    repeat match type of E with
           | bind ?r _ = Ok _ => destruct r; [cbn [bind] in E | discriminate E]
           end.
    injection E as <-. reflexivity.
  - repeat split.
Qed.

(** The ids of a log filled from scratch are 1, 2, 3, ... in insertion
    order, and the counter is one past the last of them. *)
Theorem ids_sequential (adds : list MemoryStore.add_args) :
  let s := MemoryStore.add_all MemoryStore.init adds in
  map MemoryStore.id (MemoryStore._store s)
  = map (fun k => Z.of_nat (S k)) (seq 0 (List.length adds))
  /\ MemoryStore._counter s = (Z.of_nat (List.length adds) + 1)%Z
  /\ NoDup (map MemoryStore.id (MemoryStore._store s)).
Proof.
  cbv zeta. split; [apply fresh_store_ids|]. split.
  - rewrite add_all_counter. cbn [MemoryStore.init MemoryStore._counter]. lia.
  - rewrite fresh_store_ids.
    apply Finite.Injective_map_NoDup; [|apply seq_NoDup].
    intros a b H. lia.
Qed.

(** With the configurations that [__init__] installs, the analysis of a
    claim given as text stops at the lookup of the general configuration,
    which is not among them. *)
Theorem analyze_text_claim_raises (host : Host.t) (claim : string)
    (context : option Pathway.verification_context) :
  Llama.analyze_claim Llama.default_service host (Llama.Text claim) context
  = Raise (KeyError "<ClaimCategory.GENERAL: 'general'>").
Proof.
  unfold Llama.analyze_claim, Llama.analyze_claim_universal,
    Llama._categorize_claim_advanced.
  cbn [Llama.lower_of bind].
  match goal with
  | |- context [Llama.best_of ?a ?b] => destruct (Llama.best_of a b) as [c x]
  end.
  reflexivity.
Qed.
